(** * Scroller: link validation, URL repair, urgency sort and funding statistics

    A shallow embedding of the algorithmic core of the Scroller funding
    dashboard:

    - [Validator]: [validate_url] of [Scroller_Deploy/app.py];
    - [Repair]: [attempt_url_fix] of [Scroller_Deploy/app.py];
    - [Searcher]: [SubventionSearcher] and its source adapters of [api.py];
    - [Analysis]: the funding aggregation of [create_analysis_log].

    Modelling conventions.

    - A Python [str] is a Rocq [string], read as the UTF-8 bytes of the text.
      Every pattern the code searches for is a whole character, and UTF-8
      is self-synchronising, so [replace], [startswith], [in] and friends
      agree on bytes and on code points.  The methods that look at the class
      or the case of a character ([strip], [split], [isdigit], [lower],
      [upper]) decode the bytes and consult the character tables of the
      Python run time, module [Unicode].
    - A Python [float] of the funding aggregation is the binary64 value of a
      non-negative integer, or [inf]; module [PyFloat] has the rounding of
      [float(s)] and of [+].
    - The network and the HTML parser are outside the repository.  They are
      an oracle: a function from the history of requests, the URL and the
      timeout to the outcome of the request.  All theorems quantify over
      the oracle.
    - Effects are threaded through a small state monad over [world]. *)

From Stdlib Require Import String Ascii List ZArith Lia Bool DecimalString.
From Stdlib Require Import Permutation Sorted.
Import ListNotations.

Open Scope string_scope.
Open Scope list_scope.
Open Scope Z_scope.

(* ================================================================= *)
(** ** Character data of the Python run time

    The tables that [str.isspace], [str.isdigit], [float], [str.lower] and
    [str.upper] consult, for the Unicode database of CPython 3.11 (Unicode
    14.0.0).  A code point is a number in [N]; every table is in ascending
    order. *)

Module Unicode.

Local Open Scope N_scope.

(** Membership in a list of ranges [(first, last)] in ascending order. *)
Fixpoint in_ranges (n : N) (ranges : list (N * N)) : bool :=
  match ranges with
  | [] => false
  | (first, last) :: rest =>
      if n <? first then false
      else if n <=? last then true
      else in_ranges n rest
  end.

(** The image of [n] under a list of entries [(first, last, step, image)]:
    the code points [first], [first + step], ... up to [last] are mapped to
    [image], [image + step], ...; any other code point is its own image. *)
Fixpoint map_ranges (n : N) (entries : list (N * N * N * N)) : N :=
  match entries with
  | [] => n
  | (first, last, step, image) :: rest =>
      if n <? first then n
      else if (n <=? last) && ((n - first) mod step =? 0) then image + (n - first)
      else map_ranges n rest
  end.

Fixpoint special_case (n : N) (entries : list (N * list N)) : option (list N) :=
  match entries with
  | [] => None
  | (c, image) :: rest => if n =? c then Some image else special_case n rest
  end.

(** The characters of [str.isspace], which [str.strip] and [str.split] remove. *)
Definition whitespace : list (N * N) :=
  [
   (0x9, 0xd); (0x1c, 0x20); (0x85, 0x85); (0xa0, 0xa0); (0x1680, 0x1680);
   (0x2000, 0x200a); (0x2028, 0x2029); (0x202f, 0x202f); (0x205f, 0x205f); (0x3000, 0x3000)
  ].

(** The characters of [str.isdigit]: the decimal digits of every script and the other characters with a digit value (superscripts, circled digits, ...). *)
Definition digit : list (N * N) :=
  [
   (0x30, 0x39); (0xb2, 0xb3); (0xb9, 0xb9); (0x660, 0x669); (0x6f0, 0x6f9);
   (0x7c0, 0x7c9); (0x966, 0x96f); (0x9e6, 0x9ef); (0xa66, 0xa6f); (0xae6, 0xaef);
   (0xb66, 0xb6f); (0xbe6, 0xbef); (0xc66, 0xc6f); (0xce6, 0xcef); (0xd66, 0xd6f);
   (0xde6, 0xdef); (0xe50, 0xe59); (0xed0, 0xed9); (0xf20, 0xf29); (0x1040, 0x1049);
   (0x1090, 0x1099); (0x1369, 0x1371); (0x17e0, 0x17e9); (0x1810, 0x1819); (0x1946, 0x194f);
   (0x19d0, 0x19da); (0x1a80, 0x1a89); (0x1a90, 0x1a99); (0x1b50, 0x1b59); (0x1bb0, 0x1bb9);
   (0x1c40, 0x1c49); (0x1c50, 0x1c59); (0x2070, 0x2070); (0x2074, 0x2079); (0x2080, 0x2089);
   (0x2460, 0x2468); (0x2474, 0x247c); (0x2488, 0x2490); (0x24ea, 0x24ea); (0x24f5, 0x24fd);
   (0x24ff, 0x24ff); (0x2776, 0x277e); (0x2780, 0x2788); (0x278a, 0x2792); (0xa620, 0xa629);
   (0xa8d0, 0xa8d9); (0xa900, 0xa909); (0xa9d0, 0xa9d9); (0xa9f0, 0xa9f9); (0xaa50, 0xaa59);
   (0xabf0, 0xabf9); (0xff10, 0xff19); (0x104a0, 0x104a9); (0x10a40, 0x10a43); (0x10d30, 0x10d39);
   (0x10e60, 0x10e68); (0x11052, 0x1105a); (0x11066, 0x1106f); (0x110f0, 0x110f9); (0x11136, 0x1113f);
   (0x111d0, 0x111d9); (0x112f0, 0x112f9); (0x11450, 0x11459); (0x114d0, 0x114d9); (0x11650, 0x11659);
   (0x116c0, 0x116c9); (0x11730, 0x11739); (0x118e0, 0x118e9); (0x11950, 0x11959); (0x11c50, 0x11c59);
   (0x11d50, 0x11d59); (0x11da0, 0x11da9); (0x16a60, 0x16a69); (0x16ac0, 0x16ac9); (0x16b50, 0x16b59);
   (0x1d7ce, 0x1d7ff); (0x1e140, 0x1e149); (0x1e2f0, 0x1e2f9); (0x1e950, 0x1e959); (0x1f100, 0x1f10a);
   (0x1fbf0, 0x1fbf9)
  ].

(** The zeros of the decimal digits: the ten digits of a script follow
    each other from its zero.  These are the digits that [float] reads. *)
Definition decimal_zero : list N :=
  [
   0x30; 0x660; 0x6f0; 0x7c0; 0x966; 0x9e6; 0xa66; 0xae6;
   0xb66; 0xbe6; 0xc66; 0xce6; 0xd66; 0xde6; 0xe50; 0xed0;
   0xf20; 0x1040; 0x1090; 0x17e0; 0x1810; 0x1946; 0x19d0; 0x1a80;
   0x1a90; 0x1b50; 0x1bb0; 0x1c40; 0x1c50; 0xa620; 0xa8d0; 0xa900;
   0xa9d0; 0xa9f0; 0xaa50; 0xabf0; 0xff10; 0x104a0; 0x10d30; 0x11066;
   0x110f0; 0x11136; 0x111d0; 0x112f0; 0x11450; 0x114d0; 0x11650; 0x116c0;
   0x11730; 0x118e0; 0x11950; 0x11c50; 0x11d50; 0x11da0; 0x16a60; 0x16ac0;
   0x16b50; 0x1d7ce; 0x1d7d8; 0x1d7e2; 0x1d7ec; 0x1d7f6; 0x1e140; 0x1e2f0;
   0x1e950; 0x1fbf0
  ].

(** The characters with a one-character lower case of their own. *)
Definition lowercase : list (N * N * N * N) :=
  [
   (0x41, 0x5a, 1, 0x61); (0xc0, 0xd6, 1, 0xe0); (0xd8, 0xde, 1, 0xf8);
   (0x100, 0x12e, 2, 0x101); (0x132, 0x136, 2, 0x133); (0x139, 0x147, 2, 0x13a);
   (0x14a, 0x176, 2, 0x14b); (0x178, 0x178, 1, 0xff); (0x179, 0x17d, 2, 0x17a);
   (0x181, 0x181, 1, 0x253); (0x182, 0x184, 2, 0x183); (0x186, 0x186, 1, 0x254);
   (0x187, 0x187, 1, 0x188); (0x189, 0x18a, 1, 0x256); (0x18b, 0x18b, 1, 0x18c);
   (0x18e, 0x18e, 1, 0x1dd); (0x18f, 0x18f, 1, 0x259); (0x190, 0x190, 1, 0x25b);
   (0x191, 0x191, 1, 0x192); (0x193, 0x193, 1, 0x260); (0x194, 0x194, 1, 0x263);
   (0x196, 0x196, 1, 0x269); (0x197, 0x197, 1, 0x268); (0x198, 0x198, 1, 0x199);
   (0x19c, 0x19c, 1, 0x26f); (0x19d, 0x19d, 1, 0x272); (0x19f, 0x19f, 1, 0x275);
   (0x1a0, 0x1a4, 2, 0x1a1); (0x1a6, 0x1a6, 1, 0x280); (0x1a7, 0x1a7, 1, 0x1a8);
   (0x1a9, 0x1a9, 1, 0x283); (0x1ac, 0x1ac, 1, 0x1ad); (0x1ae, 0x1ae, 1, 0x288);
   (0x1af, 0x1af, 1, 0x1b0); (0x1b1, 0x1b2, 1, 0x28a); (0x1b3, 0x1b5, 2, 0x1b4);
   (0x1b7, 0x1b7, 1, 0x292); (0x1b8, 0x1b8, 1, 0x1b9); (0x1bc, 0x1bc, 1, 0x1bd);
   (0x1c4, 0x1c4, 1, 0x1c6); (0x1c5, 0x1c5, 1, 0x1c6); (0x1c7, 0x1c7, 1, 0x1c9);
   (0x1c8, 0x1c8, 1, 0x1c9); (0x1ca, 0x1ca, 1, 0x1cc); (0x1cb, 0x1db, 2, 0x1cc);
   (0x1de, 0x1ee, 2, 0x1df); (0x1f1, 0x1f1, 1, 0x1f3); (0x1f2, 0x1f4, 2, 0x1f3);
   (0x1f6, 0x1f6, 1, 0x195); (0x1f7, 0x1f7, 1, 0x1bf); (0x1f8, 0x21e, 2, 0x1f9);
   (0x220, 0x220, 1, 0x19e); (0x222, 0x232, 2, 0x223); (0x23a, 0x23a, 1, 0x2c65);
   (0x23b, 0x23b, 1, 0x23c); (0x23d, 0x23d, 1, 0x19a); (0x23e, 0x23e, 1, 0x2c66);
   (0x241, 0x241, 1, 0x242); (0x243, 0x243, 1, 0x180); (0x244, 0x244, 1, 0x289);
   (0x245, 0x245, 1, 0x28c); (0x246, 0x24e, 2, 0x247); (0x370, 0x372, 2, 0x371);
   (0x376, 0x376, 1, 0x377); (0x37f, 0x37f, 1, 0x3f3); (0x386, 0x386, 1, 0x3ac);
   (0x388, 0x38a, 1, 0x3ad); (0x38c, 0x38c, 1, 0x3cc); (0x38e, 0x38f, 1, 0x3cd);
   (0x391, 0x3a1, 1, 0x3b1); (0x3a3, 0x3ab, 1, 0x3c3); (0x3cf, 0x3cf, 1, 0x3d7);
   (0x3d8, 0x3ee, 2, 0x3d9); (0x3f4, 0x3f4, 1, 0x3b8); (0x3f7, 0x3f7, 1, 0x3f8);
   (0x3f9, 0x3f9, 1, 0x3f2); (0x3fa, 0x3fa, 1, 0x3fb); (0x3fd, 0x3ff, 1, 0x37b);
   (0x400, 0x40f, 1, 0x450); (0x410, 0x42f, 1, 0x430); (0x460, 0x480, 2, 0x461);
   (0x48a, 0x4be, 2, 0x48b); (0x4c0, 0x4c0, 1, 0x4cf); (0x4c1, 0x4cd, 2, 0x4c2);
   (0x4d0, 0x52e, 2, 0x4d1); (0x531, 0x556, 1, 0x561); (0x10a0, 0x10c5, 1, 0x2d00);
   (0x10c7, 0x10c7, 1, 0x2d27); (0x10cd, 0x10cd, 1, 0x2d2d); (0x13a0, 0x13ef, 1, 0xab70);
   (0x13f0, 0x13f5, 1, 0x13f8); (0x1c90, 0x1cba, 1, 0x10d0); (0x1cbd, 0x1cbf, 1, 0x10fd);
   (0x1e00, 0x1e94, 2, 0x1e01); (0x1e9e, 0x1e9e, 1, 0xdf); (0x1ea0, 0x1efe, 2, 0x1ea1);
   (0x1f08, 0x1f0f, 1, 0x1f00); (0x1f18, 0x1f1d, 1, 0x1f10); (0x1f28, 0x1f2f, 1, 0x1f20);
   (0x1f38, 0x1f3f, 1, 0x1f30); (0x1f48, 0x1f4d, 1, 0x1f40); (0x1f59, 0x1f5f, 2, 0x1f51);
   (0x1f68, 0x1f6f, 1, 0x1f60); (0x1f88, 0x1f8f, 1, 0x1f80); (0x1f98, 0x1f9f, 1, 0x1f90);
   (0x1fa8, 0x1faf, 1, 0x1fa0); (0x1fb8, 0x1fb9, 1, 0x1fb0); (0x1fba, 0x1fbb, 1, 0x1f70);
   (0x1fbc, 0x1fbc, 1, 0x1fb3); (0x1fc8, 0x1fcb, 1, 0x1f72); (0x1fcc, 0x1fcc, 1, 0x1fc3);
   (0x1fd8, 0x1fd9, 1, 0x1fd0); (0x1fda, 0x1fdb, 1, 0x1f76); (0x1fe8, 0x1fe9, 1, 0x1fe0);
   (0x1fea, 0x1feb, 1, 0x1f7a); (0x1fec, 0x1fec, 1, 0x1fe5); (0x1ff8, 0x1ff9, 1, 0x1f78);
   (0x1ffa, 0x1ffb, 1, 0x1f7c); (0x1ffc, 0x1ffc, 1, 0x1ff3); (0x2126, 0x2126, 1, 0x3c9);
   (0x212a, 0x212a, 1, 0x6b); (0x212b, 0x212b, 1, 0xe5); (0x2132, 0x2132, 1, 0x214e);
   (0x2160, 0x216f, 1, 0x2170); (0x2183, 0x2183, 1, 0x2184); (0x24b6, 0x24cf, 1, 0x24d0);
   (0x2c00, 0x2c2f, 1, 0x2c30); (0x2c60, 0x2c60, 1, 0x2c61); (0x2c62, 0x2c62, 1, 0x26b);
   (0x2c63, 0x2c63, 1, 0x1d7d); (0x2c64, 0x2c64, 1, 0x27d); (0x2c67, 0x2c6b, 2, 0x2c68);
   (0x2c6d, 0x2c6d, 1, 0x251); (0x2c6e, 0x2c6e, 1, 0x271); (0x2c6f, 0x2c6f, 1, 0x250);
   (0x2c70, 0x2c70, 1, 0x252); (0x2c72, 0x2c72, 1, 0x2c73); (0x2c75, 0x2c75, 1, 0x2c76);
   (0x2c7e, 0x2c7f, 1, 0x23f); (0x2c80, 0x2ce2, 2, 0x2c81); (0x2ceb, 0x2ced, 2, 0x2cec);
   (0x2cf2, 0x2cf2, 1, 0x2cf3); (0xa640, 0xa66c, 2, 0xa641); (0xa680, 0xa69a, 2, 0xa681);
   (0xa722, 0xa72e, 2, 0xa723); (0xa732, 0xa76e, 2, 0xa733); (0xa779, 0xa77b, 2, 0xa77a);
   (0xa77d, 0xa77d, 1, 0x1d79); (0xa77e, 0xa786, 2, 0xa77f); (0xa78b, 0xa78b, 1, 0xa78c);
   (0xa78d, 0xa78d, 1, 0x265); (0xa790, 0xa792, 2, 0xa791); (0xa796, 0xa7a8, 2, 0xa797);
   (0xa7aa, 0xa7aa, 1, 0x266); (0xa7ab, 0xa7ab, 1, 0x25c); (0xa7ac, 0xa7ac, 1, 0x261);
   (0xa7ad, 0xa7ad, 1, 0x26c); (0xa7ae, 0xa7ae, 1, 0x26a); (0xa7b0, 0xa7b0, 1, 0x29e);
   (0xa7b1, 0xa7b1, 1, 0x287); (0xa7b2, 0xa7b2, 1, 0x29d); (0xa7b3, 0xa7b3, 1, 0xab53);
   (0xa7b4, 0xa7c2, 2, 0xa7b5); (0xa7c4, 0xa7c4, 1, 0xa794); (0xa7c5, 0xa7c5, 1, 0x282);
   (0xa7c6, 0xa7c6, 1, 0x1d8e); (0xa7c7, 0xa7c9, 2, 0xa7c8); (0xa7d0, 0xa7d0, 1, 0xa7d1);
   (0xa7d6, 0xa7d8, 2, 0xa7d7); (0xa7f5, 0xa7f5, 1, 0xa7f6); (0xff21, 0xff3a, 1, 0xff41);
   (0x10400, 0x10427, 1, 0x10428); (0x104b0, 0x104d3, 1, 0x104d8); (0x10570, 0x1057a, 1, 0x10597);
   (0x1057c, 0x1058a, 1, 0x105a3); (0x1058c, 0x10592, 1, 0x105b3); (0x10594, 0x10595, 1, 0x105bb);
   (0x10c80, 0x10cb2, 1, 0x10cc0); (0x118a0, 0x118bf, 1, 0x118c0); (0x16e40, 0x16e5f, 1, 0x16e60);
   (0x1e900, 0x1e921, 1, 0x1e922)
  ].

(** The characters whose lower case is more than one character. *)
Definition lowercase_special : list (N * list N) :=
  [
   (0x130, [0x69; 0x307])
  ].

(** The characters with a one-character upper case of their own. *)
Definition uppercase : list (N * N * N * N) :=
  [
   (0x61, 0x7a, 1, 0x41); (0xb5, 0xb5, 1, 0x39c); (0xe0, 0xf6, 1, 0xc0);
   (0xf8, 0xfe, 1, 0xd8); (0xff, 0xff, 1, 0x178); (0x101, 0x12f, 2, 0x100);
   (0x131, 0x131, 1, 0x49); (0x133, 0x137, 2, 0x132); (0x13a, 0x148, 2, 0x139);
   (0x14b, 0x177, 2, 0x14a); (0x17a, 0x17e, 2, 0x179); (0x17f, 0x17f, 1, 0x53);
   (0x180, 0x180, 1, 0x243); (0x183, 0x185, 2, 0x182); (0x188, 0x188, 1, 0x187);
   (0x18c, 0x18c, 1, 0x18b); (0x192, 0x192, 1, 0x191); (0x195, 0x195, 1, 0x1f6);
   (0x199, 0x199, 1, 0x198); (0x19a, 0x19a, 1, 0x23d); (0x19e, 0x19e, 1, 0x220);
   (0x1a1, 0x1a5, 2, 0x1a0); (0x1a8, 0x1a8, 1, 0x1a7); (0x1ad, 0x1ad, 1, 0x1ac);
   (0x1b0, 0x1b0, 1, 0x1af); (0x1b4, 0x1b6, 2, 0x1b3); (0x1b9, 0x1b9, 1, 0x1b8);
   (0x1bd, 0x1bd, 1, 0x1bc); (0x1bf, 0x1bf, 1, 0x1f7); (0x1c5, 0x1c5, 1, 0x1c4);
   (0x1c6, 0x1c6, 1, 0x1c4); (0x1c8, 0x1c8, 1, 0x1c7); (0x1c9, 0x1c9, 1, 0x1c7);
   (0x1cb, 0x1cb, 1, 0x1ca); (0x1cc, 0x1cc, 1, 0x1ca); (0x1ce, 0x1dc, 2, 0x1cd);
   (0x1dd, 0x1dd, 1, 0x18e); (0x1df, 0x1ef, 2, 0x1de); (0x1f2, 0x1f2, 1, 0x1f1);
   (0x1f3, 0x1f3, 1, 0x1f1); (0x1f5, 0x1f5, 1, 0x1f4); (0x1f9, 0x21f, 2, 0x1f8);
   (0x223, 0x233, 2, 0x222); (0x23c, 0x23c, 1, 0x23b); (0x23f, 0x240, 1, 0x2c7e);
   (0x242, 0x242, 1, 0x241); (0x247, 0x24f, 2, 0x246); (0x250, 0x250, 1, 0x2c6f);
   (0x251, 0x251, 1, 0x2c6d); (0x252, 0x252, 1, 0x2c70); (0x253, 0x253, 1, 0x181);
   (0x254, 0x254, 1, 0x186); (0x256, 0x257, 1, 0x189); (0x259, 0x259, 1, 0x18f);
   (0x25b, 0x25b, 1, 0x190); (0x25c, 0x25c, 1, 0xa7ab); (0x260, 0x260, 1, 0x193);
   (0x261, 0x261, 1, 0xa7ac); (0x263, 0x263, 1, 0x194); (0x265, 0x265, 1, 0xa78d);
   (0x266, 0x266, 1, 0xa7aa); (0x268, 0x268, 1, 0x197); (0x269, 0x269, 1, 0x196);
   (0x26a, 0x26a, 1, 0xa7ae); (0x26b, 0x26b, 1, 0x2c62); (0x26c, 0x26c, 1, 0xa7ad);
   (0x26f, 0x26f, 1, 0x19c); (0x271, 0x271, 1, 0x2c6e); (0x272, 0x272, 1, 0x19d);
   (0x275, 0x275, 1, 0x19f); (0x27d, 0x27d, 1, 0x2c64); (0x280, 0x280, 1, 0x1a6);
   (0x282, 0x282, 1, 0xa7c5); (0x283, 0x283, 1, 0x1a9); (0x287, 0x287, 1, 0xa7b1);
   (0x288, 0x288, 1, 0x1ae); (0x289, 0x289, 1, 0x244); (0x28a, 0x28b, 1, 0x1b1);
   (0x28c, 0x28c, 1, 0x245); (0x292, 0x292, 1, 0x1b7); (0x29d, 0x29d, 1, 0xa7b2);
   (0x29e, 0x29e, 1, 0xa7b0); (0x345, 0x345, 1, 0x399); (0x371, 0x373, 2, 0x370);
   (0x377, 0x377, 1, 0x376); (0x37b, 0x37d, 1, 0x3fd); (0x3ac, 0x3ac, 1, 0x386);
   (0x3ad, 0x3af, 1, 0x388); (0x3b1, 0x3c1, 1, 0x391); (0x3c2, 0x3c2, 1, 0x3a3);
   (0x3c3, 0x3cb, 1, 0x3a3); (0x3cc, 0x3cc, 1, 0x38c); (0x3cd, 0x3ce, 1, 0x38e);
   (0x3d0, 0x3d0, 1, 0x392); (0x3d1, 0x3d1, 1, 0x398); (0x3d5, 0x3d5, 1, 0x3a6);
   (0x3d6, 0x3d6, 1, 0x3a0); (0x3d7, 0x3d7, 1, 0x3cf); (0x3d9, 0x3ef, 2, 0x3d8);
   (0x3f0, 0x3f0, 1, 0x39a); (0x3f1, 0x3f1, 1, 0x3a1); (0x3f2, 0x3f2, 1, 0x3f9);
   (0x3f3, 0x3f3, 1, 0x37f); (0x3f5, 0x3f5, 1, 0x395); (0x3f8, 0x3f8, 1, 0x3f7);
   (0x3fb, 0x3fb, 1, 0x3fa); (0x430, 0x44f, 1, 0x410); (0x450, 0x45f, 1, 0x400);
   (0x461, 0x481, 2, 0x460); (0x48b, 0x4bf, 2, 0x48a); (0x4c2, 0x4ce, 2, 0x4c1);
   (0x4cf, 0x4cf, 1, 0x4c0); (0x4d1, 0x52f, 2, 0x4d0); (0x561, 0x586, 1, 0x531);
   (0x10d0, 0x10fa, 1, 0x1c90); (0x10fd, 0x10ff, 1, 0x1cbd); (0x13f8, 0x13fd, 1, 0x13f0);
   (0x1c80, 0x1c80, 1, 0x412); (0x1c81, 0x1c81, 1, 0x414); (0x1c82, 0x1c82, 1, 0x41e);
   (0x1c83, 0x1c84, 1, 0x421); (0x1c85, 0x1c85, 1, 0x422); (0x1c86, 0x1c86, 1, 0x42a);
   (0x1c87, 0x1c87, 1, 0x462); (0x1c88, 0x1c88, 1, 0xa64a); (0x1d79, 0x1d79, 1, 0xa77d);
   (0x1d7d, 0x1d7d, 1, 0x2c63); (0x1d8e, 0x1d8e, 1, 0xa7c6); (0x1e01, 0x1e95, 2, 0x1e00);
   (0x1e9b, 0x1e9b, 1, 0x1e60); (0x1ea1, 0x1eff, 2, 0x1ea0); (0x1f00, 0x1f07, 1, 0x1f08);
   (0x1f10, 0x1f15, 1, 0x1f18); (0x1f20, 0x1f27, 1, 0x1f28); (0x1f30, 0x1f37, 1, 0x1f38);
   (0x1f40, 0x1f45, 1, 0x1f48); (0x1f51, 0x1f57, 2, 0x1f59); (0x1f60, 0x1f67, 1, 0x1f68);
   (0x1f70, 0x1f71, 1, 0x1fba); (0x1f72, 0x1f75, 1, 0x1fc8); (0x1f76, 0x1f77, 1, 0x1fda);
   (0x1f78, 0x1f79, 1, 0x1ff8); (0x1f7a, 0x1f7b, 1, 0x1fea); (0x1f7c, 0x1f7d, 1, 0x1ffa);
   (0x1fb0, 0x1fb1, 1, 0x1fb8); (0x1fbe, 0x1fbe, 1, 0x399); (0x1fd0, 0x1fd1, 1, 0x1fd8);
   (0x1fe0, 0x1fe1, 1, 0x1fe8); (0x1fe5, 0x1fe5, 1, 0x1fec); (0x214e, 0x214e, 1, 0x2132);
   (0x2170, 0x217f, 1, 0x2160); (0x2184, 0x2184, 1, 0x2183); (0x24d0, 0x24e9, 1, 0x24b6);
   (0x2c30, 0x2c5f, 1, 0x2c00); (0x2c61, 0x2c61, 1, 0x2c60); (0x2c65, 0x2c65, 1, 0x23a);
   (0x2c66, 0x2c66, 1, 0x23e); (0x2c68, 0x2c6c, 2, 0x2c67); (0x2c73, 0x2c73, 1, 0x2c72);
   (0x2c76, 0x2c76, 1, 0x2c75); (0x2c81, 0x2ce3, 2, 0x2c80); (0x2cec, 0x2cee, 2, 0x2ceb);
   (0x2cf3, 0x2cf3, 1, 0x2cf2); (0x2d00, 0x2d25, 1, 0x10a0); (0x2d27, 0x2d27, 1, 0x10c7);
   (0x2d2d, 0x2d2d, 1, 0x10cd); (0xa641, 0xa66d, 2, 0xa640); (0xa681, 0xa69b, 2, 0xa680);
   (0xa723, 0xa72f, 2, 0xa722); (0xa733, 0xa76f, 2, 0xa732); (0xa77a, 0xa77c, 2, 0xa779);
   (0xa77f, 0xa787, 2, 0xa77e); (0xa78c, 0xa78c, 1, 0xa78b); (0xa791, 0xa793, 2, 0xa790);
   (0xa794, 0xa794, 1, 0xa7c4); (0xa797, 0xa7a9, 2, 0xa796); (0xa7b5, 0xa7c3, 2, 0xa7b4);
   (0xa7c8, 0xa7ca, 2, 0xa7c7); (0xa7d1, 0xa7d1, 1, 0xa7d0); (0xa7d7, 0xa7d9, 2, 0xa7d6);
   (0xa7f6, 0xa7f6, 1, 0xa7f5); (0xab53, 0xab53, 1, 0xa7b3); (0xab70, 0xabbf, 1, 0x13a0);
   (0xff41, 0xff5a, 1, 0xff21); (0x10428, 0x1044f, 1, 0x10400); (0x104d8, 0x104fb, 1, 0x104b0);
   (0x10597, 0x105a1, 1, 0x10570); (0x105a3, 0x105b1, 1, 0x1057c); (0x105b3, 0x105b9, 1, 0x1058c);
   (0x105bb, 0x105bc, 1, 0x10594); (0x10cc0, 0x10cf2, 1, 0x10c80); (0x118c0, 0x118df, 1, 0x118a0);
   (0x16e60, 0x16e7f, 1, 0x16e40); (0x1e922, 0x1e943, 1, 0x1e900)
  ].

(** The characters whose upper case is more than one character. *)
Definition uppercase_special : list (N * list N) :=
  [
   (0xdf, [0x53; 0x53]); (0x149, [0x2bc; 0x4e]); (0x1f0, [0x4a; 0x30c]);
   (0x390, [0x399; 0x308; 0x301]); (0x3b0, [0x3a5; 0x308; 0x301]); (0x587, [0x535; 0x552]);
   (0x1e96, [0x48; 0x331]); (0x1e97, [0x54; 0x308]); (0x1e98, [0x57; 0x30a]);
   (0x1e99, [0x59; 0x30a]); (0x1e9a, [0x41; 0x2be]); (0x1f50, [0x3a5; 0x313]);
   (0x1f52, [0x3a5; 0x313; 0x300]); (0x1f54, [0x3a5; 0x313; 0x301]); (0x1f56, [0x3a5; 0x313; 0x342]);
   (0x1f80, [0x1f08; 0x399]); (0x1f81, [0x1f09; 0x399]); (0x1f82, [0x1f0a; 0x399]);
   (0x1f83, [0x1f0b; 0x399]); (0x1f84, [0x1f0c; 0x399]); (0x1f85, [0x1f0d; 0x399]);
   (0x1f86, [0x1f0e; 0x399]); (0x1f87, [0x1f0f; 0x399]); (0x1f88, [0x1f08; 0x399]);
   (0x1f89, [0x1f09; 0x399]); (0x1f8a, [0x1f0a; 0x399]); (0x1f8b, [0x1f0b; 0x399]);
   (0x1f8c, [0x1f0c; 0x399]); (0x1f8d, [0x1f0d; 0x399]); (0x1f8e, [0x1f0e; 0x399]);
   (0x1f8f, [0x1f0f; 0x399]); (0x1f90, [0x1f28; 0x399]); (0x1f91, [0x1f29; 0x399]);
   (0x1f92, [0x1f2a; 0x399]); (0x1f93, [0x1f2b; 0x399]); (0x1f94, [0x1f2c; 0x399]);
   (0x1f95, [0x1f2d; 0x399]); (0x1f96, [0x1f2e; 0x399]); (0x1f97, [0x1f2f; 0x399]);
   (0x1f98, [0x1f28; 0x399]); (0x1f99, [0x1f29; 0x399]); (0x1f9a, [0x1f2a; 0x399]);
   (0x1f9b, [0x1f2b; 0x399]); (0x1f9c, [0x1f2c; 0x399]); (0x1f9d, [0x1f2d; 0x399]);
   (0x1f9e, [0x1f2e; 0x399]); (0x1f9f, [0x1f2f; 0x399]); (0x1fa0, [0x1f68; 0x399]);
   (0x1fa1, [0x1f69; 0x399]); (0x1fa2, [0x1f6a; 0x399]); (0x1fa3, [0x1f6b; 0x399]);
   (0x1fa4, [0x1f6c; 0x399]); (0x1fa5, [0x1f6d; 0x399]); (0x1fa6, [0x1f6e; 0x399]);
   (0x1fa7, [0x1f6f; 0x399]); (0x1fa8, [0x1f68; 0x399]); (0x1fa9, [0x1f69; 0x399]);
   (0x1faa, [0x1f6a; 0x399]); (0x1fab, [0x1f6b; 0x399]); (0x1fac, [0x1f6c; 0x399]);
   (0x1fad, [0x1f6d; 0x399]); (0x1fae, [0x1f6e; 0x399]); (0x1faf, [0x1f6f; 0x399]);
   (0x1fb2, [0x1fba; 0x399]); (0x1fb3, [0x391; 0x399]); (0x1fb4, [0x386; 0x399]);
   (0x1fb6, [0x391; 0x342]); (0x1fb7, [0x391; 0x342; 0x399]); (0x1fbc, [0x391; 0x399]);
   (0x1fc2, [0x1fca; 0x399]); (0x1fc3, [0x397; 0x399]); (0x1fc4, [0x389; 0x399]);
   (0x1fc6, [0x397; 0x342]); (0x1fc7, [0x397; 0x342; 0x399]); (0x1fcc, [0x397; 0x399]);
   (0x1fd2, [0x399; 0x308; 0x300]); (0x1fd3, [0x399; 0x308; 0x301]); (0x1fd6, [0x399; 0x342]);
   (0x1fd7, [0x399; 0x308; 0x342]); (0x1fe2, [0x3a5; 0x308; 0x300]); (0x1fe3, [0x3a5; 0x308; 0x301]);
   (0x1fe4, [0x3a1; 0x313]); (0x1fe6, [0x3a5; 0x342]); (0x1fe7, [0x3a5; 0x308; 0x342]);
   (0x1ff2, [0x1ffa; 0x399]); (0x1ff3, [0x3a9; 0x399]); (0x1ff4, [0x38f; 0x399]);
   (0x1ff6, [0x3a9; 0x342]); (0x1ff7, [0x3a9; 0x342; 0x399]); (0x1ffc, [0x3a9; 0x399]);
   (0xfb00, [0x46; 0x46]); (0xfb01, [0x46; 0x49]); (0xfb02, [0x46; 0x4c]);
   (0xfb03, [0x46; 0x46; 0x49]); (0xfb04, [0x46; 0x46; 0x4c]); (0xfb05, [0x53; 0x54]);
   (0xfb06, [0x53; 0x54]); (0xfb13, [0x544; 0x546]); (0xfb14, [0x544; 0x535]);
   (0xfb15, [0x544; 0x53b]); (0xfb16, [0x54e; 0x546]); (0xfb17, [0x544; 0x53d])
  ].

(** The case-ignorable characters, which the final-sigma rule of [str.lower] skips. *)
Definition case_ignorable : list (N * N) :=
  [
   (0x27, 0x27); (0x2e, 0x2e); (0x3a, 0x3a); (0x5e, 0x5e); (0x60, 0x60);
   (0xa8, 0xa8); (0xad, 0xad); (0xaf, 0xaf); (0xb4, 0xb4); (0xb7, 0xb8);
   (0x2b0, 0x36f); (0x374, 0x375); (0x37a, 0x37a); (0x384, 0x385); (0x387, 0x387);
   (0x483, 0x489); (0x559, 0x559); (0x55f, 0x55f); (0x591, 0x5bd); (0x5bf, 0x5bf);
   (0x5c1, 0x5c2); (0x5c4, 0x5c5); (0x5c7, 0x5c7); (0x5f4, 0x5f4); (0x600, 0x605);
   (0x610, 0x61a); (0x61c, 0x61c); (0x640, 0x640); (0x64b, 0x65f); (0x670, 0x670);
   (0x6d6, 0x6dd); (0x6df, 0x6e8); (0x6ea, 0x6ed); (0x70f, 0x70f); (0x711, 0x711);
   (0x730, 0x74a); (0x7a6, 0x7b0); (0x7eb, 0x7f5); (0x7fa, 0x7fa); (0x7fd, 0x7fd);
   (0x816, 0x82d); (0x859, 0x85b); (0x888, 0x888); (0x890, 0x891); (0x898, 0x89f);
   (0x8c9, 0x902); (0x93a, 0x93a); (0x93c, 0x93c); (0x941, 0x948); (0x94d, 0x94d);
   (0x951, 0x957); (0x962, 0x963); (0x971, 0x971); (0x981, 0x981); (0x9bc, 0x9bc);
   (0x9c1, 0x9c4); (0x9cd, 0x9cd); (0x9e2, 0x9e3); (0x9fe, 0x9fe); (0xa01, 0xa02);
   (0xa3c, 0xa3c); (0xa41, 0xa42); (0xa47, 0xa48); (0xa4b, 0xa4d); (0xa51, 0xa51);
   (0xa70, 0xa71); (0xa75, 0xa75); (0xa81, 0xa82); (0xabc, 0xabc); (0xac1, 0xac5);
   (0xac7, 0xac8); (0xacd, 0xacd); (0xae2, 0xae3); (0xafa, 0xaff); (0xb01, 0xb01);
   (0xb3c, 0xb3c); (0xb3f, 0xb3f); (0xb41, 0xb44); (0xb4d, 0xb4d); (0xb55, 0xb56);
   (0xb62, 0xb63); (0xb82, 0xb82); (0xbc0, 0xbc0); (0xbcd, 0xbcd); (0xc00, 0xc00);
   (0xc04, 0xc04); (0xc3c, 0xc3c); (0xc3e, 0xc40); (0xc46, 0xc48); (0xc4a, 0xc4d);
   (0xc55, 0xc56); (0xc62, 0xc63); (0xc81, 0xc81); (0xcbc, 0xcbc); (0xcbf, 0xcbf);
   (0xcc6, 0xcc6); (0xccc, 0xccd); (0xce2, 0xce3); (0xd00, 0xd01); (0xd3b, 0xd3c);
   (0xd41, 0xd44); (0xd4d, 0xd4d); (0xd62, 0xd63); (0xd81, 0xd81); (0xdca, 0xdca);
   (0xdd2, 0xdd4); (0xdd6, 0xdd6); (0xe31, 0xe31); (0xe34, 0xe3a); (0xe46, 0xe4e);
   (0xeb1, 0xeb1); (0xeb4, 0xebc); (0xec6, 0xec6); (0xec8, 0xecd); (0xf18, 0xf19);
   (0xf35, 0xf35); (0xf37, 0xf37); (0xf39, 0xf39); (0xf71, 0xf7e); (0xf80, 0xf84);
   (0xf86, 0xf87); (0xf8d, 0xf97); (0xf99, 0xfbc); (0xfc6, 0xfc6); (0x102d, 0x1030);
   (0x1032, 0x1037); (0x1039, 0x103a); (0x103d, 0x103e); (0x1058, 0x1059); (0x105e, 0x1060);
   (0x1071, 0x1074); (0x1082, 0x1082); (0x1085, 0x1086); (0x108d, 0x108d); (0x109d, 0x109d);
   (0x10fc, 0x10fc); (0x135d, 0x135f); (0x1712, 0x1714); (0x1732, 0x1733); (0x1752, 0x1753);
   (0x1772, 0x1773); (0x17b4, 0x17b5); (0x17b7, 0x17bd); (0x17c6, 0x17c6); (0x17c9, 0x17d3);
   (0x17d7, 0x17d7); (0x17dd, 0x17dd); (0x180b, 0x180f); (0x1843, 0x1843); (0x1885, 0x1886);
   (0x18a9, 0x18a9); (0x1920, 0x1922); (0x1927, 0x1928); (0x1932, 0x1932); (0x1939, 0x193b);
   (0x1a17, 0x1a18); (0x1a1b, 0x1a1b); (0x1a56, 0x1a56); (0x1a58, 0x1a5e); (0x1a60, 0x1a60);
   (0x1a62, 0x1a62); (0x1a65, 0x1a6c); (0x1a73, 0x1a7c); (0x1a7f, 0x1a7f); (0x1aa7, 0x1aa7);
   (0x1ab0, 0x1ace); (0x1b00, 0x1b03); (0x1b34, 0x1b34); (0x1b36, 0x1b3a); (0x1b3c, 0x1b3c);
   (0x1b42, 0x1b42); (0x1b6b, 0x1b73); (0x1b80, 0x1b81); (0x1ba2, 0x1ba5); (0x1ba8, 0x1ba9);
   (0x1bab, 0x1bad); (0x1be6, 0x1be6); (0x1be8, 0x1be9); (0x1bed, 0x1bed); (0x1bef, 0x1bf1);
   (0x1c2c, 0x1c33); (0x1c36, 0x1c37); (0x1c78, 0x1c7d); (0x1cd0, 0x1cd2); (0x1cd4, 0x1ce0);
   (0x1ce2, 0x1ce8); (0x1ced, 0x1ced); (0x1cf4, 0x1cf4); (0x1cf8, 0x1cf9); (0x1d2c, 0x1d6a);
   (0x1d78, 0x1d78); (0x1d9b, 0x1dff); (0x1fbd, 0x1fbd); (0x1fbf, 0x1fc1); (0x1fcd, 0x1fcf);
   (0x1fdd, 0x1fdf); (0x1fed, 0x1fef); (0x1ffd, 0x1ffe); (0x200b, 0x200f); (0x2018, 0x2019);
   (0x2024, 0x2024); (0x2027, 0x2027); (0x202a, 0x202e); (0x2060, 0x2064); (0x2066, 0x206f);
   (0x2071, 0x2071); (0x207f, 0x207f); (0x2090, 0x209c); (0x20d0, 0x20f0); (0x2c7c, 0x2c7d);
   (0x2cef, 0x2cf1); (0x2d6f, 0x2d6f); (0x2d7f, 0x2d7f); (0x2de0, 0x2dff); (0x2e2f, 0x2e2f);
   (0x3005, 0x3005); (0x302a, 0x302d); (0x3031, 0x3035); (0x303b, 0x303b); (0x3099, 0x309e);
   (0x30fc, 0x30fe); (0xa015, 0xa015); (0xa4f8, 0xa4fd); (0xa60c, 0xa60c); (0xa66f, 0xa672);
   (0xa674, 0xa67d); (0xa67f, 0xa67f); (0xa69c, 0xa69f); (0xa6f0, 0xa6f1); (0xa700, 0xa721);
   (0xa770, 0xa770); (0xa788, 0xa78a); (0xa7f2, 0xa7f4); (0xa7f8, 0xa7f9); (0xa802, 0xa802);
   (0xa806, 0xa806); (0xa80b, 0xa80b); (0xa825, 0xa826); (0xa82c, 0xa82c); (0xa8c4, 0xa8c5);
   (0xa8e0, 0xa8f1); (0xa8ff, 0xa8ff); (0xa926, 0xa92d); (0xa947, 0xa951); (0xa980, 0xa982);
   (0xa9b3, 0xa9b3); (0xa9b6, 0xa9b9); (0xa9bc, 0xa9bd); (0xa9cf, 0xa9cf); (0xa9e5, 0xa9e6);
   (0xaa29, 0xaa2e); (0xaa31, 0xaa32); (0xaa35, 0xaa36); (0xaa43, 0xaa43); (0xaa4c, 0xaa4c);
   (0xaa70, 0xaa70); (0xaa7c, 0xaa7c); (0xaab0, 0xaab0); (0xaab2, 0xaab4); (0xaab7, 0xaab8);
   (0xaabe, 0xaabf); (0xaac1, 0xaac1); (0xaadd, 0xaadd); (0xaaec, 0xaaed); (0xaaf3, 0xaaf4);
   (0xaaf6, 0xaaf6); (0xab5b, 0xab5f); (0xab69, 0xab6b); (0xabe5, 0xabe5); (0xabe8, 0xabe8);
   (0xabed, 0xabed); (0xfb1e, 0xfb1e); (0xfbb2, 0xfbc2); (0xfe00, 0xfe0f); (0xfe13, 0xfe13);
   (0xfe20, 0xfe2f); (0xfe52, 0xfe52); (0xfe55, 0xfe55); (0xfeff, 0xfeff); (0xff07, 0xff07);
   (0xff0e, 0xff0e); (0xff1a, 0xff1a); (0xff3e, 0xff3e); (0xff40, 0xff40); (0xff70, 0xff70);
   (0xff9e, 0xff9f); (0xffe3, 0xffe3); (0xfff9, 0xfffb); (0x101fd, 0x101fd); (0x102e0, 0x102e0);
   (0x10376, 0x1037a); (0x10780, 0x10785); (0x10787, 0x107b0); (0x107b2, 0x107ba); (0x10a01, 0x10a03);
   (0x10a05, 0x10a06); (0x10a0c, 0x10a0f); (0x10a38, 0x10a3a); (0x10a3f, 0x10a3f); (0x10ae5, 0x10ae6);
   (0x10d24, 0x10d27); (0x10eab, 0x10eac); (0x10f46, 0x10f50); (0x10f82, 0x10f85); (0x11001, 0x11001);
   (0x11038, 0x11046); (0x11070, 0x11070); (0x11073, 0x11074); (0x1107f, 0x11081); (0x110b3, 0x110b6);
   (0x110b9, 0x110ba); (0x110bd, 0x110bd); (0x110c2, 0x110c2); (0x110cd, 0x110cd); (0x11100, 0x11102);
   (0x11127, 0x1112b); (0x1112d, 0x11134); (0x11173, 0x11173); (0x11180, 0x11181); (0x111b6, 0x111be);
   (0x111c9, 0x111cc); (0x111cf, 0x111cf); (0x1122f, 0x11231); (0x11234, 0x11234); (0x11236, 0x11237);
   (0x1123e, 0x1123e); (0x112df, 0x112df); (0x112e3, 0x112ea); (0x11300, 0x11301); (0x1133b, 0x1133c);
   (0x11340, 0x11340); (0x11366, 0x1136c); (0x11370, 0x11374); (0x11438, 0x1143f); (0x11442, 0x11444);
   (0x11446, 0x11446); (0x1145e, 0x1145e); (0x114b3, 0x114b8); (0x114ba, 0x114ba); (0x114bf, 0x114c0);
   (0x114c2, 0x114c3); (0x115b2, 0x115b5); (0x115bc, 0x115bd); (0x115bf, 0x115c0); (0x115dc, 0x115dd);
   (0x11633, 0x1163a); (0x1163d, 0x1163d); (0x1163f, 0x11640); (0x116ab, 0x116ab); (0x116ad, 0x116ad);
   (0x116b0, 0x116b5); (0x116b7, 0x116b7); (0x1171d, 0x1171f); (0x11722, 0x11725); (0x11727, 0x1172b);
   (0x1182f, 0x11837); (0x11839, 0x1183a); (0x1193b, 0x1193c); (0x1193e, 0x1193e); (0x11943, 0x11943);
   (0x119d4, 0x119d7); (0x119da, 0x119db); (0x119e0, 0x119e0); (0x11a01, 0x11a0a); (0x11a33, 0x11a38);
   (0x11a3b, 0x11a3e); (0x11a47, 0x11a47); (0x11a51, 0x11a56); (0x11a59, 0x11a5b); (0x11a8a, 0x11a96);
   (0x11a98, 0x11a99); (0x11c30, 0x11c36); (0x11c38, 0x11c3d); (0x11c3f, 0x11c3f); (0x11c92, 0x11ca7);
   (0x11caa, 0x11cb0); (0x11cb2, 0x11cb3); (0x11cb5, 0x11cb6); (0x11d31, 0x11d36); (0x11d3a, 0x11d3a);
   (0x11d3c, 0x11d3d); (0x11d3f, 0x11d45); (0x11d47, 0x11d47); (0x11d90, 0x11d91); (0x11d95, 0x11d95);
   (0x11d97, 0x11d97); (0x11ef3, 0x11ef4); (0x13430, 0x13438); (0x16af0, 0x16af4); (0x16b30, 0x16b36);
   (0x16b40, 0x16b43); (0x16f4f, 0x16f4f); (0x16f8f, 0x16f9f); (0x16fe0, 0x16fe1); (0x16fe3, 0x16fe4);
   (0x1aff0, 0x1aff3); (0x1aff5, 0x1affb); (0x1affd, 0x1affe); (0x1bc9d, 0x1bc9e); (0x1bca0, 0x1bca3);
   (0x1cf00, 0x1cf2d); (0x1cf30, 0x1cf46); (0x1d167, 0x1d169); (0x1d173, 0x1d182); (0x1d185, 0x1d18b);
   (0x1d1aa, 0x1d1ad); (0x1d242, 0x1d244); (0x1da00, 0x1da36); (0x1da3b, 0x1da6c); (0x1da75, 0x1da75);
   (0x1da84, 0x1da84); (0x1da9b, 0x1da9f); (0x1daa1, 0x1daaf); (0x1e000, 0x1e006); (0x1e008, 0x1e018);
   (0x1e01b, 0x1e021); (0x1e023, 0x1e024); (0x1e026, 0x1e02a); (0x1e130, 0x1e13d); (0x1e2ae, 0x1e2ae);
   (0x1e2ec, 0x1e2ef); (0x1e8d0, 0x1e8d6); (0x1e944, 0x1e94b); (0x1f3fb, 0x1f3ff); (0xe0001, 0xe0001);
   (0xe0020, 0xe007f); (0xe0100, 0xe01ef)
  ].

(** The cased characters that are not case-ignorable (the rule asks only about those). *)
Definition cased : list (N * N) :=
  [
   (0x41, 0x5a); (0x61, 0x7a); (0xaa, 0xaa); (0xb5, 0xb5); (0xba, 0xba);
   (0xc0, 0xd6); (0xd8, 0xf6); (0xf8, 0x1ba); (0x1bc, 0x1bf); (0x1c4, 0x293);
   (0x295, 0x2af); (0x370, 0x373); (0x376, 0x377); (0x37b, 0x37d); (0x37f, 0x37f);
   (0x386, 0x386); (0x388, 0x38a); (0x38c, 0x38c); (0x38e, 0x3a1); (0x3a3, 0x3f5);
   (0x3f7, 0x481); (0x48a, 0x52f); (0x531, 0x556); (0x560, 0x588); (0x10a0, 0x10c5);
   (0x10c7, 0x10c7); (0x10cd, 0x10cd); (0x10d0, 0x10fa); (0x10fd, 0x10ff); (0x13a0, 0x13f5);
   (0x13f8, 0x13fd); (0x1c80, 0x1c88); (0x1c90, 0x1cba); (0x1cbd, 0x1cbf); (0x1d00, 0x1d2b);
   (0x1d6b, 0x1d77); (0x1d79, 0x1d9a); (0x1e00, 0x1f15); (0x1f18, 0x1f1d); (0x1f20, 0x1f45);
   (0x1f48, 0x1f4d); (0x1f50, 0x1f57); (0x1f59, 0x1f59); (0x1f5b, 0x1f5b); (0x1f5d, 0x1f5d);
   (0x1f5f, 0x1f7d); (0x1f80, 0x1fb4); (0x1fb6, 0x1fbc); (0x1fbe, 0x1fbe); (0x1fc2, 0x1fc4);
   (0x1fc6, 0x1fcc); (0x1fd0, 0x1fd3); (0x1fd6, 0x1fdb); (0x1fe0, 0x1fec); (0x1ff2, 0x1ff4);
   (0x1ff6, 0x1ffc); (0x2102, 0x2102); (0x2107, 0x2107); (0x210a, 0x2113); (0x2115, 0x2115);
   (0x2119, 0x211d); (0x2124, 0x2124); (0x2126, 0x2126); (0x2128, 0x2128); (0x212a, 0x212d);
   (0x212f, 0x2134); (0x2139, 0x2139); (0x213c, 0x213f); (0x2145, 0x2149); (0x214e, 0x214e);
   (0x2160, 0x217f); (0x2183, 0x2184); (0x24b6, 0x24e9); (0x2c00, 0x2c7b); (0x2c7e, 0x2ce4);
   (0x2ceb, 0x2cee); (0x2cf2, 0x2cf3); (0x2d00, 0x2d25); (0x2d27, 0x2d27); (0x2d2d, 0x2d2d);
   (0xa640, 0xa66d); (0xa680, 0xa69b); (0xa722, 0xa76f); (0xa771, 0xa787); (0xa78b, 0xa78e);
   (0xa790, 0xa7ca); (0xa7d0, 0xa7d1); (0xa7d3, 0xa7d3); (0xa7d5, 0xa7d9); (0xa7f5, 0xa7f6);
   (0xa7fa, 0xa7fa); (0xab30, 0xab5a); (0xab60, 0xab68); (0xab70, 0xabbf); (0xfb00, 0xfb06);
   (0xfb13, 0xfb17); (0xff21, 0xff3a); (0xff41, 0xff5a); (0x10400, 0x1044f); (0x104b0, 0x104d3);
   (0x104d8, 0x104fb); (0x10570, 0x1057a); (0x1057c, 0x1058a); (0x1058c, 0x10592); (0x10594, 0x10595);
   (0x10597, 0x105a1); (0x105a3, 0x105b1); (0x105b3, 0x105b9); (0x105bb, 0x105bc); (0x10c80, 0x10cb2);
   (0x10cc0, 0x10cf2); (0x118a0, 0x118df); (0x16e40, 0x16e7f); (0x1d400, 0x1d454); (0x1d456, 0x1d49c);
   (0x1d49e, 0x1d49f); (0x1d4a2, 0x1d4a2); (0x1d4a5, 0x1d4a6); (0x1d4a9, 0x1d4ac); (0x1d4ae, 0x1d4b9);
   (0x1d4bb, 0x1d4bb); (0x1d4bd, 0x1d4c3); (0x1d4c5, 0x1d505); (0x1d507, 0x1d50a); (0x1d50d, 0x1d514);
   (0x1d516, 0x1d51c); (0x1d51e, 0x1d539); (0x1d53b, 0x1d53e); (0x1d540, 0x1d544); (0x1d546, 0x1d546);
   (0x1d54a, 0x1d550); (0x1d552, 0x1d6a5); (0x1d6a8, 0x1d6c0); (0x1d6c2, 0x1d6da); (0x1d6dc, 0x1d6fa);
   (0x1d6fc, 0x1d714); (0x1d716, 0x1d734); (0x1d736, 0x1d74e); (0x1d750, 0x1d76e); (0x1d770, 0x1d788);
   (0x1d78a, 0x1d7a8); (0x1d7aa, 0x1d7c2); (0x1d7c4, 0x1d7cb); (0x1df00, 0x1df09); (0x1df0b, 0x1df1e);
   (0x1e900, 0x1e943); (0x1f130, 0x1f149); (0x1f150, 0x1f169); (0x1f170, 0x1f189)
  ].

(** [chr(n).isspace()] *)
Definition is_whitespace (n : N) : bool := in_ranges n whitespace.

(** [chr(n).isdigit()] *)
Definition is_digit (n : N) : bool := in_ranges n digit.

(** The value of a decimal digit, [None] for any other character. *)
Definition decimal_value (n : N) : option N :=
  match filter (fun zero => (zero <=? n) && (n <=? zero + 9)) decimal_zero with
  | zero :: _ => Some (n - zero)
  | [] => None
  end.

(** [chr(n).lower()], the capital sigma apart, whose lower case depends on
    its place in the word. *)
Definition to_lower (n : N) : list N :=
  match special_case n lowercase_special with
  | Some image => image
  | None => [map_ranges n lowercase]
  end.

(** [chr(n).upper()] *)
Definition to_upper (n : N) : list N :=
  match special_case n uppercase_special with
  | Some image => image
  | None => [map_ranges n uppercase]
  end.

Definition is_case_ignorable (n : N) : bool := in_ranges n case_ignorable.

Definition is_cased (n : N) : bool := in_ranges n cased.

End Unicode.
(* ================================================================= *)
(** ** Python string operations *)

Module PyStr.

(** [s.startswith(p)] *)
Fixpoint startswith (s p : string) : bool :=
  match p with
  | EmptyString => true
  | String a p' =>
      match s with
      | EmptyString => false
      | String b s' => if Ascii.eqb a b then startswith s' p' else false
      end
  end.

(** [s.endswith(p)] *)
Fixpoint endswith (s p : string) : bool :=
  if String.eqb s p then true
  else match s with
       | EmptyString => false
       | String _ s' => endswith s' p
       end.

(** [sub in s] *)
Fixpoint contains (s sub : string) : bool :=
  if startswith s sub then true
  else match s with
       | EmptyString => false
       | String _ s' => contains s' sub
       end.

(** Left-to-right scan shared by [replace] and [count]: [skip] is the number
    of characters of the current match still to be consumed. *)
Fixpoint replace_from (skip : nat) (s old new : string) : string :=
  match s with
  | EmptyString => EmptyString
  | String c s' =>
      match skip with
      | S k => replace_from k s' old new
      | O =>
          if startswith s old
          then new ++ replace_from (String.length old - 1) s' old new
          else String c (replace_from 0 s' old new)
      end
  end.

Fixpoint interleave (sep s : string) : string :=
  match s with
  | EmptyString => EmptyString
  | String c s' => String c (sep ++ interleave sep s')
  end.

(** [s.replace(old, new)]: every non-overlapping occurrence, leftmost first.
    With an empty [old] Python inserts [new] around every character. *)
Definition replace (s old new : string) : string :=
  match old with
  | EmptyString => new ++ interleave new s
  | String _ _ => replace_from 0 s old new
  end.

Fixpoint count_from (skip : nat) (s sub : string) : Z :=
  match s with
  | EmptyString => 0
  | String c s' =>
      match skip with
      | S k => count_from k s' sub
      | O =>
          if startswith s sub
          then 1 + count_from (String.length sub - 1) s' sub
          else count_from 0 s' sub
      end
  end.

(** [s.count(sub)]: the number of non-overlapping occurrences. *)
Definition count (s sub : string) : Z :=
  match sub with
  | EmptyString => Z.of_nat (String.length s) + 1
  | String _ _ => count_from 0 s sub
  end.

(** [s.split(sep)[0]] for a one-character [sep]: the text before the first
    separator, the whole string when there is none. *)
Fixpoint split_head (s : string) (sep : ascii) : string :=
  match s with
  | EmptyString => EmptyString
  | String c s' => if Ascii.eqb c sep then EmptyString else String c (split_head s' sep)
  end.

(** [s.rstrip(ch)] for a one-character argument, and its generalisation to a
    class of characters. *)
Fixpoint rstrip_by (p : ascii -> bool) (s : string) : string :=
  match s with
  | EmptyString => EmptyString
  | String c s' =>
      match rstrip_by p s' with
      | EmptyString => if p c then EmptyString else String c EmptyString
      | r => String c r
      end
  end.

Fixpoint lstrip_by (p : ascii -> bool) (s : string) : string :=
  match s with
  | EmptyString => EmptyString
  | String c s' => if p c then lstrip_by p s' else s
  end.

Definition rstrip_char (s : string) (ch : ascii) : string :=
  rstrip_by (Ascii.eqb ch) s.


(** *** Code points

    The classes and the case of characters are properties of code points.
    [decode] reads the UTF-8 bytes of a string as code points, [encode]
    writes code points as UTF-8.  A byte that belongs to no well-formed
    UTF-8 sequence is no character of a [str]; it is carried along as the
    number 0x110000 + byte, which no table lists and which [encode] writes
    back as that byte. *)

Definition raw_byte (b : N) : N := (1114112 + b)%N.

Definition byte_at (i : nat) (s : string) : option N :=
  match String.get i s with
  | Some c => Some (N_of_ascii c)
  | None => None
  end.

(** The six payload bits of a continuation byte 10xxxxxx. *)
Definition continuation (b : option N) : option N :=
  match b with
  | Some n => if ((128 <=? n) && (n <=? 191))%N then Some (n - 128)%N else None
  | None => None
  end.

(** The code point that starts at byte [b0], followed by [b1], [b2], [b3]
    ([None] past the end of the string), and the number of bytes after [b0]
    that belong to it.  Overlong forms, surrogates and values beyond
    U+10FFFF are not well formed. *)
Definition decode_head (b0 : N) (b1 b2 b3 : option N) : N * nat :=
  (if b0 <? 128 then (b0, 0%nat)
   else if (194 <=? b0) && (b0 <=? 223) then
     match continuation b1 with
     | Some x1 => ((b0 - 192) * 64 + x1, 1%nat)
     | None => (raw_byte b0, 0%nat)
     end
   else if (224 <=? b0) && (b0 <=? 239) then
     match continuation b1, continuation b2 with
     | Some x1, Some x2 =>
         let n := (b0 - 224) * 4096 + x1 * 64 + x2 in
         if (2048 <=? n) && negb ((55296 <=? n) && (n <=? 57343))
         then (n, 2%nat) else (raw_byte b0, 0%nat)
     | _, _ => (raw_byte b0, 0%nat)
     end
   else if (240 <=? b0) && (b0 <=? 244) then
     match continuation b1, continuation b2, continuation b3 with
     | Some x1, Some x2, Some x3 =>
         let n := (b0 - 240) * 262144 + x1 * 4096 + x2 * 64 + x3 in
         if (65536 <=? n) && (n <=? 1114111)
         then (n, 3%nat) else (raw_byte b0, 0%nat)
     | _, _, _ => (raw_byte b0, 0%nat)
     end
   else (raw_byte b0, 0%nat))%N.

(** [skip] is the number of bytes of the current character still to pass. *)
Fixpoint decode_from (skip : nat) (s : string) : list N :=
  match s with
  | EmptyString => []
  | String c s' =>
      match skip with
      | S k => decode_from k s'
      | O =>
          let (n, more) :=
            decode_head (N_of_ascii c) (byte_at 0 s') (byte_at 1 s') (byte_at 2 s') in
          n :: decode_from more s'
      end
  end.

Definition decode (s : string) : list N := decode_from 0 s.

Definition bytes (l : list N) : string := string_of_list_ascii (map ascii_of_N l).

Definition encode_char (n : N) : string :=
  (if n <? 128 then bytes [n]
   else if n <? 2048 then bytes [192 + n / 64; 128 + n mod 64]
   else if n <? 65536 then
     bytes [224 + n / 4096; 128 + (n / 64) mod 64; 128 + n mod 64]
   else if n <? 1114112 then
     bytes [240 + n / 262144; 128 + (n / 4096) mod 64; 128 + (n / 64) mod 64;
            128 + n mod 64]
   else bytes [n - 1114112])%N.

Definition encode (l : list N) : string :=
  fold_right (fun n rest => (encode_char n ++ rest)%string) EmptyString l.

Fixpoint drop_while {A : Type} (p : A -> bool) (l : list A) : list A :=
  match l with
  | [] => []
  | x :: rest => if p x then drop_while p rest else l
  end.

(** [s.strip()]: the white space of [str.isspace] removed at both ends. *)
Definition strip (s : string) : string :=
  encode (rev (drop_while Unicode.is_whitespace
                 (rev (drop_while Unicode.is_whitespace (decode s))))).

(** One of the characters [0123456789]. *)
Definition is_digit (c : ascii) : bool :=
  let n := nat_of_ascii c in ((48 <=? n) && (n <=? 57))%nat.

(** [s.isdigit()]: at least one character, and all of them digits. *)
Definition isdigit (s : string) : bool :=
  match decode s with
  | [] => false
  | l => forallb Unicode.is_digit l
  end.

(** Whether the first character of [rest] that is not case-ignorable is
    cased. *)
Fixpoint followed_by_cased (rest : list N) : bool :=
  match rest with
  | [] => false
  | n :: rest' =>
      if Unicode.is_case_ignorable n then followed_by_cased rest'
      else Unicode.is_cased n
  end.

(** [after_cased]: the last character before this one that is not
    case-ignorable exists and is cased.  A capital sigma (U+03A3) in that
    position, and not followed by a cased character, is a final sigma
    (U+03C2); any other one is U+03C3. *)
Fixpoint lower_from (after_cased : bool) (l : list N) : list N :=
  match l with
  | [] => []
  | n :: rest =>
      (if (n =? 931)%N
       then [if after_cased && negb (followed_by_cased rest) then 962%N else 963%N]
       else Unicode.to_lower n)
      ++ lower_from (if Unicode.is_case_ignorable n then after_cased
                     else Unicode.is_cased n) rest
  end.

(** [s.lower()] *)
Definition lower (s : string) : string := encode (lower_from false (decode s)).

(** [s.upper()] *)
Definition upper (s : string) : string :=
  encode (flat_map Unicode.to_upper (decode s)).

(** [not s] for a string. *)
Definition falsy (s : string) : bool :=
  match s with EmptyString => true | String _ _ => false end.

(** [str(n)] and the [{n}] of an f-string, for an integer. *)
Definition str_of_int (n : Z) : string := NilZero.string_of_int (Z.to_int n).

(** [s.split(sep)] for a one-character separator. *)
Fixpoint split_on (s : string) (sep : ascii) : list string :=
  match s with
  | EmptyString => [EmptyString]
  | String c s' =>
      if Ascii.eqb c sep then EmptyString :: split_on s' sep
      else match split_on s' sep with
           | [] => [String c EmptyString]
           | w :: ws => String c w :: ws
           end
  end.

Fixpoint split_at_whitespace (l : list N) : list (list N) :=
  match l with
  | [] => [[]]
  | n :: rest =>
      if Unicode.is_whitespace n then [] :: split_at_whitespace rest
      else match split_at_whitespace rest with
           | [] => [[n]]
           | w :: ws => (n :: w) :: ws
           end
  end.

(** [s.split()]: maximal runs of non white space. *)
Definition split_ws (s : string) : list string :=
  map encode
    (filter (fun w => match w with [] => false | _ :: _ => true end)
       (split_at_whitespace (decode s))).

End PyStr.

Import PyStr.

(* ================================================================= *)
(** ** The outside world: HTTP and the HTML parser *)

Module World.

(** The result of a library call that may raise. *)
Inductive step (A : Type) : Type :=
| Returns (a : A)
| Raises (msg : string).
Arguments Returns {A} a.
Arguments Raises {A} msg.

(** What [validate_url] observes of a [BeautifulSoup] object:
    [soup.find('title')] followed by [get_text()] on the tag found, if any,
    and [soup.get_text()].  Each of the two may raise. *)
Record soup : Type := {
  title_text : step (option string);
  page_text : step string
}.

(** The outcome of [requests.get(url, headers=..., timeout=..., allow_redirects=True)],
    classified by the [except] clause that catches it.  A response carries
    its status code, the elapsed time as [round((time.time() - start_time) * 1000, 2)]
    (in hundredths of a millisecond) and what
    [BeautifulSoup(response.content, 'html.parser')] makes of its body. *)
Inductive http_outcome : Type :=
| Response (code : Z) (elapsed : Z) (body : step soup)
| Timeout
| ConnectionError
| RequestException (msg : string)
| OtherException (msg : string).

(** The state threaded through the code: the GET requests sent so far, and a
    ghost log of the calls of [validate_url] (the URL validated and the
    [is_working] verdict returned), kept so that statements can count them. *)
Record world : Type := {
  requests : list (string * Z);
  validations : list (string * bool)
}.

Definition empty_world : world := {| requests := []; validations := [] |}.

(** The network: the answer to a request may depend on the requests before it. *)
Definition network : Type := list (string * Z) -> string -> Z -> http_outcome.

Definition M (A : Type) : Type := world -> A * world.

Definition ret {A} (a : A) : M A := fun w => (a, w).

Definition bind {A B} (m : M A) (k : A -> M B) : M B :=
  fun w => let (a, w') := m w in k a w'.

Definition requests_get (net : network) (url : string) (timeout : Z) : M http_outcome :=
  fun w => (net (requests w) url timeout,
            {| requests := requests w ++ [(url, timeout)];
               validations := validations w |}).

Definition note_validation (url : string) (verdict : bool) : M unit :=
  fun w => (tt, {| requests := requests w;
                   validations := validations w ++ [(url, verdict)] |}).

End World.

Import World.

Notation "x <- c ;; k" := (bind c (fun x => k))
  (at level 61, c at next level, right associativity).

(* ================================================================= *)
(** ** [validate_url] *)

Module Validator.

Record validation_result : Type := {
  url : string;
  status : string;
  status_code : option Z;
  response_time : option Z;
  error_message : option string;
  is_working : bool;
  contains_funding_keywords : bool;
  page_title : option string
}.

Definition set_status (s : string) (r : validation_result) : validation_result :=
  {| url := url r; status := s; status_code := status_code r;
     response_time := response_time r; error_message := error_message r;
     is_working := is_working r;
     contains_funding_keywords := contains_funding_keywords r;
     page_title := page_title r |}.

Definition set_status_code (c : Z) (r : validation_result) : validation_result :=
  {| url := url r; status := status r; status_code := Some c;
     response_time := response_time r; error_message := error_message r;
     is_working := is_working r;
     contains_funding_keywords := contains_funding_keywords r;
     page_title := page_title r |}.

Definition set_response_time (t : Z) (r : validation_result) : validation_result :=
  {| url := url r; status := status r; status_code := status_code r;
     response_time := Some t; error_message := error_message r;
     is_working := is_working r;
     contains_funding_keywords := contains_funding_keywords r;
     page_title := page_title r |}.

Definition set_error_message (m : string) (r : validation_result) : validation_result :=
  {| url := url r; status := status r; status_code := status_code r;
     response_time := response_time r; error_message := Some m;
     is_working := is_working r;
     contains_funding_keywords := contains_funding_keywords r;
     page_title := page_title r |}.

Definition set_is_working (b : bool) (r : validation_result) : validation_result :=
  {| url := url r; status := status r; status_code := status_code r;
     response_time := response_time r; error_message := error_message r;
     is_working := b;
     contains_funding_keywords := contains_funding_keywords r;
     page_title := page_title r |}.

Definition set_contains_funding_keywords (b : bool) (r : validation_result) : validation_result :=
  {| url := url r; status := status r; status_code := status_code r;
     response_time := response_time r; error_message := error_message r;
     is_working := is_working r;
     contains_funding_keywords := b;
     page_title := page_title r |}.

Definition set_page_title (t : string) (r : validation_result) : validation_result :=
  {| url := url r; status := status r; status_code := status_code r;
     response_time := response_time r; error_message := error_message r;
     is_working := is_working r;
     contains_funding_keywords := contains_funding_keywords r;
     page_title := Some t |}.

Definition funding_keywords : list string :=
  ["grant"; "funding"; "subvention"; "aide"; "financement";
   "scholarship"; "bourse"; "subsidy"; "support"; "program";
   "programme"; "application"; "deadline"; "eligibility"].

(** The inner [try] of the HTTP 200 branch.  The statements run in order, so
    a failure of [soup.get_text()] comes after the page title was stored. *)
Definition parse_content (body : step soup) (r : validation_result) : validation_result :=
  let failed msg r := set_error_message ("Content parsing failed: " ++ msg) r in
  match body with
  | Raises msg => failed msg r
  | Returns soup =>
      match title_text soup with
      | Raises msg => failed msg r
      | Returns title_tag =>
          let r := match title_tag with
                   | Some text => set_page_title (strip text) r
                   | None => r
                   end in
          match page_text soup with
          | Raises msg => failed msg r
          | Returns text =>
              let page_text := lower text in
              set_contains_funding_keywords
                (existsb (fun keyword => contains page_text keyword) funding_keywords) r
          end
      end
  end.

(** The classification of a request's outcome, lines 72-134. *)
Definition classify (timeout : Z) (outcome : http_outcome) (r : validation_result)
  : validation_result :=
  match outcome with
  | Response code elapsed body =>
      let r := set_status_code code (set_response_time elapsed r) in
      if code =? 200 then
        parse_content body (set_is_working true (set_status "Working" r))
      else if code =? 404 then
        set_error_message "Page not found" (set_status "404 Not Found" r)
      else if code =? 403 then
        set_error_message "Access forbidden" (set_status "403 Forbidden" r)
      else if code =? 500 then
        set_error_message "Internal server error" (set_status "500 Server Error" r)
      else
        set_error_message ("HTTP status code: " ++ str_of_int code)
          (set_status ("HTTP " ++ str_of_int code) r)
  | Timeout =>
      set_error_message ("Request timed out after " ++ str_of_int timeout ++ " seconds")
        (set_status "Timeout" r)
  | ConnectionError =>
      set_error_message "Could not connect to server" (set_status "Connection Error" r)
  | RequestException msg =>
      set_error_message msg (set_status "Request Error" r)
  | OtherException msg =>
      set_error_message msg (set_status "Unknown Error" r)
  end.

Section WithNetwork.

Variable net : network.

(** The body of [validate_url], lines 38-136. *)
Definition validate_url_body (url : string) (timeout : Z) : M validation_result :=
  let validation_result :=
    {| url := url; status := "Unknown"; status_code := None;
       response_time := None; error_message := None; is_working := false;
       contains_funding_keywords := false; page_title := None |} in
  if falsy url || negb (startswith url "http://" || startswith url "https://") then
    ret (set_error_message "URL is empty or does not start with http/https"
           (set_status "Invalid URL" validation_result))
  else
    outcome <- requests_get net url timeout ;;
    ret (classify timeout outcome validation_result).

(** [validate_url]: the body, and the ghost record of the call on return. *)
Definition validate_url (url : string) (timeout : Z) : M validation_result :=
  validation_result <- validate_url_body url timeout ;;
  _ <- note_validation url (is_working validation_result) ;;
  ret validation_result.

End WithNetwork.

End Validator.

(* ================================================================= *)
(** ** [attempt_url_fix] *)

Module Repair.

Record fix_attempt : Type := {
  strategy : string;
  url : string;
  status : string;
  working : bool;
  response_time : option Z;
  page_title : option string
}.

Record fix_result : Type := {
  original_url : string;
  title : string;
  source : string;
  fix_attempts : list fix_attempt;
  final_status : string;
  working_url : option string;
  fix_strategy : option string;
  issues_found : list string
}.

(** [fix_result['fix_attempts'].append(a)] *)
Definition append_attempt (a : fix_attempt) (r : fix_result) : fix_result :=
  {| original_url := original_url r; title := title r; source := source r;
     fix_attempts := fix_attempts r ++ [a];
     final_status := final_status r; working_url := working_url r;
     fix_strategy := fix_strategy r; issues_found := issues_found r |}.

(** [fix_result['issues_found'].append(i)] *)
Definition append_issue (i : string) (r : fix_result) : fix_result :=
  {| original_url := original_url r; title := title r; source := source r;
     fix_attempts := fix_attempts r;
     final_status := final_status r; working_url := working_url r;
     fix_strategy := fix_strategy r; issues_found := issues_found r ++ [i] |}.

(** The three assignments made when a candidate works. *)
Definition mark_fixed (fixed_url strategy_name : string) (r : fix_result) : fix_result :=
  {| original_url := original_url r; title := title r; source := source r;
     fix_attempts := fix_attempts r;
     final_status := "Fixed"; working_url := Some fixed_url;
     fix_strategy := Some strategy_name; issues_found := issues_found r |}.

(** The two assignments made when the original URL works. *)
Definition mark_already_working (r : fix_result) : fix_result :=
  {| original_url := original_url r; title := title r; source := source r;
     fix_attempts := fix_attempts r;
     final_status := "Already Working"; working_url := Some (original_url r);
     fix_strategy := fix_strategy r; issues_found := issues_found r |}.

Definition has_scheme (url : string) : bool :=
  startswith url "http://" || startswith url "https://".

(** The ten rewrite strategies, in the order of the source. *)
Definition strategy_1 (url : string) : string :=
  if negb (has_scheme url) then "https://" ++ url else url.

Definition strategy_2 (url : string) : string :=
  replace (replace (replace url "htpp://" "http://") "htpps://" "https://") "www.www." "www.".

Definition strategy_3 (url : string) : string :=
  if startswith url "http://" then replace url "http://" "https://" else url.

Definition strategy_4 (url : string) : string :=
  if startswith url "https://" then replace url "https://" "http://" else url.

Definition strategy_5 (url : string) : string :=
  replace (replace url "///" "//") "////" "//".

Definition strategy_6 (url : string) : string :=
  if contains url "?" then split_head url "?" else url.

Definition strategy_7 (url : string) : string :=
  if contains url "www." then replace url "www." "" else url.

Definition strategy_8 (url : string) : string :=
  if negb (contains url "://www.") && contains url "://"
  then replace url "://" "://www." else url.

Definition strategy_9 (url : string) : string :=
  if endswith url "/" then rstrip_char url "/" else url.

Definition strategy_10 (url : string) : string :=
  if negb (endswith url "/") && negb (contains url "?") && negb (contains url "#")
  then url ++ "/" else url.

Definition fix_strategies : list (string -> string) :=
  [strategy_1; strategy_2; strategy_3; strategy_4; strategy_5;
   strategy_6; strategy_7; strategy_8; strategy_9; strategy_10].

Definition strategy_names : list string :=
  ["Add missing protocol";
   "Fix common typos";
   "Try HTTPS instead of HTTP";
   "Try HTTP instead of HTTPS";
   "Remove duplicate slashes";
   "Remove URL parameters";
   "Try without www";
   "Try with www";
   "Remove trailing slash";
   "Add trailing slash"].

(** [any(attempt['url'] == fixed_url for attempt in fix_result['fix_attempts'])] *)
Definition already_tested (fixed_url : string) (r : fix_result) : bool :=
  existsb (fun attempt => String.eqb (url attempt) fixed_url) (fix_attempts r).

(** [any(attempt['status'] == s for attempt in fix_result['fix_attempts'])] *)
Definition any_status (s : string) (r : fix_result) : bool :=
  existsb (fun attempt => String.eqb (status attempt) s) (fix_attempts r).

(** The attempt recorded for a validated candidate. *)
Definition attempt_of (strategy_name fixed_url : string)
    (validation : Validator.validation_result) : fix_attempt :=
  {| strategy := strategy_name;
     url := fixed_url;
     status := Validator.status validation;
     working := Validator.is_working validation;
     response_time := Validator.response_time validation;
     page_title := Validator.page_title validation |}.

(** [if condition: fix_result['issues_found'].append(issue)] *)
Definition note_issue_if (condition : bool) (issue : string) (r : fix_result)
  : fix_result :=
  if condition then append_issue issue r else r.

(** "Analyze issues found", lines 316-333. *)
Definition analyze_issues (r : fix_result) : fix_result :=
  let original_url := original_url r in
  let r := note_issue_if (1 <? count original_url "//") "Multiple slashes in URL" r in
  let r := note_issue_if (negb (has_scheme original_url)) "Missing protocol" r in
  let r := note_issue_if (contains original_url "www.www.") "Duplicate www prefix" r in
  let r := note_issue_if (any_status "404 Not Found" r) "Page no longer exists (404)" r in
  let r := note_issue_if (any_status "Connection Error" r) "Server unreachable" r in
  let r := note_issue_if (any_status "Timeout" r) "Server too slow to respond" r in
  let r := note_issue_if (any_status "403 Forbidden" r) "Access forbidden by server" r in
  note_issue_if (5 <? length (fix_attempts r))%nat "Multiple fix strategies failed" r.

(** The candidates of the domain-specific step, lines 260-291, for a given
    [netloc] of the original URL; [None] stands for [urlparse] raising, which
    the bare [except] turns into no candidate at all. *)
Definition domain_fixes_for (parsed_netloc : option string) (original_url : string)
  : list string :=
  match parsed_netloc with
  | None => []
  | Some netloc =>
      let domain := lower netloc in
      if contains domain "ec.europa.eu" then
        (if contains original_url "/calls-for-proposals"
         then ["https://ec.europa.eu/info/funding-tenders/opportunities/portal/screen/home"]
         else [])
        ++ (if contains original_url "/regional_policy"
            then ["https://ec.europa.eu/regional_policy/funding_en"]
            else [])
      else if contains domain "culture.gouv.fr" then
        ["https://www.culture.gouv.fr/Aides-demarches";
         "https://www.culture.gouv.fr/Thematiques/Soutien-a-la-creation-artistique"]
      else if contains domain "artscouncil" then
        (if contains domain ".org.uk"
         then ["https://www.artscouncil.org.uk/funding"]
         else [])
      else if contains domain "kulturfond" || contains domain "kultuur" then
        ["https://www.nordiskkulturfond.org/en/funding"]
      else []
  end.

Section WithWorld.

Variable net : network.

(** [urlparse(url).netloc] of the Python standard library; [None] when
    [urlparse] raises. *)
Variable urlparse_netloc : string -> option string.

Definition domain_fixes (original_url : string) : list string :=
  domain_fixes_for (urlparse_netloc original_url) original_url.

(** The loop over the generic strategies, lines 216-256.  The strategies are
    total functions on strings and [validate_url] catches every exception, so
    the [except] branch of the loop body is never taken. *)
Fixpoint try_strategies (original_url : string)
    (strategies : list ((string -> string) * string)) (fix_result : fix_result)
  : M Repair.fix_result :=
  match strategies with
  | [] => ret fix_result
  | (strategy_func, strategy_name) :: rest =>
      let fixed_url := strategy_func original_url in
      if String.eqb fixed_url original_url then
        try_strategies original_url rest fix_result
      else if already_tested fixed_url fix_result then
        try_strategies original_url rest fix_result
      else
        validation <- Validator.validate_url net fixed_url 5 ;;
        let fix_result :=
          append_attempt (attempt_of strategy_name fixed_url validation) fix_result in
        if Validator.is_working validation then
          ret (mark_fixed fixed_url strategy_name fix_result)
        else
          try_strategies original_url rest fix_result
  end.

(** The loop over the domain-specific candidates, lines 294-313. *)
Fixpoint try_domain_fixes (candidates : list string) (fix_result : fix_result)
  : M Repair.fix_result :=
  match candidates with
  | [] => ret fix_result
  | fixed_url :: rest =>
      if negb (already_tested fixed_url fix_result) then
        validation <- Validator.validate_url net fixed_url 5 ;;
        let fix_result :=
          append_attempt (attempt_of "Domain-specific fix" fixed_url validation)
            fix_result in
        if Validator.is_working validation then
          ret (mark_fixed fixed_url "Domain-specific fix" fix_result)
        else
          try_domain_fixes rest fix_result
      else
        try_domain_fixes rest fix_result
  end.

Definition attempt_url_fix (original_url title source : string) : M fix_result :=
  let fix_result :=
    {| original_url := original_url; title := title; source := source;
       fix_attempts := []; final_status := "Not Fixed"; working_url := None;
       fix_strategy := None; issues_found := [] |} in
  if falsy original_url then
    ret (append_issue "URL is empty" fix_result)
  else
    original_validation <- Validator.validate_url net original_url 5 ;;
    let fix_result :=
      append_attempt
        {| strategy := "Original URL";
           url := original_url;
           status := Validator.status original_validation;
           working := Validator.is_working original_validation;
           response_time := None;
           page_title := None |} fix_result in
    if Validator.is_working original_validation then
      ret (mark_already_working fix_result)
    else
      fix_result <-
        try_strategies original_url (combine fix_strategies strategy_names) fix_result ;;
      fix_result <-
        (if String.eqb (final_status fix_result) "Not Fixed"
         then try_domain_fixes (domain_fixes original_url) fix_result
         else ret fix_result) ;;
      ret (if String.eqb (final_status fix_result) "Not Fixed"
           then analyze_issues fix_result
           else fix_result).

End WithWorld.

(** A [urlparse(url).netloc] for the examples.  [urlparse] belongs to the
    standard library and is a parameter of [attempt_url_fix]; this instance
    follows [urllib.parse.urlsplit] on URLs whose host is ASCII and has no
    pair of square brackets: leading control characters and spaces are
    dropped, tabs and line breaks removed, the scheme is split off at the
    first colon when what precedes it is a letter followed by scheme
    characters, and a rest that starts with two slashes carries the netloc up
    to the first slash, question mark or hash.  A netloc with one square
    bracket only raises [ValueError].  The further checks that [urlsplit]
    makes of an address in brackets and of a host that is not ASCII are not
    part of it. *)
Definition is_alpha (c : ascii) : bool :=
  let n := nat_of_ascii c in
  ((65 <=? n) && (n <=? 90) || (97 <=? n) && (n <=? 122))%nat.

Definition scheme_char (c : ascii) : bool :=
  is_alpha c || is_digit c || Ascii.eqb c "+" || Ascii.eqb c "-" || Ascii.eqb c ".".

(** [_WHATWG_C0_CONTROL_OR_SPACE] *)
Definition c0_control_or_space (c : ascii) : bool := (nat_of_ascii c <=? 32)%nat.

(** [_UNSAFE_URL_BYTES_TO_REMOVE]: tab, carriage return, line feed. *)
Definition unsafe_url_byte (c : ascii) : bool :=
  let n := nat_of_ascii c in ((n =? 9) || (n =? 13) || (n =? 10))%nat.

Fixpoint remove_chars (p : ascii -> bool) (s : string) : string :=
  match s with
  | EmptyString => EmptyString
  | String c s' => if p c then remove_chars p s' else String c (remove_chars p s')
  end.

Fixpoint after_scheme (s : string) : option string :=
  match s with
  | EmptyString => None
  | String c s' =>
      if Ascii.eqb c ":" then Some s'
      else if scheme_char c then after_scheme s'
      else None
  end.

Fixpoint until_delim (s : string) : string :=
  match s with
  | EmptyString => EmptyString
  | String c s' =>
      if Ascii.eqb c "/" || Ascii.eqb c "?" || Ascii.eqb c "#" then EmptyString
      else String c (until_delim s')
  end.

Definition netloc_basic (url : string) : option string :=
  let url := remove_chars unsafe_url_byte (lstrip_by c0_control_or_space url) in
  let rest :=
    match url with
    | EmptyString => url
    | String c _ =>
        if is_alpha c then
          match after_scheme url with Some rest => rest | None => url end
        else url
    end in
  match rest with
  | String "/" (String "/" after) =>
      let netloc := until_delim after in
      if xorb (contains netloc "[") (contains netloc "]") then None
      else Some netloc
  | _ => Some EmptyString
  end.

End Repair.

(* ================================================================= *)
(** ** [SubventionSearcher] and its source adapters *)

Module Searcher.

(** The values found under ['amount_max']: a string, or something that is
    not a string (a JSON number, [None]). *)
Inductive pyvalue : Type :=
| PyStr (s : string)
| PyInt (n : Z)
| PyNone.

(** An opportunity record, with the fields the modelled code reads.  A text
    field that is absent is the empty string, which is what every
    [result.get(key, '')] of the code makes of it; [days_until_deadline] and
    [amount_max] are [None] when the key is absent. *)
Record opportunity : Type := {
  title : string;
  description : string;
  category : string;
  location : string;
  targeted_audiences : string;
  perimeter : string;
  deadline : string;
  days_until_deadline : option Z;
  amount_max : option pyvalue;
  filtered_region : option string
}.

(** [result['filtered_region'] = region_name] *)
Definition set_filtered_region (region_name : string) (r : opportunity) : opportunity :=
  {| title := title r; description := description r; category := category r;
     location := location r; targeted_audiences := targeted_audiences r;
     perimeter := perimeter r; deadline := deadline r;
     days_until_deadline := days_until_deadline r; amount_max := amount_max r;
     filtered_region := Some region_name |}.

(** [table.get(key)] on a dictionary literal. *)
Fixpoint lookup {A : Type} (key : string) (table : list (string * A)) : option A :=
  match table with
  | [] => None
  | (k, v) :: rest => if String.eqb k key then Some v else lookup key rest
  end.

(** [key in table] *)
Definition has_key {A : Type} (key : string) (table : list (string * A)) : bool :=
  match lookup key table with Some _ => true | None => false end.

(** [l[:n]]: the first [n] elements, or all but the last [-n] when [n] is
    negative. *)
Definition slice_to {A : Type} (l : list A) (n : Z) : list A :=
  if 0 <=? n then firstn (Z.to_nat n) l
  else firstn (length l - Z.to_nat (- n)) l.

(** [EUROPEAN_COUNTRIES]: country code and [name]. *)
Definition EUROPEAN_COUNTRIES : list (string * string) :=
  [("AT", "Austria");
   ("BE", "Belgium");
   ("BG", "Bulgaria");
   ("HR", "Croatia");
   ("CY", "Cyprus");
   ("CZ", "Czech Republic");
   ("DK", "Denmark");
   ("EE", "Estonia");
   ("FI", "Finland");
   ("FR", "France");
   ("DE", "Germany");
   ("GR", "Greece");
   ("HU", "Hungary");
   ("IE", "Ireland");
   ("IT", "Italy");
   ("LV", "Latvia");
   ("LT", "Lithuania");
   ("LU", "Luxembourg");
   ("MT", "Malta");
   ("NL", "Netherlands");
   ("PL", "Poland");
   ("PT", "Portugal");
   ("RO", "Romania");
   ("SK", "Slovakia");
   ("SI", "Slovenia");
   ("ES", "Spain");
   ("SE", "Sweden");
   ("NO", "Norway");
   ("IS", "Iceland");
   ("CH", "Switzerland");
   ("UK", "United Kingdom");
   ("TR", "Turkey");
   ("AL", "Albania");
   ("BA", "Bosnia and Herzegovina");
   ("ME", "Montenegro");
   ("MK", "North Macedonia");
   ("RS", "Serbia");
   ("UA", "Ukraine");
   ("MD", "Moldova");
   ("GE", "Georgia");
   ("AM", "Armenia")].

(** [EUROPEAN_REGIONS]: key, [name] and [countries]. *)
Definition EUROPEAN_REGIONS : list (string * (string * list string)) :=
  [("", ("All European Countries", map fst EUROPEAN_COUNTRIES));
   ("WEST", ("Western Europe", ["AT"; "BE"; "FR"; "DE"; "IE"; "LU"; "NL"; "CH"; "UK"]));
   ("NORTH", ("Northern Europe", ["DK"; "EE"; "FI"; "IS"; "LV"; "LT"; "NO"; "SE"]));
   ("SOUTH", ("Southern Europe", ["HR"; "CY"; "GR"; "IT"; "MT"; "PT"; "ES"; "AL"; "BA"; "ME"; "MK"; "RS"; "TR"]));
   ("EAST", ("Eastern Europe", ["BG"; "CZ"; "HU"; "PL"; "RO"; "SK"; "SI"; "UA"; "MD"; "GE"; "AM"]));
   ("CENTRAL", ("Central Europe", ["AT"; "CZ"; "DE"; "HU"; "PL"; "SK"; "SI"; "CH"]));
   ("BRITISH", ("British Isles", ["UK"; "IE"]));
   ("DE", ("Germany", ["DE"]));
   ("IT", ("Italy", ["IT"]));
   ("ES", ("Spain", ["ES"]));
   ("NL", ("Netherlands", ["NL"]));
   ("BE", ("Belgium", ["BE"]));
   ("AT", ("Austria", ["AT"]));
   ("CH", ("Switzerland", ["CH"]));
   ("DK", ("Denmark", ["DK"]));
   ("SE", ("Sweden", ["SE"]));
   ("NO", ("Norway", ["NO"]));
   ("FI", ("Finland", ["FI"]));
   ("PL", ("Poland", ["PL"]));
   ("CZ", ("Czech Republic", ["CZ"]));
   ("HU", ("Hungary", ["HU"]));
   ("GR", ("Greece", ["GR"]));
   ("PT", ("Portugal", ["PT"]));
   ("IE", ("Ireland", ["IE"]));
   ("RO", ("Romania", ["RO"]));
   ("BG", ("Bulgaria", ["BG"]));
   ("HR", ("Croatia", ["HR"]));
   ("SK", ("Slovakia", ["SK"]));
   ("SI", ("Slovenia", ["SI"]));
   ("EE", ("Estonia", ["EE"]));
   ("LV", ("Latvia", ["LV"]));
   ("LT", ("Lithuania", ["LT"]));
   ("LU", ("Luxembourg", ["LU"]));
   ("MT", ("Malta", ["MT"]));
   ("CY", ("Cyprus", ["CY"]))].

(** [COLOMBIAN_CITIES]: city code and [name]. *)
Definition COLOMBIAN_CITIES : list (string * string) :=
  [("BOG", "Bogotá");
   ("MDE", "Medellín");
   ("CLI", "Cali");
   ("BAQ", "Barranquilla");
   ("CTG", "Cartagena");
   ("CUC", "Cúcuta");
   ("SMR", "Santa Marta");
   ("IBG", "Ibagué");
   ("BUC", "Bucaramanga");
   ("PEI", "Pereira");
   ("MAN", "Manizales");
   ("ARM", "Armenia");
   ("VLD", "Valledupar");
   ("VIL", "Villavicencio");
   ("PAS", "Pasto");
   ("MON", "Montería");
   ("NEV", "Neiva");
   ("SIN", "Sincelejo");
   ("RIO", "Riohacha");
   ("QUE", "Quibdó");
   ("FLO", "Florencia");
   ("YOP", "Yopal");
   ("ARA", "Arauca");
   ("LET", "Leticia");
   ("MIT", "Mitú");
   ("PUE", "Puerto Carreño");
   ("INI", "Inírida");
   ("SJG", "San José del Guaviare");
   ("TUN", "Tunja");
   ("POA", "Popayán")].

(** [COLOMBIAN_REGIONS]: key, [name] and [cities]. *)
Definition COLOMBIAN_REGIONS : list (string * (string * list string)) :=
  [("", ("All Colombian Cities", map fst COLOMBIAN_CITIES));
   ("ANDINA", ("Región Andina", ["BOG"; "MDE"; "CUC"; "IBG"; "BUC"; "PEI"; "MAN"; "ARM"; "NEV"; "TUN"; "POA"]));
   ("CARIBE", ("Región Caribe", ["BAQ"; "CTG"; "SMR"; "VLD"; "MON"; "SIN"; "RIO"]));
   ("PACIFICA", ("Región Pacífica", ["CLI"; "PAS"; "QUE"]));
   ("ORINOQUIA", ("Región Orinoquía", ["VIL"; "YOP"; "ARA"; "PUE"]));
   ("AMAZONICA", ("Región Amazónica", ["FLO"; "LET"; "MIT"; "INI"; "SJG"]));
   ("BOG", ("Bogotá", ["BOG"]));
   ("MDE", ("Medellín", ["MDE"]));
   ("CLI", ("Cali", ["CLI"]));
   ("BAQ", ("Barranquilla", ["BAQ"]));
   ("CTG", ("Cartagena", ["CTG"]));
   ("CUC", ("Cúcuta", ["CUC"]));
   ("SMR", ("Santa Marta", ["SMR"]));
   ("IBG", ("Ibagué", ["IBG"]));
   ("BUC", ("Bucaramanga", ["BUC"]));
   ("PEI", ("Pereira", ["PEI"]));
   ("MAN", ("Manizales", ["MAN"]));
   ("ARM", ("Armenia", ["ARM"]));
   ("VLD", ("Valledupar", ["VLD"]));
   ("VIL", ("Villavicencio", ["VIL"]));
   ("PAS", ("Pasto", ["PAS"]));
   ("MON", ("Montería", ["MON"]));
   ("NEV", ("Neiva", ["NEV"]));
   ("TUN", ("Tunja", ["TUN"]));
   ("POA", ("Popayán", ["POA"]))].

(** *** Urgency sort *)

(** [a < b] on pairs of integers. *)
Definition tuple_ltb (a b : Z * Z) : bool :=
  (fst a <? fst b) || ((fst a =? fst b) && (snd a <? snd b)).

(** [sorted(l, key=key)]: Python's sort is stable and compares keys with
    [<] only; its result is the one of a stable insertion sort. *)
Fixpoint insert_by {A : Type} (key : A -> Z * Z) (x : A) (l : list A) : list A :=
  match l with
  | [] => [x]
  | y :: rest =>
      if tuple_ltb (key y) (key x) then y :: insert_by key x rest
      else x :: y :: rest
  end.

Definition sorted {A : Type} (l : list A) (key : A -> Z * Z) : list A :=
  fold_right (insert_by key) [] l.

Definition get_deadline_priority (item : opportunity) : Z * Z :=
  let days_until :=
    match days_until_deadline item with Some d => d | None => 999 end in
  if days_until <? 30 then (1, days_until)
  else if days_until <? 90 then (2, days_until)
  else (3, days_until).

Definition _sort_by_deadline (results : list opportunity) : list opportunity :=
  sorted results get_deadline_priority.

(** *** Source adapters *)

(** What the Aides-Territoires request of [search_subventions] comes to:
    the normalised records of a successful answer (the loop of lines 675-710
    makes one record of each aid of the payload), HTTP 401, HTTP 429, a
    [requests.exceptions.RequestException] (transport failure, or
    [raise_for_status] on another error status), or any other exception. *)
Inductive french_reply : Type :=
| Aids (processed_results : list opportunity)
| Unauthorized
| RateLimited
| RequestFailure
| OtherFailure.

Record search_results : Type := {
  french : list opportunity;
  european : list opportunity;
  colombian : list opportunity
}.

Section WithSources.

(** [datetime.now()] and [datetime.strptime(text, format)], in microseconds
    since the epoch; [None] when [strptime] raises. *)
Variable now : Z.
Variable strptime : string -> string -> option Z.

(** The Aides-Territoires API, asked with keywords, region and limit. *)
Variable aides_territoires : string -> string -> Z -> french_reply.

(** [DynamicEuropeanAPI.search_dynamic_european_data(keywords, limit)]: live
    OpenAIRE queries and link validation over HTTP. *)
Variable search_dynamic_european_data : string -> Z -> list opportunity.

(** [max(0, (deadline - now).days)] *)
Definition days_from_now (deadline_date : Z) : Z :=
  Z.max 0 ((deadline_date - now) / 86400000000).

(** [AidesTerritoriesAPI._calculate_days_until_deadline] *)
Definition _calculate_days_until_deadline (deadline_str : string) : Z :=
  if falsy deadline_str then 999
  else match strptime deadline_str "%d/%m/%Y" with
       | Some deadline_date => days_from_now deadline_date
       | None => 999
       end.

(** [SubventionSearcher._calculate_days_until] *)
Definition _calculate_days_until (deadline_str : string) : Z :=
  match strptime deadline_str "%Y-%m-%d" with
  | Some deadline_date => days_from_now deadline_date
  | None => 999
  end.

Definition sample_data : list opportunity :=
      [{| title := "Aide à l'innovation numérique";
         description := "Subvention destinée aux entreprises développant des solutions numériques innovantes. Montant jusqu'à 50 000€ pour financer la R&D et le développement de prototypes.";
         category := "French Subvention";
         location := "";
         targeted_audiences := "TPE, PME, Startups";
         perimeter := "Île-de-France";
         deadline := "31/12/2025";
         days_until_deadline := Some (_calculate_days_until_deadline "31/12/2025");
         amount_max := Some (PyStr "50000");
         filtered_region := None |};
       {| title := "Fonds pour la transition écologique";
         description := "Accompagnement financier pour les projets de transition énergétique et environnementale. Soutien aux énergies renouvelables et à l'efficacité énergétique.";
         category := "French Subvention";
         location := "";
         targeted_audiences := "Entreprises, Collectivités";
         perimeter := "France entière";
         deadline := "30/11/2025";
         days_until_deadline := Some (_calculate_days_until_deadline "30/11/2025");
         amount_max := Some (PyStr "100000");
         filtered_region := None |};
       {| title := "Bourse French Tech";
         description := "Programme de financement pour les startups technologiques en phase d'amorçage. Accompagnement personnalisé et accès au réseau French Tech.";
         category := "French Subvention";
         location := "";
         targeted_audiences := "Startups tech";
         perimeter := "Métropoles French Tech";
         deadline := "15/10/2025";
         days_until_deadline := Some (_calculate_days_until_deadline "15/10/2025");
         amount_max := Some (PyStr "30000");
         filtered_region := None |}].
  
(** [AidesTerritoriesAPI._get_sample_french_data]; the region is not used. *)
Definition _get_sample_french_data (keywords region : string) : list opportunity :=
  if negb (falsy keywords) then
    let keyword_list := map (fun k => lower (strip k)) (split_on keywords ",") in
    filter
      (fun item =>
         let search_text := lower (title item ++ " " ++ description item) in
         existsb (fun keyword => contains search_text keyword) keyword_list)
      sample_data
  else sample_data.

(** [AidesTerritoriesAPI.search_subventions] *)
Definition search_subventions (keywords region : string) (limit : Z) : list opportunity :=
  match aides_territoires keywords region limit with
  | Unauthorized => _get_sample_french_data keywords region
  | RateLimited => []
  | Aids processed_results => processed_results
  | RequestFailure => _get_sample_french_data keywords region
  | OtherFailure => []
  end.

(** [TEDEuropaAPI._filter_by_region] *)
Definition _filter_by_region (results : list opportunity) (region : string)
  : list opportunity :=
  if falsy region || match results with [] => true | _ => false end then results
  else
    let region_info := lookup (upper region) EUROPEAN_REGIONS in
    let region_name :=
      match region_info with Some (name, _) => name | None => region end in
    let country_codes :=
      match region_info with Some (_, countries) => countries | None => [upper region] end in
    map (set_filtered_region region_name)
      (filter
         (fun result =>
            let text_to_search :=
              lower (title result ++ " " ++ description result ++ " "
                     ++ targeted_audiences result ++ " " ++ perimeter result) in
            existsb
              (fun code =>
                 let country_name :=
                   lower (match lookup code EUROPEAN_COUNTRIES with
                          | Some name => name
                          | None => ""
                          end) in
                 contains text_to_search (lower code)
                 || contains text_to_search country_name
                 || contains text_to_search (lower region_name))
              country_codes)
         results).

(** "Remove duplicates based on title", lines 932-938: [seen_titles] holds
    the lower-cased titles kept so far. *)
Fixpoint unique_by_title (seen_titles : list string) (all_results : list opportunity)
  : list opportunity :=
  match all_results with
  | [] => []
  | result :: rest =>
      let title_lower := lower (title result) in
      if existsb (String.eqb title_lower) seen_titles
      then unique_by_title seen_titles rest
      else result :: unique_by_title (title_lower :: seen_titles) rest
  end.

(** [TEDEuropaAPI.search_european_subventions] *)
Definition search_european_subventions (keywords region : string) (limit : Z)
  : list opportunity :=
  let all_results := search_dynamic_european_data keywords limit in
  let all_results :=
    if negb (falsy region) then _filter_by_region all_results region else all_results in
  let unique_results := unique_by_title [] all_results in
  slice_to unique_results limit.

Definition culture_opportunities : list opportunity :=
      [{| title := "Programa Nacional de Estímulos - Artes Visuales";
         description := "Convocatoria anual del Ministerio de Cultura para apoyar proyectos de artes visuales, incluyendo pintura, escultura, fotografía, videoarte y nuevos medios.";
         category := "Artes y Cultura";
         location := "Nacional - Todas las ciudades";
         targeted_audiences := "";
         perimeter := "";
         deadline := "2025-09-15";
         days_until_deadline := Some (_calculate_days_until "2025-09-15");
         amount_max := None;
         filtered_region := None |};
       {| title := "Becas de Creación Artística - Bogotá";
         description := "Programa del IDARTES para apoyar procesos de creación en todas las disciplinas artísticas en Bogotá.";
         category := "Artes y Cultura";
         location := "Bogotá";
         targeted_audiences := "";
         perimeter := "";
         deadline := "2025-10-30";
         days_until_deadline := Some (_calculate_days_until "2025-10-30");
         amount_max := None;
         filtered_region := None |};
       {| title := "Fondo de Desarrollo Cinematográfico - PROIMÁGENES";
         description := "Apoyo para proyectos de desarrollo, producción y posproducción de obras cinematográficas y audiovisuales.";
         category := "Audiovisual";
         location := "Nacional";
         targeted_audiences := "";
         perimeter := "";
         deadline := "2025-11-20";
         days_until_deadline := Some (_calculate_days_until "2025-11-20");
         amount_max := None;
         filtered_region := None |};
       {| title := "Convocatoria Artistas Jóvenes - Medellín";
         description := "Programa de la Alcaldía de Medellín para apoyar proyectos artísticos de jóvenes entre 18 y 28 años.";
         category := "Juventud y Arte";
         location := "Medellín";
         targeted_audiences := "";
         perimeter := "";
         deadline := "2025-08-25";
         days_until_deadline := Some (_calculate_days_until "2025-08-25");
         amount_max := None;
         filtered_region := None |};
       {| title := "Programa de Emprendimiento Cultural - INNPULSA";
         description := "Financiación para emprendimientos culturales y creativos con potencial de crecimiento y generación de empleo.";
         category := "Emprendimiento Cultural";
         location := "Nacional";
         targeted_audiences := "";
         perimeter := "";
         deadline := "2025-12-15";
         days_until_deadline := Some (_calculate_days_until "2025-12-15");
         amount_max := None;
         filtered_region := None |};
       {| title := "Residencias Artísticas - Cali";
         description := "Programa de residencias artísticas internacionales y nacionales en la ciudad de Cali.";
         category := "Residencias Artísticas";
         location := "Cali";
         targeted_audiences := "";
         perimeter := "";
         deadline := "2025-09-08";
         days_until_deadline := Some (_calculate_days_until "2025-09-08");
         amount_max := None;
         filtered_region := None |};
       {| title := "Becas de Investigación Cultural - COLCIENCIAS";
         description := "Apoyo para proyectos de investigación en cultura, patrimonio y artes.";
         category := "Investigación Cultural";
         location := "Nacional";
         targeted_audiences := "";
         perimeter := "";
         deadline := "2025-11-30";
         days_until_deadline := Some (_calculate_days_until "2025-11-30");
         amount_max := None;
         filtered_region := None |};
       {| title := "Fondo de Artes Escénicas - Barranquilla";
         description := "Apoyo para montajes teatrales, danza y música en el Caribe colombiano.";
         category := "Artes Escénicas";
         location := "Barranquilla";
         targeted_audiences := "";
         perimeter := "";
         deadline := "2025-10-10";
         days_until_deadline := Some (_calculate_days_until "2025-10-10");
         amount_max := None;
         filtered_region := None |};
       {| title := "Programa Nacional de Bandas - Música";
         description := "Fortalecimiento de bandas musicales municipales y departamentales.";
         category := "Música";
         location := "Nacional - Municipios";
         targeted_audiences := "";
         perimeter := "";
         deadline := "2025-11-05";
         days_until_deadline := Some (_calculate_days_until "2025-11-05");
         amount_max := None;
         filtered_region := None |};
       {| title := "Convocatoria de Literatura - Cartagena";
         description := "Apoyo para publicación de obras literarias y proyectos editoriales.";
         category := "Literatura";
         location := "Cartagena";
         targeted_audiences := "";
         perimeter := "";
         deadline := "2025-09-20";
         days_until_deadline := Some (_calculate_days_until "2025-09-20");
         amount_max := None;
         filtered_region := None |}].
(** [SubventionSearcher.search_colombian_funding] *)
Definition search_colombian_funding (keywords region : string) (limit : Z)
  : list opportunity :=
  let target_cities :=
    if negb (falsy region) && has_key region COLOMBIAN_REGIONS then
      match lookup (upper region) COLOMBIAN_REGIONS with
      | Some (_, cities) => cities
      | None => []
      end
    else [] in
  let results :=
    filter
      (fun opportunity =>
         (if negb (falsy keywords) then
            existsb
              (fun keyword =>
                 contains (lower (title opportunity)) (lower keyword)
                 || contains (lower (description opportunity)) (lower keyword)
                 || contains (lower (category opportunity)) (lower keyword))
              (split_ws keywords)
          else true)
         &&
         (match target_cities with
          | [] => true
          | _ =>
              existsb
                (fun city_code =>
                   let city_name :=
                     lower (match lookup city_code COLOMBIAN_CITIES with
                            | Some name => name
                            | None => ""
                            end) in
                   negb (falsy city_name)
                   && (contains (lower (location opportunity)) city_name
                       || String.eqb (lower (location opportunity)) "nacional"))
                target_cities
          end))
      culture_opportunities in
  if limit =? 0 then results else slice_to results limit.

(** [SubventionSearcher.search_all] *)
Definition search_all (keywords region european_region colombian_region : string)
    (include_european include_colombian : bool) (limit : Z) : search_results :=
  let active_searches := 1 in
  let active_searches := if include_european then active_searches + 1 else active_searches in
  let active_searches := if include_colombian then active_searches + 1 else active_searches in
  let search_limit := limit / active_searches in
  let results_french := search_subventions keywords region search_limit in
  let results_european :=
    if include_european
    then search_european_subventions keywords european_region search_limit
    else [] in
  let results_colombian :=
    if include_colombian
    then search_colombian_funding keywords colombian_region search_limit
    else [] in
  {| french := _sort_by_deadline results_french;
     european := _sort_by_deadline results_european;
     colombian := _sort_by_deadline results_colombian |}.

End WithSources.

End Searcher.
(* ================================================================= *)
(** ** Python floats of the funding aggregation *)

Module PyFloat.

(** [float] is applied to strings of digits only, and the floats are then
    added and compared: every float met is the binary64 value of a
    non-negative integer, that is an integer of at most 53 significant bits
    times a power of two, below 2^1024, or [inf]. *)
Inductive float : Type :=
| Finite (n : Z)
| Inf.

(** The binary64 value nearest to the non-negative integer [n], the one with
    the even significand when two are as near; [inf] when that value would
    reach 2^1024.  This is the rounding of [float(s)] and of [+]. *)
Definition round (n : Z) : float :=
  let bits := Z.log2 n + 1 in
  if bits <=? 53 then Finite n
  else
    let ulp := 2 ^ (bits - 53) in
    let q := n / ulp in
    let r := n mod ulp in
    let q := if (ulp <? 2 * r) || ((2 * r =? ulp) && Z.odd q) then q + 1 else q in
    if 2 ^ 1024 <=? q * ulp then Inf else Finite (q * ulp).

(** [a + b] *)
Definition add (a b : float) : float :=
  match a, b with
  | Finite x, Finite y => round (x + y)
  | _, _ => Inf
  end.

(** [a < b] *)
Definition ltb (a b : float) : bool :=
  match a, b with
  | Finite x, Finite y => x <? y
  | Finite _, Inf => true
  | Inf, _ => false
  end.

(** [a <= b] *)
Definition leb (a b : float) : bool := negb (ltb b a).

(** One step of [max(...)]: the item replaces the maximum when it is
    greater. *)
Definition max (maxval item : float) : float := if ltb maxval item then item else maxval.

(** One step of [min(...)]: the item replaces the minimum when it is less. *)
Definition min (minval item : float) : float := if ltb item minval then item else minval.

End PyFloat.

(* ================================================================= *)
(** ** Funding aggregation of [create_analysis_log] *)

Module Analysis.

Import Searcher.

(** The number written by decimal digits, most significant first; [None]
    when a character is not a decimal digit. *)
Fixpoint digits_value (acc : Z) (l : list N) : option Z :=
  match l with
  | [] => Some acc
  | n :: rest =>
      match Unicode.decimal_value n with
      | Some d => digits_value (10 * acc + Z.of_N d) rest
      | None => None
      end
  end.

(** [float(s)] for a string that passed [isdigit]: the float nearest to the
    number written when every character is a decimal digit, of whatever
    script; [None], for [ValueError], when a character is a digit of another
    kind, such as a superscript. *)
Definition float_of_digits (s : string) : option PyFloat.float :=
  match decode s with
  | [] => None
  | l => option_map PyFloat.round (digits_value 0 l)
  end.

(** [amount_max.replace(',', '').replace('€', '').replace('EUR', '').strip()] *)
Definition clean_amount (s : string) : string :=
  strip (replace (replace (replace s "," "") "€" "") "EUR" "").

(** The body of the loop of lines 1035-1043: what one record appends to
    [amounts].  A value that is not a string is either falsy or has no
    [isdigit] method; the [AttributeError], like the [ValueError] of
    [float], is swallowed by the bare [except: continue]. *)
Definition amount_of (result : opportunity) : list PyFloat.float :=
  let amount_max :=
    match amount_max result with Some v => v | None => PyStr "0" end in
  let amount_max :=
    match amount_max with
    | PyStr s => PyStr (clean_amount s)
    | v => v
    end in
  match amount_max with
  | PyStr s =>
      if negb (falsy s) && isdigit s then
        match float_of_digits s with
        | Some amount => [amount]
        | None => []
        end
      else []
  | PyInt _ => []
  | PyNone => []
  end.

Definition amounts (all_results : list opportunity) : list PyFloat.float :=
  fold_left (fun amounts result => amounts ++ amount_of result) all_results [].

(** [sum(amounts) if amounts else 0]: the amounts are added from left to
    right, each sum rounded, as [sum] adds floats up to CPython 3.11 (later
    versions carry a correction term along). *)
Definition total_funding (all_results : list opportunity) : PyFloat.float :=
  fold_left PyFloat.add (amounts all_results) (PyFloat.Finite 0).

(** [max(amounts) if amounts else 0] *)
Definition max_funding (all_results : list opportunity) : PyFloat.float :=
  match amounts all_results with
  | [] => PyFloat.Finite 0
  | a :: rest => fold_left PyFloat.max rest a
  end.

(** [min(amounts) if amounts else 0] *)
Definition min_funding (all_results : list opportunity) : PyFloat.float :=
  match amounts all_results with
  | [] => PyFloat.Finite 0
  | a :: rest => fold_left PyFloat.min rest a
  end.

(** [total_funding / len(amounts) if amounts else 0], as the pair of the
    total and the number of amounts. *)
Definition avg_funding (all_results : list opportunity) : PyFloat.float * nat :=
  (total_funding all_results, length (amounts all_results)).

End Analysis.

(* ================================================================= *)
(** ** Counting by key, as the reports do *)

Module Counting.

(** [counts[key] = counts.get(key, 0) + 1] (or the [if key in counts]
    form of it) on a dictionary, which keeps its keys in insertion order. *)
Fixpoint bump (key : string) (counts : list (string * Z)) : list (string * Z) :=
  match counts with
  | [] => [(key, 1)]
  | (k, n) :: rest =>
      if String.eqb k key then (k, n + 1) :: rest else (k, n) :: bump key rest
  end.

(** The loop [for key in keys: counts[key] = counts.get(key, 0) + 1]. *)
Definition count_keys (keys : list string) : list (string * Z) :=
  fold_left (fun counts key => bump key counts) keys [].

(** [counts.get(key, 0)] *)
Definition get (key : string) (counts : list (string * Z)) : Z :=
  match Searcher.lookup key counts with Some n => n | None => 0 end.

(** [sorted(counts.items(), key=lambda x: x[1], reverse=True)]: largest
    count first; the sort is stable, also when reversed. *)
Fixpoint insert_desc (x : string * Z) (l : list (string * Z)) : list (string * Z) :=
  match l with
  | [] => [x]
  | y :: rest =>
      if snd x <? snd y then y :: insert_desc x rest else x :: y :: rest
  end.

Definition sorted_desc (items : list (string * Z)) : list (string * Z) :=
  fold_right insert_desc [] items.

End Counting.

(* ================================================================= *)
(** ** [create_url_fix_log]

    The log is written to two files; what is modelled is the data that is
    written.  The time stamp and the percentages, which are formatted
    floating-point numbers, are left out of it. *)

Module FixLog.

(** An entry of [broken_urls]: its ['url'], and ['title'] and ['source']
    when it has them. *)
Record broken_url : Type := {
  url : string;
  title : option string;
  source : option string
}.

(** [d.get(key, default)] for a text value. *)
Definition text_or (default : string) (v : option string) : string :=
  match v with Some s => s | None => default end.

Record fix_log_data : Type := {
  total_broken_urls : Z;
  successfully_fixed : Z;
  fixed_urls : Z;
  already_working : Z;
  not_fixed : Z;
  common_issues : list (string * Z);
  fix_results : list Repair.fix_result;
  recommendations : list string
}.

(** [len([r for r in fix_results if r['final_status'] == status])] *)
Definition count_status (status : string) (fix_results : list Repair.fix_result) : Z :=
  Z.of_nat (length (filter (fun r => String.eqb (Repair.final_status r) status)
                      fix_results)).

(** Lines 377-423: the log made of the results of the loop. *)
Definition fix_log (broken_urls : list broken_url)
    (fix_results : list Repair.fix_result) (fixed_count : Z) : fix_log_data :=
  let all_issues := flat_map Repair.issues_found fix_results in
  let issue_counts := Counting.count_keys all_issues in
  let common_issues := Counting.sorted_desc issue_counts in
  {| total_broken_urls := Z.of_nat (length broken_urls);
     successfully_fixed := fixed_count;
     fixed_urls := fixed_count;
     already_working := count_status "Already Working" fix_results;
     not_fixed := count_status "Not Fixed" fix_results;
     common_issues := firstn 5 common_issues;
     fix_results := fix_results;
     recommendations :=
       (if 0 <? fixed_count
        then [("Successfully fixed " ++ str_of_int fixed_count
               ++ " URLs - update database with new working URLs")%string]
        else [])
       ++ (if 0 <? count_status "Not Fixed" fix_results
           then ["Consider removing permanently broken URLs or finding alternative sources"]
           else [])
       ++ (if Z.of_nat (length broken_urls)
              <? 2 * Counting.get "Page no longer exists (404)" issue_counts
           then ["Many pages no longer exist - website restructuring likely occurred"]
           else [])
       ++ (if 0 <? Counting.get "Server unreachable" issue_counts
           then ["Some servers are unreachable - check if organizations still exist"]
           else []) |}.

Section WithWorld.

Variable net : network.
Variable urlparse_netloc : string -> option string.

(** The loop of lines 358-370. *)
Fixpoint fix_loop (broken_urls : list broken_url)
    (fix_results : list Repair.fix_result) (fixed_count : Z)
  : M (list Repair.fix_result * Z) :=
  match broken_urls with
  | [] => ret (fix_results, fixed_count)
  | broken_url :: rest =>
      fix_result <-
        Repair.attempt_url_fix net urlparse_netloc (url broken_url)
          (text_or "" (title broken_url)) (text_or "" (source broken_url)) ;;
      let fix_results := fix_results ++ [fix_result] in
      let fixed_count :=
        if String.eqb (Repair.final_status fix_result) "Fixed"
        then fixed_count + 1 else fixed_count in
      fix_loop rest fix_results fixed_count
  end.

(** [create_url_fix_log]: [None] when the directory cannot be made, when
    there is nothing to fix, or when the files cannot be written (the
    exception is caught); otherwise the log that is written.  Whether the
    directory can be made and the files written is up to the file system. *)
Definition create_url_fix_log (directory_made files_written : bool)
    (broken_urls : list broken_url) : M (option fix_log_data) :=
  if negb directory_made then ret None
  else
    match broken_urls with
    | [] => ret None
    | _ :: _ =>
        looped <- fix_loop broken_urls [] 0 ;;
        let fix_log_data := fix_log broken_urls (fst looped) (snd looped) in
        if files_written then ret (Some fix_log_data) else ret None
    end.

End WithWorld.

End FixLog.

(* ================================================================= *)
(** ** The statistics and the URL pass of [create_analysis_log] *)

Module Report.

(** The keys of a result that lines 1028-1031 and 1051-1105 read; [None] is
    an absent key. *)
Record result : Type := {
  url : option string;
  title : option string;
  source : option string;
  perimeter : option string;
  days_until_deadline : option Z
}.

(** [r.get('days_until_deadline', 999)] *)
Definition days (r : result) : Z :=
  match days_until_deadline r with Some d => d | None => 999 end.

Definition urgent_7 (all_results : list result) : list result :=
  filter (fun r => days r <=? 7) all_results.

Definition urgent_30 (all_results : list result) : list result :=
  filter (fun r => days r <=? 30) all_results.

Definition medium_90 (all_results : list result) : list result :=
  filter (fun r => (30 <? days r) && (days r <=? 90)) all_results.

Definition distant (all_results : list result) : list result :=
  filter (fun r => 90 <? days r) all_results.

(** "Geographic analysis", lines 1051-1066. *)
Definition countries (all_results : list result) : list (string * Z) :=
  Counting.count_keys
    (map (fun result => FixLog.text_or "Unknown" (perimeter result)) all_results).

Definition sources (all_results : list result) : list (string * Z) :=
  Counting.count_keys
    (map (fun result => FixLog.text_or "Unknown" (source result)) all_results).

(** The funding ranges of lines 1213-1216, on the list [amounts]. *)
Definition under_10k (amounts : list PyFloat.float) : nat :=
  length (filter (fun a => PyFloat.ltb a (PyFloat.Finite 10000)) amounts).

Definition from_10k_to_50k (amounts : list PyFloat.float) : nat :=
  length (filter (fun a => PyFloat.leb (PyFloat.Finite 10000) a
                           && PyFloat.ltb a (PyFloat.Finite 50000)) amounts).

Definition from_50k_to_100k (amounts : list PyFloat.float) : nat :=
  length (filter (fun a => PyFloat.leb (PyFloat.Finite 50000) a
                           && PyFloat.ltb a (PyFloat.Finite 100000)) amounts).

Definition over_100k (amounts : list PyFloat.float) : nat :=
  length (filter (fun a => PyFloat.leb (PyFloat.Finite 100000) a) amounts).

Module Info.

(** An entry of [urls_to_validate]. *)
Record url_info : Type := {
  url : string;
  title : string;
  source : string;
  country : string
}.

End Info.

(** The loop of lines 1075-1083. *)
Fixpoint collect_urls (all_results : list result) (urls_to_validate : list Info.url_info)
  : list Info.url_info :=
  match all_results with
  | [] => urls_to_validate
  | result :: rest =>
      let url := FixLog.text_or "" (url result) in
      if negb (falsy url)
         && negb (existsb (String.eqb url) (map Info.url urls_to_validate))
      then
        collect_urls rest
          (urls_to_validate ++
             [{| Info.url := url;
                 Info.title := FixLog.text_or "Unknown" (title result);
                 Info.source := FixLog.text_or "Unknown" (source result);
                 Info.country := FixLog.text_or "Unknown" (perimeter result) |}])
      else collect_urls rest urls_to_validate
  end.

Definition urls_to_validate (all_results : list result) : list Info.url_info :=
  collect_urls all_results [].

(** A validation with the title, source and country it is updated with
    (line 1094): the validation and the entry it was made for. *)
Definition validated_url : Type := Validator.validation_result * Info.url_info.

Record url_validation : Type := {
  url_validation_results : list validated_url;
  working_urls : list validated_url;
  broken_urls : list validated_url
}.

(** "Group broken URLs by error type", lines 1116-1122. *)
Definition error_breakdown (v : url_validation) : list (string * Z) :=
  Counting.count_keys (map (fun broken_url => Validator.status (fst broken_url))
                         (broken_urls v)).


Section WithWorld.

Variable net : network.
Variable urlparse_netloc : string -> option string.

(** The loop of lines 1090-1105; [validate_url] is called with its default
    timeout of 10 seconds. *)
Fixpoint validate_all (urls_to_validate : list Info.url_info) (v : url_validation)
  : M url_validation :=
  match urls_to_validate with
  | [] => ret v
  | url_info :: rest =>
      validation <- Validator.validate_url net (Info.url url_info) 10 ;;
      let validated := (validation, url_info) in
      validate_all rest
        {| url_validation_results := url_validation_results v ++ [validated];
           working_urls :=
             if Validator.is_working validation
             then working_urls v ++ [validated] else working_urls v;
           broken_urls :=
             if Validator.is_working validation
             then broken_urls v else broken_urls v ++ [validated] |}
  end.

(** The URL pass, lines 1070-1107. *)
Definition validate_results (all_results : list result) : M url_validation :=
  validate_all (urls_to_validate all_results)
    {| url_validation_results := []; working_urls := []; broken_urls := [] |}.


End WithWorld.

End Report.

(* ================================================================= *)
(** ** Vocabulary of the statements, and sample worlds *)

(** A URL the validator refuses before any request: empty, or starting with
    neither scheme. *)
Definition invalid_url (url : string) : Prop :=
  url = "" \/
  (~ (exists rest, url = ("http://" ++ rest)%string) /\
   ~ (exists rest, url = ("https://" ++ rest)%string)).

(** The message of the first statement that raises inside the content
    [try] of [validate_url], if one does. *)
Definition parse_failure (body : step soup) : option string :=
  match body with
  | Raises msg => Some msg
  | Returns soup =>
      match title_text soup with
      | Raises msg => Some msg
      | Returns _ =>
          match page_text soup with
          | Raises msg => Some msg
          | Returns _ => None
          end
      end
  end.

(** The page title extracted before the point of failure, if any. *)
Definition title_before_failure (body : step soup) : option string :=
  match body with
  | Raises _ => None
  | Returns soup =>
      match title_text soup with
      | Returns (Some text) => Some (strip text)
      | _ => None
      end
  end.

(** A network on which no connection succeeds. *)
Definition silent_network : network := fun _ _ _ => ConnectionError.

(** A network that answers every request with HTTP 200 and a page whose
    title can be read and whose text extraction raises. *)
Definition late_failure_network : network :=
  fun _ _ _ =>
    Response 200 1250
      (Returns {| title_text := Returns (Some " Grants ");
                  page_text := Raises "maximum recursion depth exceeded" |}).

(** A network that answers every request with HTTP 200 and a body the
    parser rejects. *)
Definition unparsable_network : network :=
  fun _ _ _ => Response 200 1250 (Raises "unknown encoding").

(** The pairs (URL, verdict) recorded in the attempt history of a result. *)
Definition attempts_log (r : Repair.fix_result) : list (string * bool) :=
  map (fun a => (Repair.url a, Repair.working a)) (Repair.fix_attempts r).

Definition all_failed (attempts : list Repair.fix_attempt) : Prop :=
  Forall (fun a => Repair.working a = false) attempts.

(** [name] is the name of a step of the repair that turns [original_url]
    into [fixed_url]: one of the ten named rewrite strategies, or the
    domain-specific step with [fixed_url] among its candidates. *)
Definition names_strategy_for (domain_candidates : list string)
    (original_url name fixed_url : string) : Prop :=
  (exists strategy_func,
      In (strategy_func, name) (combine Repair.fix_strategies Repair.strategy_names) /\
      strategy_func original_url = fixed_url) \/
  (name = "Domain-specific fix" /\ In fixed_url domain_candidates).

(** The state of a repair between two candidates: every validation call of
    the run is in the history, no URL occurs twice in it, and either nothing
    worked so far, or the last attempt worked and is the recorded fix. *)
Record repair_invariant (domain_candidates : list string) (original_url : string)
    (w0 : world) (r : Repair.fix_result) (w : world) : Prop := {
  inv_log : validations w = validations w0 ++ attempts_log r;
  inv_nodup : NoDup (map Repair.url (Repair.fix_attempts r));
  inv_status :
    (Repair.final_status r = "Not Fixed" /\
     Repair.working_url r = None /\
     Repair.fix_strategy r = None /\
     all_failed (Repair.fix_attempts r)) \/
    (Repair.final_status r = "Fixed" /\
     exists pre a,
       Repair.fix_attempts r = pre ++ [a] /\
       all_failed pre /\
       Repair.working a = true /\
       Repair.working_url r = Some (Repair.url a) /\
       Repair.fix_strategy r = Some (Repair.strategy a) /\
       names_strategy_for domain_candidates original_url
         (Repair.strategy a) (Repair.url a))
}.

(** A network on which only the listed URLs answer HTTP 200, with an empty
    page; every other request gets HTTP 404. *)
Definition network_serving (live : list string) : network :=
  fun _ url _ =>
    if existsb (String.eqb url) live
    then Response 200 900 (Returns {| title_text := Returns None; page_text := Returns "" |})
    else Response 404 900 (Raises "").

(** The history of a repair after the validation of the original URL. *)
Definition after_original (original_url title source : string)
    (original_validation : Validator.validation_result) : Repair.fix_result :=
  {| Repair.original_url := original_url; Repair.title := title;
     Repair.source := source;
     Repair.fix_attempts :=
       [{| Repair.strategy := "Original URL";
           Repair.url := original_url;
           Repair.status := Validator.status original_validation;
           Repair.working := Validator.is_working original_validation;
           Repair.response_time := None;
           Repair.page_title := None |}];
     Repair.final_status := "Not Fixed"; Repair.working_url := None;
     Repair.fix_strategy := None; Repair.issues_found := [] |}.

(** Two results that differ at most in their list of issues. *)
Definition same_outcome (r r' : Repair.fix_result) : Prop :=
  Repair.fix_attempts r = Repair.fix_attempts r' /\
  Repair.final_status r = Repair.final_status r' /\
  Repair.working_url r = Repair.working_url r' /\
  Repair.fix_strategy r = Repair.fix_strategy r'.

(** The days a record counts for: its [days_until_deadline], or the
    sentinel 999 when it has none. *)
Definition days_of (r : Searcher.opportunity) : Z :=
  match Searcher.days_until_deadline r with Some d => d | None => 999 end.

(** The urgency bucket of the specification. *)
Definition bucket (r : Searcher.opportunity) : Z :=
  if days_of r <? 30 then 1 else if days_of r <? 90 then 2 else 3.

(** [a <= b] on keys, as the sort sees it: not [b < a]. *)
Definition tuple_le (a b : Z * Z) : Prop := Searcher.tuple_ltb b a = false.

(** A list in the order of its keys. *)
Definition sorted_by {A : Type} (key : A -> Z * Z) (l : list A) : Prop :=
  StronglySorted (fun x y => tuple_le (key x) (key y)) l.

Definition tuple_eqb (a b : Z * Z) : bool :=
  (fst a =? fst b) && (snd a =? snd b).

(** A record that carries just an [amount_max]. *)
Definition record_with_amount (v : option Searcher.pyvalue) : Searcher.opportunity :=
  {| Searcher.title := "Grant"; Searcher.description := ""; Searcher.category := "";
     Searcher.location := ""; Searcher.targeted_audiences := "";
     Searcher.perimeter := ""; Searcher.deadline := "";
     Searcher.days_until_deadline := None; Searcher.amount_max := v;
     Searcher.filtered_region := None |}.

(** A record that carries just a [days_until_deadline]. *)
Definition record_due_in (d : option Z) : Searcher.opportunity :=
  {| Searcher.title := "Grant"; Searcher.description := ""; Searcher.category := "";
     Searcher.location := ""; Searcher.targeted_audiences := "";
     Searcher.perimeter := ""; Searcher.deadline := "";
     Searcher.days_until_deadline := d; Searcher.amount_max := None;
     Searcher.filtered_region := None |}.

(** Sample sources: a clock at the epoch, a [strptime] that parses nothing,
    an Aides-Territoires API that cannot be reached, and no European record. *)
Definition strptime_none : string -> string -> option Z := fun _ _ => None.

Definition aides_unreachable : string -> string -> Z -> Searcher.french_reply :=
  fun _ _ _ => Searcher.RequestFailure.

Definition no_european_data : string -> Z -> list Searcher.opportunity :=
  fun _ _ => [].

(** [1 if flag else 0] *)
Definition active (flag : bool) : Z := if flag then 1 else 0.

(* ================================================================= *)
(** ** Further vocabulary *)

(** [r'] is [r] with the attempts [added] appended to its history, and
    nothing else of the input and of the issues changed. *)
Definition extends_history (r r' : Repair.fix_result) (added : list Repair.fix_attempt)
  : Prop :=
  Repair.fix_attempts r' = Repair.fix_attempts r ++ added /\
  Repair.original_url r' = Repair.original_url r /\
  Repair.issues_found r' = Repair.issues_found r.

(** The GET requests that validating the URLs of [attempts] sends during a
    repair: one per URL that carries a scheme, with the timeout of 5 seconds. *)
Definition requests_for (attempts : list Repair.fix_attempt) : list (string * Z) :=
  map (fun a => (Repair.url a, 5))
    (filter (fun a => Repair.has_scheme (Repair.url a)) attempts).

(** The lower-cased title, by which the European adapter tells duplicates. *)
Definition title_key (r : Searcher.opportunity) : string :=
  lower (Searcher.title r).

(** A record with a deadline count that is not negative. *)
Definition has_days (r : Searcher.opportunity) : Prop :=
  exists d, Searcher.days_until_deadline r = Some d /\ 0 <= d.

(** A record that carries just a title. *)
Definition record_titled (t : string) : Searcher.opportunity :=
  {| Searcher.title := t; Searcher.description := ""; Searcher.category := "";
     Searcher.location := ""; Searcher.targeted_audiences := "";
     Searcher.perimeter := ""; Searcher.deadline := "";
     Searcher.days_until_deadline := None; Searcher.amount_max := None;
     Searcher.filtered_region := None |}.

(** The number of occurrences of [key] in [keys]. *)
Definition occurrences (key : string) (keys : list string) : Z :=
  Z.of_nat (count_occ string_dec keys key).

(** The sum of the counts of a dictionary of counts. *)
Definition total_count (counts : list (string * Z)) : Z :=
  fold_right (fun item acc => snd item + acc) 0 counts.

(** From the largest count to the smallest. *)
Definition descending (items : list (string * Z)) : Prop :=
  StronglySorted (fun a b => snd b <= snd a) items.

(** [info] is the entry made of the first result whose URL is the one of
    [info]: the results before it in the list have other URLs. *)
Definition first_occurrence (all_results : list Report.result)
    (info : Report.Info.url_info) : Prop :=
  exists before result after,
    all_results = before ++ result :: after /\
    Report.url result = Some (Report.Info.url info) /\
    Report.Info.title info = FixLog.text_or "Unknown" (Report.title result) /\
    Report.Info.source info = FixLog.text_or "Unknown" (Report.source result) /\
    Report.Info.country info = FixLog.text_or "Unknown" (Report.perimeter result) /\
    (forall r, In r before -> Report.url r <> Some (Report.Info.url info)).

(** The entry of the ghost log for a validated URL. *)
Definition verdict_of (validated : Report.validated_url) : string * bool :=
  (Report.Info.url (snd validated), Validator.is_working (fst validated)).

(** A validation that [validate_url] returned for that entry, with the
    default timeout. *)
Definition validated_by (net : network) (validated : Report.validated_url) : Prop :=
  exists w,
    fst validated =
    fst (Validator.validate_url net (Report.Info.url (snd validated)) 10 w).

(** A result of [attempt_url_fix], run on some state of the world. *)
Definition repaired_by (net : network) (urlparse_netloc : string -> option string)
    (broken_url : FixLog.broken_url) (r : Repair.fix_result) : Prop :=
  exists w,
    r = fst (Repair.attempt_url_fix net urlparse_netloc (FixLog.url broken_url)
               (FixLog.text_or "" (FixLog.title broken_url))
               (FixLog.text_or "" (FixLog.source broken_url)) w).

(** A result that carries just a URL, and one that carries none. *)
Definition result_at (u : string) (t : string) : Report.result :=
  {| Report.url := Some u; Report.title := Some t; Report.source := None;
     Report.perimeter := None; Report.days_until_deadline := None |}.

Definition result_without_url : Report.result :=
  {| Report.url := None; Report.title := None; Report.source := None;
     Report.perimeter := None; Report.days_until_deadline := None |}.

(** A non-empty run of decimal digits, of whatever script. *)
Definition decimal_digits (l : list N) : Prop :=
  l <> [] /\ Forall (fun n => Unicode.decimal_value n <> None) l.

(** [n] cut to its 53 most significant bits. *)
Definition cut53 (n : Z) : Z :=
  let bits := Z.log2 n + 1 in
  if bits <=? 53 then n else n / 2 ^ (bits - 53) * 2 ^ (bits - 53).

(** A float that [float(s)] and [+] can give: a non-negative integer of at
    most 53 significant bits below 2^1024, or [inf]. *)
Definition binary64 (a : PyFloat.float) : Prop :=
  match a with
  | PyFloat.Finite n => 0 <= n < 2 ^ 1024 /\ cut53 n = n
  | PyFloat.Inf => True
  end.

(** [a <= b] holds. *)
Definition at_most (a b : PyFloat.float) : Prop := PyFloat.leb a b = true.

(* ================================================================= *)
(** * Properties *)

(** ** Python string operations on examples *)

Example replace_typo :
  replace "htpp://exemple.org/page?x=1" "htpp://" "http://" = "http://exemple.org/page?x=1".
Proof. reflexivity. Qed.

Example replace_overlap : replace "aaaa" "aa" "b" = "bb".
Proof. reflexivity. Qed.

Example replace_empty_pattern : replace "abc" "" "-" = "-a-b-c-".
Proof. reflexivity. Qed.

Example count_slashes : count "http:////a//b" "//" = 3.
Proof. reflexivity. Qed.

Example rstrip_slashes : rstrip_char "http://a.org///" "/" = "http://a.org".
Proof. reflexivity. Qed.

Example strip_spaces : strip "  50 000  " = "50 000".
Proof. reflexivity. Qed.

Example split_ws_ex : split_ws " arte  visual " = ["arte"; "visual"].
Proof. reflexivity. Qed.

Example split_on_ex : split_on "a,b,,c" "," = ["a"; "b"; ""; "c"].
Proof. reflexivity. Qed.


Example lower_latin : lower "Île-de-France PROIMÁGENES" = "île-de-france proimágenes".
Proof. reflexivity. Qed.

(** Case follows the character tables in every script: the Polish capitals,
    the Kelvin sign U+212A, the dotted capital I U+0130, whose lower case is
    two characters, and the capital sigma, which is final at the end of a
    word. *)
Example lower_unicode :
  lower "Fundusz ŁÓDŹ" = "fundusz łódź" /\
  lower "ΟΔΟΣ ΣΟΦΙΑΣ" = "οδος σοφιας" /\
  lower (encode [8490%N]) = "k" /\
  decode (lower (encode [304%N])) = [105%N; 775%N].
Proof. vm_compute. repeat split. Qed.

Example upper_unicode : upper "straße ı ﬁn" = "STRASSE I FIN".
Proof. vm_compute. reflexivity. Qed.

(** White space is the white space of [str.isspace]: the no-break space
    U+00A0 and the ideographic space U+3000 are stripped and split at. *)
Example strip_unicode :
  strip (encode [160%N] ++ "50000" ++ encode [160%N]) = "50000" /\
  split_ws ("arte" ++ encode [160%N] ++ "visual" ++ encode [12288%N] ++ "x")
  = ["arte"; "visual"; "x"].
Proof. vm_compute. repeat split. Qed.

(** Digits are the digits of [str.isdigit]: Arabic-Indic and full-width
    digits and the superscript two are, a full stop is not. *)
Example isdigit_unicode :
  isdigit "٣٠٠٠" = true /\ isdigit "５０" = true /\ isdigit "²" = true /\
  isdigit "12.5" = false /\ isdigit "" = false.
Proof. vm_compute. repeat split. Qed.

(* ================================================================= *)
(** ** [validate_url] *)

Lemma startswith_iff (s p : string) :
  startswith s p = true <-> exists rest, s = (p ++ rest)%string.
Proof.
  revert s. induction p as [|a p IH]; intros s.
  - destruct s; split; intros; try reflexivity; eexists; reflexivity.
  - destruct s as [|b s]; simpl.
    + split; [discriminate | intros [rest H]; discriminate].
    + destruct (Ascii.eqb a b) eqn:E.
      * apply Ascii.eqb_eq in E. subst b. split.
        -- intros H. apply IH in H. destruct H as [rest ->]. now exists rest.
        -- intros [rest H]. injection H as ->. apply IH. now exists rest.
      * apply Ascii.eqb_neq in E. split; [discriminate|].
        intros [rest H]. injection H as -> _. now elim E.
Qed.

Lemma invalid_url_guard (url : string) :
  invalid_url url ->
  falsy url || negb (startswith url "http://" || startswith url "https://") = true.
Proof.
  intros [-> | [H1 H2]]; [reflexivity|].
  destruct (startswith url "http://") eqn:E1.
  - apply startswith_iff in E1. contradiction.
  - destruct (startswith url "https://") eqn:E2.
    + apply startswith_iff in E2. contradiction.
    + now rewrite orb_true_r.
Qed.

(** C1. For every URL that is empty or starts with neither "http://" nor
    "https://", [validate_url] returns [is_working = false] and
    [status = "Invalid URL"], and the list of requests sent is unchanged:
    no HTTP request is made. *)
Theorem validate_url_invalid (net : network) (url : string) (timeout : Z) (w : world) :
  invalid_url url ->
  Validator.is_working (fst (Validator.validate_url net url timeout w)) = false /\
  Validator.status (fst (Validator.validate_url net url timeout w)) = "Invalid URL" /\
  requests (snd (Validator.validate_url net url timeout w)) = requests w.
Proof.
  intros H. apply invalid_url_guard in H.
  unfold Validator.validate_url, Validator.validate_url_body, bind.
  rewrite H. simpl. auto.
Qed.

Lemma validate_url_invalid_witness :
  invalid_url "ftp://old.example" /\
  Validator.is_working
    (fst (Validator.validate_url silent_network "ftp://old.example" 10 empty_world)) = false /\
  Validator.status
    (fst (Validator.validate_url silent_network "ftp://old.example" 10 empty_world))
    = "Invalid URL" /\
  requests (snd (Validator.validate_url silent_network "ftp://old.example" 10 empty_world))
    = requests empty_world.
Proof.
  assert (H : invalid_url "ftp://old.example").
  { right. split; intros [rest E]; simpl in E; discriminate E. }
  split; [exact H|].
  exact (validate_url_invalid silent_network "ftp://old.example" 10 empty_world H).
Defined.

(** A URL with one of the two schemes passes the guard. *)
Lemma valid_url_guard (url : string) :
  startswith url "http://" || startswith url "https://" = true ->
  falsy url || negb (startswith url "http://" || startswith url "https://") = false.
Proof.
  intros H. rewrite H. destruct url; [discriminate H | reflexivity].
Qed.

Lemma validate_url_fst (net : network) (url : string) (timeout : Z) (w : world) :
  startswith url "http://" || startswith url "https://" = true ->
  fst (Validator.validate_url net url timeout w) =
  Validator.classify timeout (net (requests w) url timeout)
    {| Validator.url := url; Validator.status := "Unknown";
       Validator.status_code := None; Validator.response_time := None;
       Validator.error_message := None; Validator.is_working := false;
       Validator.contains_funding_keywords := false;
       Validator.page_title := None |}.
Proof.
  intros H. unfold Validator.validate_url, Validator.validate_url_body, bind.
  rewrite (valid_url_guard url H). reflexivity.
Qed.

(** C8, as stated, fails: on an HTTP 200 page whose title is read before the
    text extraction raises, the result is still working but [page_title] is
    not at its default. *)
Lemma validate_url_late_failure_keeps_title :
  let r := fst (Validator.validate_url late_failure_network "https://example.org/" 10
                  empty_world) in
  Validator.status_code r = Some 200 /\
  Validator.error_message r
    = Some "Content parsing failed: maximum recursion depth exceeded" /\
  Validator.is_working r = true /\
  Validator.page_title r = Some "Grants" /\
  Validator.page_title r <> None.
Proof. simpl. repeat split. discriminate. Qed.

(** C8, amended. For every URL whose GET request returns HTTP 200, if a
    statement of the content parse raises, [validate_url] still returns
    [is_working = true] and [status = "Working"]; the failure sets
    [error_message], leaves [contains_funding_keywords] at its default, and
    leaves [page_title] at its default unless the title had been extracted
    before the failing statement. *)
Theorem validate_url_parse_failure (net : network) (url : string) (timeout : Z)
    (w : world) (elapsed : Z) (body : step soup) (msg : string) :
  startswith url "http://" || startswith url "https://" = true ->
  net (requests w) url timeout = Response 200 elapsed body ->
  parse_failure body = Some msg ->
  let r := fst (Validator.validate_url net url timeout w) in
  Validator.is_working r = true /\
  Validator.status r = "Working" /\
  Validator.status_code r = Some 200 /\
  Validator.error_message r = Some ("Content parsing failed: " ++ msg)%string /\
  Validator.contains_funding_keywords r = false /\
  Validator.page_title r = title_before_failure body.
Proof.
  intros Hurl Hnet Hfail r. subst r.
  rewrite (validate_url_fst net url timeout w Hurl), Hnet.
  unfold Validator.classify. change (200 =? 200) with true. cbv iota.
  unfold parse_failure in Hfail. unfold Validator.parse_content, title_before_failure.
  destruct body as [soup|m].
  - destruct (title_text soup) as [[text|]|m].
    + destruct (page_text soup) as [t|m]; [discriminate Hfail|].
      injection Hfail as ->. simpl. auto 10.
    + destruct (page_text soup) as [t|m]; [discriminate Hfail|].
      injection Hfail as ->. simpl. auto 10.
    + injection Hfail as ->. simpl. auto 10.
  - injection Hfail as ->. simpl. auto 10.
Qed.

Lemma validate_url_parse_failure_witness :
  let r := fst (Validator.validate_url unparsable_network "https://example.org/" 10
                  empty_world) in
  Validator.is_working r = true /\
  Validator.status r = "Working" /\
  Validator.status_code r = Some 200 /\
  Validator.error_message r = Some "Content parsing failed: unknown encoding" /\
  Validator.contains_funding_keywords r = false /\
  Validator.page_title r = None.
Proof.
  exact (validate_url_parse_failure unparsable_network "https://example.org/" 10
           empty_world 1250 (Raises "unknown encoding") "unknown encoding"
           eq_refl eq_refl eq_refl).
Defined.

(* ================================================================= *)
(** ** [attempt_url_fix] *)

(** C5 (defect of the code). Strategy 5 replaces "///" first and "////"
    second, so a run of four slashes is rewritten to three, not to two:
    the first replacement consumes three of the four slashes and leaves
    nothing for the second to match. *)
Theorem strategy_5_quadruple_slash :
  Repair.strategy_5 "http:////example.com/page" = "http:///example.com/page" /\
  contains (Repair.strategy_5 "http:////example.com/page") "///" = true /\
  Repair.strategy_5 "http:///example.com/page" = "http://example.com/page".
Proof. repeat split. Qed.

(** The run on the empty URL. *)
Lemma attempt_url_fix_empty_run (net : network)
    (urlparse_netloc : string -> option string) (title source : string) (w : world) :
  Repair.attempt_url_fix net urlparse_netloc "" title source w =
  ({| Repair.original_url := ""; Repair.title := title; Repair.source := source;
      Repair.fix_attempts := []; Repair.final_status := "Not Fixed";
      Repair.working_url := None; Repair.fix_strategy := None;
      Repair.issues_found := ["URL is empty"] |}, w).
Proof. reflexivity. Qed.

(** C9. For the empty original URL, [attempt_url_fix] returns at once:
    "Not Fixed", no attempt, no working URL, the single issue "URL is empty",
    and an unchanged world: no validation call and no request. *)
Theorem attempt_url_fix_empty (net : network) (urlparse_netloc : string -> option string)
    (title source : string) (w : world) :
  let run := Repair.attempt_url_fix net urlparse_netloc "" title source w in
  Repair.final_status (fst run) = "Not Fixed" /\
  Repair.fix_attempts (fst run) = [] /\
  Repair.working_url (fst run) = None /\
  Repair.issues_found (fst run) = ["URL is empty"] /\
  validations (snd run) = validations w /\
  requests (snd run) = requests w.
Proof. rewrite attempt_url_fix_empty_run. cbn. repeat split. Qed.

(** What a call of [validate_url] adds to the ghost log. *)
Lemma validate_url_validations (net : network) (url : string) (timeout : Z) (w : world) :
  validations (snd (Validator.validate_url net url timeout w)) =
  validations w ++ [(url, Validator.is_working (fst (Validator.validate_url net url timeout w)))].
Proof.
  unfold Validator.validate_url, Validator.validate_url_body, bind.
  destruct (falsy url || negb (startswith url "http://" || startswith url "https://"));
    reflexivity.
Qed.

(** The validator declares nothing working without a request. *)
Lemma validate_url_empty (net : network) (timeout : Z) (w : world) :
  Validator.is_working (fst (Validator.validate_url net "" timeout w)) = false.
Proof. reflexivity. Qed.

(** [attempt_url_fix] on a non-empty URL, step by step. *)
Lemma attempt_url_fix_steps (net : network) (urlparse_netloc : string -> option string)
    (original_url title source : string) (w : world) :
  original_url <> "" ->
  Repair.attempt_url_fix net urlparse_netloc original_url title source w =
  let (v, w1) := Validator.validate_url net original_url 5 w in
  let r0 := after_original original_url title source v in
  if Validator.is_working v then (Repair.mark_already_working r0, w1)
  else
    let (r1, w2) :=
      Repair.try_strategies net original_url
        (combine Repair.fix_strategies Repair.strategy_names) r0 w1 in
    let (r2, w3) :=
      (if String.eqb (Repair.final_status r1) "Not Fixed"
       then Repair.try_domain_fixes net
              (Repair.domain_fixes urlparse_netloc original_url) r1 w2
       else (r1, w2)) in
    (if String.eqb (Repair.final_status r2) "Not Fixed"
     then Repair.analyze_issues r2 else r2, w3).
Proof.
  intros Hne. destruct original_url as [|c s]; [congruence|].
  unfold Repair.attempt_url_fix, bind, ret. cbv beta iota delta [falsy].
  destruct (Validator.validate_url net (String c s) 5 w) as [v w1].
  change (Repair.append_attempt _ _) with (after_original (String c s) title source v).
  destruct (Validator.is_working v) eqn:E; [reflexivity|].
  destruct (Repair.try_strategies net (String c s)
              (combine Repair.fix_strategies Repair.strategy_names)
              (after_original (String c s) title source v) w1) as [r1 w2].
  destruct (String.eqb (Repair.final_status r1) "Not Fixed").
  - destruct (Repair.try_domain_fixes net
                (Repair.domain_fixes urlparse_netloc (String c s)) r1 w2) as [r2 w3].
    reflexivity.
  - reflexivity.
Qed.

(** The run on a URL whose initial validation reports working. *)
Lemma attempt_url_fix_working_run (net : network)
    (urlparse_netloc : string -> option string)
    (original_url title source : string) (w : world) :
  Validator.is_working (fst (Validator.validate_url net original_url 5 w)) = true ->
  Repair.attempt_url_fix net urlparse_netloc original_url title source w =
  (Repair.mark_already_working
     (after_original original_url title source
        (fst (Validator.validate_url net original_url 5 w))),
   snd (Validator.validate_url net original_url 5 w)).
Proof.
  intros H.
  assert (Hne : original_url <> "").
  { intros ->. discriminate H. }
  rewrite (attempt_url_fix_steps net urlparse_netloc original_url title source w Hne).
  destruct (Validator.validate_url net original_url 5 w) as [v w1].
  cbn [fst snd] in H |- *. rewrite H. reflexivity.
Qed.

(** C6. For every original URL whose initial validation reports working,
    [attempt_url_fix] returns "Already Working" with
    [working_url = original_url]; its history has exactly one entry, the
    original URL, and exactly one validation call was made. *)
Theorem attempt_url_fix_already_working (net : network)
    (urlparse_netloc : string -> option string)
    (original_url title source : string) (w : world) :
  Validator.is_working (fst (Validator.validate_url net original_url 5 w)) = true ->
  let run := Repair.attempt_url_fix net urlparse_netloc original_url title source w in
  Repair.final_status (fst run) = "Already Working" /\
  Repair.working_url (fst run) = Some original_url /\
  map Repair.url (Repair.fix_attempts (fst run)) = [original_url] /\
  length (Repair.fix_attempts (fst run)) = 1%nat /\
  validations (snd run) = validations w ++ [(original_url, true)].
Proof.
  intros H run. subst run.
  rewrite (attempt_url_fix_working_run net urlparse_netloc original_url title source w H).
  cbn [fst snd]. rewrite validate_url_validations, H. cbn. repeat split.
Qed.

Lemma attempt_url_fix_already_working_witness :
  let run := Repair.attempt_url_fix (network_serving ["https://example.org/"])
               Repair.netloc_basic "https://example.org/" "Grant" "Sample" empty_world in
  Repair.final_status (fst run) = "Already Working" /\
  Repair.working_url (fst run) = Some "https://example.org/" /\
  map Repair.url (Repair.fix_attempts (fst run)) = ["https://example.org/"] /\
  length (Repair.fix_attempts (fst run)) = 1%nat /\
  validations (snd run) = validations empty_world ++ [("https://example.org/", true)].
Proof.
  exact (attempt_url_fix_already_working (network_serving ["https://example.org/"])
           Repair.netloc_basic "https://example.org/" "Grant" "Sample" empty_world
           eq_refl).
Defined.

(** *** The diagnosis only adds issues *)

Lemma same_outcome_refl (r : Repair.fix_result) : same_outcome r r.
Proof. repeat split. Qed.

Lemma same_outcome_trans (r1 r2 r3 : Repair.fix_result) :
  same_outcome r1 r2 -> same_outcome r2 r3 -> same_outcome r1 r3.
Proof.
  intros (A1 & A2 & A3 & A4) (B1 & B2 & B3 & B4).
  repeat split; congruence.
Qed.

Lemma note_issue_if_outcome (condition : bool) (issue : string) (r : Repair.fix_result) :
  same_outcome (Repair.note_issue_if condition issue r) r.
Proof. destruct condition; repeat split. Qed.

Lemma analyze_issues_outcome (r : Repair.fix_result) :
  same_outcome (Repair.analyze_issues r) r.
Proof.
  unfold Repair.analyze_issues. cbv zeta.
  repeat (eapply same_outcome_trans; [apply note_issue_if_outcome|]).
  apply same_outcome_refl.
Qed.

Lemma repair_invariant_outcome (D : list string) (original_url : string)
    (w0 : world) (r r' : Repair.fix_result) (w : world) :
  same_outcome r' r ->
  repair_invariant D original_url w0 r w ->
  repair_invariant D original_url w0 r' w.
Proof.
  intros (E1 & E2 & E3 & E4) [Hlog Hnd Hst].
  split.
  - unfold attempts_log. rewrite E1. exact Hlog.
  - rewrite E1. exact Hnd.
  - rewrite E1, E2, E3, E4. exact Hst.
Qed.

(** *** The two candidate loops keep the invariant *)

Lemma already_tested_false (u : string) (r : Repair.fix_result) :
  Repair.already_tested u r = false ->
  ~ In u (map Repair.url (Repair.fix_attempts r)).
Proof.
  unfold Repair.already_tested. intros H Hin.
  apply in_map_iff in Hin. destruct Hin as (a & Ha & Hin).
  assert (existsb (fun attempt => String.eqb (Repair.url attempt) u)
            (Repair.fix_attempts r) = true) as Ht.
  { apply existsb_exists. exists a. split; [exact Hin|].
    rewrite Ha. apply String.eqb_refl. }
  congruence.
Qed.

Lemma all_failed_snoc (l : list Repair.fix_attempt) (a : Repair.fix_attempt) :
  all_failed l -> Repair.working a = false -> all_failed (l ++ [a]).
Proof.
  intros Hl Ha. apply Forall_app. split; [exact Hl|].
  constructor; [exact Ha | constructor].
Qed.

Lemma nodup_snoc (l : list string) (u : string) :
  NoDup l -> ~ In u l -> NoDup (l ++ [u]).
Proof.
  intros Hl Hu. induction Hl as [|x l Hx Hl IH]; simpl.
  - constructor; [intros [] | constructor].
  - constructor.
    + rewrite in_app_iff. intros [H | [H | []]]; [now apply Hx|].
      subst x. apply Hu. now left.
    + apply IH. intros H. apply Hu. now right.
Qed.

(** One validated candidate: the invariant after the attempt is recorded,
    fixed if the candidate works, still open if it does not. *)
Lemma record_attempt_invariant (net : network) (D : list string)
    (original_url name fixed_url : string) (w0 : world)
    (r : Repair.fix_result) (w : world) :
  repair_invariant D original_url w0 r w ->
  Repair.final_status r = "Not Fixed" ->
  ~ In fixed_url (map Repair.url (Repair.fix_attempts r)) ->
  names_strategy_for D original_url name fixed_url ->
  let v := fst (Validator.validate_url net fixed_url 5 w) in
  let w' := snd (Validator.validate_url net fixed_url 5 w) in
  let r' := Repair.append_attempt (Repair.attempt_of name fixed_url v) r in
  (Validator.is_working v = true ->
   repair_invariant D original_url w0 (Repair.mark_fixed fixed_url name r') w') /\
  (Validator.is_working v = false ->
   repair_invariant D original_url w0 r' w' /\ Repair.final_status r' = "Not Fixed").
Proof.
  intros [Hlog Hnd Hst] Hopen Hfresh Hname v w' r'.
  assert (Hfailed : all_failed (Repair.fix_attempts r) /\
                    Repair.working_url r = None /\ Repair.fix_strategy r = None).
  { destruct Hst as [(_ & A & B & C) | (Hf & _)]; [auto|].
    rewrite Hopen in Hf. discriminate Hf. }
  destruct Hfailed as (Hall & Hwu & Hfs).
  assert (Hlog' : validations w' =
                  validations w0 ++ attempts_log r ++ [(fixed_url, Validator.is_working v)]).
  { subst w' v. rewrite validate_url_validations, Hlog, <- app_assoc. reflexivity. }
  assert (Hnd' : NoDup (map Repair.url (Repair.fix_attempts r'))).
  { subst r'. cbn [Repair.append_attempt Repair.fix_attempts].
    rewrite map_app. apply nodup_snoc; assumption. }
  assert (Hal : attempts_log r' = attempts_log r ++ [(fixed_url, Validator.is_working v)]).
  { subst r'. unfold attempts_log. cbn [Repair.append_attempt Repair.fix_attempts].
    rewrite map_app. reflexivity. }
  split; intros Hv.
  - split.
    + unfold attempts_log in *. cbn [Repair.mark_fixed Repair.fix_attempts].
      fold (attempts_log r'). unfold attempts_log at 1. rewrite Hlog'.
      f_equal. symmetry. exact Hal.
    + exact Hnd'.
    + right. split; [reflexivity|].
      exists (Repair.fix_attempts r), (Repair.attempt_of name fixed_url v).
      repeat split; try assumption.
  - split; [split|].
    + rewrite Hlog'. f_equal. symmetry. exact Hal.
    + exact Hnd'.
    + left. subst r'. cbn [Repair.append_attempt Repair.final_status
                            Repair.working_url Repair.fix_strategy Repair.fix_attempts].
      repeat split; try assumption.
      apply all_failed_snoc; assumption.
    + exact Hopen.
Qed.

Lemma try_strategies_invariant (net : network) (D : list string)
    (original_url : string) (w0 : world)
    (strategies : list ((string -> string) * string)) :
  incl strategies (combine Repair.fix_strategies Repair.strategy_names) ->
  forall (r : Repair.fix_result) (w : world),
    repair_invariant D original_url w0 r w ->
    Repair.final_status r = "Not Fixed" ->
    repair_invariant D original_url w0
      (fst (Repair.try_strategies net original_url strategies r w))
      (snd (Repair.try_strategies net original_url strategies r w)).
Proof.
  induction strategies as [|[strategy_func strategy_name] rest IH];
    intros Hincl r w Hinv Hopen.
  - exact Hinv.
  - assert (Hrest : incl rest (combine Repair.fix_strategies Repair.strategy_names)).
    { intros x Hx. apply Hincl. now right. }
    cbn [Repair.try_strategies].
    destruct (String.eqb (strategy_func original_url) original_url);
      [now apply IH|].
    destruct (Repair.already_tested (strategy_func original_url) r) eqn:Htested;
      [now apply IH|].
    apply already_tested_false in Htested.
    assert (Hname : names_strategy_for D original_url strategy_name
                      (strategy_func original_url)).
    { left. exists strategy_func. split; [|reflexivity]. apply Hincl. now left. }
    destruct (record_attempt_invariant net D original_url strategy_name
                (strategy_func original_url) w0 r w Hinv Hopen Htested Hname)
      as [Hworks Hfails].
    unfold bind.
    destruct (Validator.validate_url net (strategy_func original_url) 5 w) as [v w'].
    cbn [fst snd] in Hworks, Hfails.
    destruct (Validator.is_working v).
    + exact (Hworks eq_refl).
    + destruct (Hfails eq_refl) as [Hinv' Hopen']. now apply IH.
Qed.

Lemma try_domain_fixes_invariant (net : network) (D : list string)
    (original_url : string) (w0 : world) (candidates : list string) :
  incl candidates D ->
  forall (r : Repair.fix_result) (w : world),
    repair_invariant D original_url w0 r w ->
    Repair.final_status r = "Not Fixed" ->
    repair_invariant D original_url w0
      (fst (Repair.try_domain_fixes net candidates r w))
      (snd (Repair.try_domain_fixes net candidates r w)).
Proof.
  induction candidates as [|fixed_url rest IH]; intros Hincl r w Hinv Hopen.
  - exact Hinv.
  - assert (Hrest : incl rest D).
    { intros x Hx. apply Hincl. now right. }
    cbn [Repair.try_domain_fixes].
    destruct (Repair.already_tested fixed_url r) eqn:Htested; cbn [negb];
      [now apply IH|].
    apply already_tested_false in Htested.
    assert (Hname : names_strategy_for D original_url "Domain-specific fix" fixed_url).
    { right. split; [reflexivity|]. apply Hincl. now left. }
    destruct (record_attempt_invariant net D original_url "Domain-specific fix"
                fixed_url w0 r w Hinv Hopen Htested Hname) as [Hworks Hfails].
    unfold bind.
    destruct (Validator.validate_url net fixed_url 5 w) as [v w'].
    cbn [fst snd] in Hworks, Hfails.
    destruct (Validator.is_working v).
    + exact (Hworks eq_refl).
    + destruct (Hfails eq_refl) as [Hinv' Hopen']. now apply IH.
Qed.

(** The invariant holds of the whole run on a broken, non-empty URL. *)
Lemma attempt_url_fix_invariant (net : network)
    (urlparse_netloc : string -> option string)
    (original_url title source : string) (w : world) :
  original_url <> "" ->
  Validator.is_working (fst (Validator.validate_url net original_url 5 w)) = false ->
  let run := Repair.attempt_url_fix net urlparse_netloc original_url title source w in
  repair_invariant (Repair.domain_fixes urlparse_netloc original_url) original_url w
    (fst run) (snd run).
Proof.
  intros Hne Hbroken run. subst run.
  rewrite (attempt_url_fix_steps net urlparse_netloc original_url title source w Hne).
  pose proof (validate_url_validations net original_url 5 w) as Hlog.
  destruct (Validator.validate_url net original_url 5 w) as [v w1].
  cbn [fst snd] in Hbroken, Hlog. rewrite Hbroken in Hlog |- *. cbv zeta.
  set (D := Repair.domain_fixes urlparse_netloc original_url).
  set (r0 := after_original original_url title source v).
  assert (H0 : repair_invariant D original_url w r0 w1).
  { split.
    - unfold attempts_log, r0. cbn. rewrite Hbroken. exact Hlog.
    - cbn. constructor; [intros [] | constructor].
    - left. cbn. repeat split. constructor; [exact Hbroken | constructor]. }
  pose proof (try_strategies_invariant net D original_url w
                (combine Repair.fix_strategies Repair.strategy_names)
                (incl_refl _) r0 w1 H0 eq_refl) as H1.
  destruct (Repair.try_strategies net original_url
              (combine Repair.fix_strategies Repair.strategy_names) r0 w1) as [r1 w2].
  cbn [fst snd] in H1.
  destruct (String.eqb (Repair.final_status r1) "Not Fixed") eqn:E1.
  - apply String.eqb_eq in E1.
    pose proof (try_domain_fixes_invariant net D original_url w D (incl_refl _)
                  r1 w2 H1 E1) as H2.
    destruct (Repair.try_domain_fixes net D r1 w2) as [r2 w3].
    cbn [fst snd] in H2 |- *.
    destruct (String.eqb (Repair.final_status r2) "Not Fixed"); [|exact H2].
    eapply repair_invariant_outcome; [apply analyze_issues_outcome | exact H2].
  - cbn [fst snd]. rewrite E1. exact H1.
Qed.

Lemma snoc_split_last (A : Type) (pre pre' post : list A) (a a' : A) :
  pre ++ a :: post = pre' ++ [a'] ->
  (post = [] /\ a = a') \/ In a pre'.
Proof.
  intros H. destruct post as [|z post] using rev_ind.
  - apply app_inj_tail in H. left. split; [reflexivity | apply H].
  - right. clear IHpost.
    change (pre ++ a :: post ++ [z]) with (pre ++ (a :: post) ++ [z]) in H.
    rewrite app_assoc in H. apply app_inj_tail in H. destruct H as [<- _].
    apply in_or_app. right. now left.
Qed.

(** C2. For every original URL whose initial validation reports not
    working, the validation calls of [attempt_url_fix] are exactly the
    entries of its attempt history, in order; no URL is validated twice; and
    a call that reports working is the last call of the run, with
    [final_status = "Fixed"] and that URL as [working_url]. This covers the
    ten generic strategies and the domain-specific candidates alike. *)
Theorem attempt_url_fix_broken (net : network)
    (urlparse_netloc : string -> option string)
    (original_url title source : string) (w : world) :
  Validator.is_working (fst (Validator.validate_url net original_url 5 w)) = false ->
  let run := Repair.attempt_url_fix net urlparse_netloc original_url title source w in
  exists calls : list (string * bool),
    validations (snd run) = validations w ++ calls /\
    calls = attempts_log (fst run) /\
    NoDup (map fst calls) /\
    (forall pre fixed_url post,
        calls = pre ++ (fixed_url, true) :: post ->
        post = [] /\
        Repair.final_status (fst run) = "Fixed" /\
        Repair.working_url (fst run) = Some fixed_url).
Proof.
  intros Hbroken run. exists (attempts_log (fst run)).
  destruct (String.eqb_spec original_url "") as [-> | Hne].
  { subst run. rewrite attempt_url_fix_empty_run. cbn.
    rewrite app_nil_r. repeat split; [constructor|..];
      destruct pre; discriminate. }
  destruct (attempt_url_fix_invariant net urlparse_netloc original_url title source w
              Hne Hbroken) as [Hlog Hnd Hst].
  fold run in Hlog, Hnd, Hst.
  split; [exact Hlog|]. split; [reflexivity|]. split.
  - unfold attempts_log. rewrite map_map. exact Hnd.
  - intros pre fixed_url post Hsplit.
    assert (Hin : In (fixed_url, true) (attempts_log (fst run))).
    { rewrite Hsplit. apply in_or_app. right. now left. }
    destruct Hst as [(_ & _ & _ & Hall) | (Hfixed & pre' & a & Hatt & Hall & Ha & Hwu & _)].
    + exfalso. unfold attempts_log in Hin. apply in_map_iff in Hin.
      destruct Hin as (a & Ha & Hin). injection Ha as _ Ha.
      unfold all_failed in Hall. rewrite Forall_forall in Hall.
      specialize (Hall a Hin). congruence.
    + unfold attempts_log in Hsplit. rewrite Hatt, map_app in Hsplit. cbn [map] in Hsplit.
      symmetry in Hsplit. apply snoc_split_last in Hsplit.
      destruct Hsplit as [[-> Heq] | Hin'].
      * injection Heq as -> _. auto.
      * exfalso. apply in_map_iff in Hin'. destruct Hin' as (b & Hb & Hin').
        injection Hb as _ Hb.
        unfold all_failed in Hall. rewrite Forall_forall in Hall.
        specialize (Hall b Hin'). congruence.
Qed.

Lemma attempt_url_fix_broken_witness :
  let run := Repair.attempt_url_fix (network_serving ["http://exemple.org/page?x=1"])
               Repair.netloc_basic "htpp://exemple.org/page?x=1" "Bourse" "Sample"
               empty_world in
  exists calls : list (string * bool),
    validations (snd run) = validations empty_world ++ calls /\
    calls = attempts_log (fst run) /\
    NoDup (map fst calls) /\
    (forall pre fixed_url post,
        calls = pre ++ (fixed_url, true) :: post ->
        post = [] /\
        Repair.final_status (fst run) = "Fixed" /\
        Repair.working_url (fst run) = Some fixed_url).
Proof.
  exact (attempt_url_fix_broken (network_serving ["http://exemple.org/page?x=1"])
           Repair.netloc_basic "htpp://exemple.org/page?x=1" "Bourse" "Sample"
           empty_world eq_refl).
Defined.

(** Scenario B of the specification, run on the model. *)
Example attempt_url_fix_typo :
  let r := fst (Repair.attempt_url_fix (network_serving ["http://exemple.org/page?x=1"])
                  Repair.netloc_basic "htpp://exemple.org/page?x=1" "Bourse" "Sample"
                  empty_world) in
  Repair.final_status r = "Fixed" /\
  Repair.fix_strategy r = Some "Fix common typos" /\
  Repair.working_url r = Some "http://exemple.org/page?x=1" /\
  attempts_log r =
    [("htpp://exemple.org/page?x=1", false);
     ("https://htpp://exemple.org/page?x=1", false);
     ("http://exemple.org/page?x=1", true)].
Proof. vm_compute. repeat split. Qed.

(** The consequence of the defect of strategy 5: with four slashes after the
    scheme the two-slash URL is never tried, although it is live. *)
Example attempt_url_fix_quadruple_slash :
  let r := fst (Repair.attempt_url_fix (network_serving ["http://example.com/page"])
                  Repair.netloc_basic "http:////example.com/page" "Grant" "Sample"
                  empty_world) in
  Repair.final_status r = "Not Fixed" /\
  map Repair.url (Repair.fix_attempts r) =
    ["http:////example.com/page";
     "https:////example.com/page";
     "http:///example.com/page";
     "http://www.//example.com/page";
     "http:////example.com/page/"].
Proof. vm_compute. repeat split. Qed.

(** A domain-specific candidate is reached when the ten strategies fail. *)
Example attempt_url_fix_domain :
  let r := fst (Repair.attempt_url_fix
                  (network_serving ["https://www.culture.gouv.fr/Aides-demarches"])
                  Repair.netloc_basic "https://www.culture.gouv.fr/old" "Aide" "Sample"
                  empty_world) in
  Repair.final_status r = "Fixed" /\
  Repair.fix_strategy r = Some "Domain-specific fix" /\
  Repair.working_url r = Some "https://www.culture.gouv.fr/Aides-demarches" /\
  map Repair.url (Repair.fix_attempts r) =
    ["https://www.culture.gouv.fr/old";
     "http://www.culture.gouv.fr/old";
     "https://culture.gouv.fr/old";
     "https://www.culture.gouv.fr/old/";
     "https://www.culture.gouv.fr/Aides-demarches"].
Proof. vm_compute. repeat split. Qed.

(** C10. For every result of [attempt_url_fix], [working_url] is set exactly
    when [final_status] is "Fixed" or "Already Working"; and when it is
    "Fixed", [fix_strategy] is set to the name of the step that turned the
    original URL into [working_url], which is the last, working, entry of
    the attempt history. *)
Theorem attempt_url_fix_working_url (net : network)
    (urlparse_netloc : string -> option string)
    (original_url title source : string) (w : world) :
  let r := fst (Repair.attempt_url_fix net urlparse_netloc original_url title source w) in
  (Repair.working_url r <> None <->
   Repair.final_status r = "Fixed" \/ Repair.final_status r = "Already Working") /\
  (Repair.final_status r = "Fixed" ->
   exists name fixed_url,
     Repair.fix_strategy r = Some name /\
     Repair.working_url r = Some fixed_url /\
     names_strategy_for (Repair.domain_fixes urlparse_netloc original_url)
       original_url name fixed_url /\
     exists pre a,
       Repair.fix_attempts r = pre ++ [a] /\
       Repair.strategy a = name /\ Repair.url a = fixed_url /\
       Repair.working a = true).
Proof.
  intros r.
  destruct (String.eqb_spec original_url "") as [-> | Hne].
  { subst r. rewrite attempt_url_fix_empty_run. cbn. split.
    - split; [congruence | intros [H | H]; discriminate H].
    - discriminate. }
  destruct (Validator.is_working (fst (Validator.validate_url net original_url 5 w)))
    eqn:Hv.
  - subst r.
    rewrite (attempt_url_fix_working_run net urlparse_netloc original_url
               title source w Hv).
    cbn. split.
    + split; [auto | discriminate].
    + discriminate.
  - destruct (attempt_url_fix_invariant net urlparse_netloc original_url title source w
                Hne Hv) as [_ _ Hst].
    fold r in Hst.
    destruct Hst as [(Hfs & Hwu & _) | (Hfs & pre & a & Hatt & _ & Ha & Hwu & Hstr & Hname)].
    + rewrite Hfs, Hwu. split.
      * split; [congruence | intros [H | H]; discriminate H].
      * discriminate.
    + rewrite Hfs, Hwu, Hstr. split.
      * split; [auto | discriminate].
      * intros _. exists (Repair.strategy a), (Repair.url a).
        repeat split; try assumption.
        exists pre, a. auto.
Qed.

(* ================================================================= *)
(** ** Urgency sort *)

Lemma tuple_ltb_iff (a b : Z * Z) :
  Searcher.tuple_ltb a b = true <->
  fst a < fst b \/ (fst a = fst b /\ snd a < snd b).
Proof.
  unfold Searcher.tuple_ltb.
  rewrite orb_true_iff, andb_true_iff, !Z.ltb_lt, Z.eqb_eq. reflexivity.
Qed.

Lemma tuple_le_iff (a b : Z * Z) :
  tuple_le a b <-> fst a < fst b \/ (fst a = fst b /\ snd a <= snd b).
Proof.
  unfold tuple_le. rewrite <- not_true_iff_false, tuple_ltb_iff. lia.
Qed.

Lemma tuple_le_trans (a b c : Z * Z) : tuple_le a b -> tuple_le b c -> tuple_le a c.
Proof. rewrite !tuple_le_iff. lia. Qed.

Lemma tuple_lt_le (a b : Z * Z) : Searcher.tuple_ltb a b = true -> tuple_le a b.
Proof. rewrite tuple_ltb_iff, tuple_le_iff. lia. Qed.

Lemma tuple_eqb_iff (a b : Z * Z) : tuple_eqb a b = true <-> a = b.
Proof.
  unfold tuple_eqb. rewrite andb_true_iff, !Z.eqb_eq.
  destruct a, b; simpl. split; [intros [-> ->]; reflexivity | intros [= -> ->]; auto].
Qed.

Section StableSort.

Context {A : Type} (key : A -> Z * Z).

Lemma insert_by_perm (x : A) (l : list A) :
  Permutation (x :: l) (Searcher.insert_by key x l).
Proof.
  induction l as [|y rest IH]; simpl; [reflexivity|].
  destruct (Searcher.tuple_ltb (key y) (key x)); [|reflexivity].
  rewrite perm_swap. now apply perm_skip.
Qed.

Lemma sorted_perm (l : list A) : Permutation l (Searcher.sorted l key).
Proof.
  induction l as [|x l IH]; simpl; [constructor|].
  rewrite <- insert_by_perm. now apply perm_skip.
Qed.

Lemma insert_by_sorted (x : A) (l : list A) :
  sorted_by key l -> sorted_by key (Searcher.insert_by key x l).
Proof.
  unfold sorted_by. induction l as [|y rest IH]; intros Hs; simpl.
  - constructor; constructor.
  - apply StronglySorted_inv in Hs. destruct Hs as [Hrest Hy].
    destruct (Searcher.tuple_ltb (key y) (key x)) eqn:E.
    + constructor; [now apply IH|].
      apply Forall_forall. intros z Hz.
      apply (Permutation_in _ (Permutation_sym (insert_by_perm x rest))) in Hz.
      destruct Hz as [<- | Hz]; [now apply tuple_lt_le|].
      rewrite Forall_forall in Hy. now apply Hy.
    + constructor; [constructor; assumption|].
      constructor; [exact E|].
      apply Forall_forall. intros z Hz. rewrite Forall_forall in Hy.
      apply tuple_le_trans with (key y); [exact E | now apply Hy].
Qed.

Lemma sorted_sorted (l : list A) : sorted_by key (Searcher.sorted l key).
Proof.
  induction l as [|x l IH]; simpl; [constructor|]. now apply insert_by_sorted.
Qed.

(** Stability: the records of one key keep the order of the input. *)
Lemma insert_by_stable (k : Z * Z) (x : A) (l : list A) :
  filter (fun y => tuple_eqb (key y) k) (Searcher.insert_by key x l) =
  filter (fun y => tuple_eqb (key y) k) (x :: l).
Proof.
  induction l as [|y rest IH]; [reflexivity|].
  cbn [Searcher.insert_by].
  destruct (Searcher.tuple_ltb (key y) (key x)) eqn:E; [|reflexivity].
  cbn [filter] in IH |- *. rewrite IH.
  destruct (tuple_eqb (key x) k) eqn:Ex; [|reflexivity].
  destruct (tuple_eqb (key y) k) eqn:Ey; [|reflexivity].
  apply tuple_eqb_iff in Ex, Ey. rewrite Ex, Ey in E.
  apply tuple_ltb_iff in E. lia.
Qed.

Lemma sorted_stable (k : Z * Z) (l : list A) :
  filter (fun y => tuple_eqb (key y) k) (Searcher.sorted l key) =
  filter (fun y => tuple_eqb (key y) k) l.
Proof.
  induction l as [|x l IH]; [reflexivity|].
  cbn [Searcher.sorted fold_right]. fold (Searcher.sorted l key).
  rewrite insert_by_stable. cbn [filter]. now rewrite IH.
Qed.

(** In a sorted list every element is below the ones after it. *)
Lemma sorted_by_split (l1 l2 : list A) (a b : A) :
  sorted_by key (l1 ++ a :: l2) -> In b l2 -> tuple_le (key a) (key b).
Proof.
  unfold sorted_by. induction l1 as [|x l1 IH]; simpl; intros Hs Hb.
  - apply StronglySorted_inv in Hs. destruct Hs as [_ Ha].
    rewrite Forall_forall in Ha. now apply Ha.
  - apply StronglySorted_inv in Hs. now apply IH.
Qed.

End StableSort.

Lemma get_deadline_priority_key (r : Searcher.opportunity) :
  Searcher.get_deadline_priority r = (bucket r, days_of r).
Proof.
  unfold Searcher.get_deadline_priority, bucket, days_of.
  destruct (Searcher.days_until_deadline r) as [d|]; cbv zeta.
  - destruct (d <? 30); [reflexivity|]. destruct (d <? 90); reflexivity.
  - reflexivity.
Qed.

Lemma bucket_range (r : Searcher.opportunity) :
  (days_of r < 30 /\ bucket r = 1) \/
  (30 <= days_of r < 90 /\ bucket r = 2) \/
  (90 <= days_of r /\ bucket r = 3).
Proof.
  unfold bucket.
  destruct (Z.ltb_spec (days_of r) 30); [lia|].
  destruct (Z.ltb_spec (days_of r) 90); lia.
Qed.

(** C3. The list returned by [_sort_by_deadline] is a rearrangement of its
    input in which, for any two adjacent records [a], [b],
    [bucket a <= bucket b], and [days_of a <= days_of b] whenever the buckets
    are equal. A record without [days_until_deadline] counts for 999 days,
    is in bucket 3, and no record of at most 90 days comes after it. *)
Theorem sort_by_deadline_order (results : list Searcher.opportunity) :
  Permutation results (Searcher._sort_by_deadline results) /\
  (forall l1 a b l2,
      Searcher._sort_by_deadline results = l1 ++ a :: b :: l2 ->
      bucket a <= bucket b /\ (bucket a = bucket b -> days_of a <= days_of b)) /\
  (forall a,
      Searcher.days_until_deadline a = None ->
      Searcher.get_deadline_priority a = (3, 999) /\ days_of a = 999 /\ bucket a = 3) /\
  (forall l1 a l2 b,
      Searcher._sort_by_deadline results = l1 ++ a :: l2 ->
      Searcher.days_until_deadline a = None ->
      In b l2 ->
      ~ days_of b <= 90).
Proof.
  pose proof (sorted_sorted Searcher.get_deadline_priority results) as Hs.
  fold (Searcher._sort_by_deadline results) in Hs.
  split; [apply sorted_perm|]. split; [|split].
  - intros l1 a b l2 E. rewrite E in Hs.
    pose proof (sorted_by_split _ l1 (b :: l2) a b Hs (or_introl eq_refl)) as Hle.
    rewrite !get_deadline_priority_key in Hle. apply tuple_le_iff in Hle.
    simpl in Hle. lia.
  - intros a Ha. unfold Searcher.get_deadline_priority, days_of, bucket, days_of.
    rewrite Ha. repeat split.
  - intros l1 a l2 b E Ha Hb Hdays. rewrite E in Hs.
    pose proof (sorted_by_split _ l1 l2 a b Hs Hb) as Hle.
    rewrite !get_deadline_priority_key in Hle. apply tuple_le_iff in Hle.
    simpl in Hle.
    assert (Hda : days_of a = 999) by (unfold days_of; now rewrite Ha).
    pose proof (bucket_range a). pose proof (bucket_range b). lia.
Qed.

(* ================================================================= *)
(** ** Funding aggregation *)

Lemma amounts_flat_map (all_results : list Searcher.opportunity) :
  Analysis.amounts all_results = flat_map Analysis.amount_of all_results.
Proof.
  unfold Analysis.amounts.
  assert (H : forall l acc,
             fold_left (fun amounts result => amounts ++ Analysis.amount_of result) l acc
             = acc ++ flat_map Analysis.amount_of l).
  { induction l as [|r l IH]; intros acc; simpl.
    - now rewrite app_nil_r.
    - rewrite IH, <- app_assoc. reflexivity. }
  apply H.
Qed.

(** C7. A record with no [amount_max] at all is read through the default
    ['0'] of [result.get('amount_max', '0')] and contributes the amount 0.0:
    it is not excluded, it lowers the minimum to 0.  No record of the
    Colombian adapter has an [amount_max], so each of them counts for 0. *)
Lemma amounts_missing_amount_counts_zero :
  Searcher.amount_max (record_with_amount None) = None /\
  Analysis.amounts [record_with_amount None] = [PyFloat.Finite 0] /\
  Analysis.amounts [record_with_amount (Some (Searcher.PyStr "30,000 EUR"));
                    record_with_amount None]
  = [PyFloat.Finite 30000; PyFloat.Finite 0] /\
  Analysis.min_funding [record_with_amount (Some (Searcher.PyStr "30,000 EUR"));
                        record_with_amount None] = PyFloat.Finite 0 /\
  map Searcher.amount_max (Searcher.search_colombian_funding 0 strptime_none "" "" 50)
  = repeat None 10 /\
  Analysis.amounts (Searcher.search_colombian_funding 0 strptime_none "" "" 50)
  = repeat (PyFloat.Finite 0) 10.
Proof. vm_compute. repeat split. Qed.

(* ================================================================= *)
(** ** [search_all] *)

Lemma sort_by_deadline_length (results : list Searcher.opportunity) :
  length (Searcher._sort_by_deadline results) = length results.
Proof.
  symmetry. apply Permutation_length. apply sorted_perm.
Qed.

Lemma slice_to_length (A : Type) (l : list A) (n : Z) :
  0 <= n -> Z.of_nat (length (Searcher.slice_to l n)) <= n.
Proof.
  intros Hn. unfold Searcher.slice_to.
  destruct (Z.leb_spec 0 n); [|lia].
  pose proof (firstn_le_length (Z.to_nat n) l). lia.
Qed.

Lemma sample_french_data_length (now : Z) (strptime : string -> string -> option Z)
    (keywords region : string) :
  (length (Searcher._get_sample_french_data now strptime keywords region) <= 3)%nat.
Proof.
  unfold Searcher._get_sample_french_data.
  destruct (negb (falsy keywords)).
  - etransitivity; [apply filter_length_le|]. apply Nat.le_refl.
  - apply Nat.le_refl.
Qed.

(** C4. With a limit of 2 over three sources every share is 0, yet the
    Colombian adapter, whose cap is guarded by [if limit:], returns its ten
    records, and the French adapter, which has no cap of its own, returns
    its three sample records. With a limit of 2 over two sources the share
    is 1 and the French list still has three records. *)
Lemma search_all_share_exceeded :
  let three := Searcher.search_all 0 strptime_none aides_unreachable no_european_data
                 "" "" "" "" true true 2 in
  let two := Searcher.search_all 0 strptime_none aides_unreachable no_european_data
               "" "" "" "" true false 2 in
  2 / (1 + active true + active true) = 0 /\
  length (Searcher.colombian three) = 10%nat /\
  length (Searcher.french three) = 3%nat /\
  2 / (1 + active true + active false) = 1 /\
  length (Searcher.french two) = 3%nat /\
  ~ Z.of_nat (length (Searcher.colombian three)) <= 2 / (1 + active true + active true).
Proof. vm_compute. repeat split. intros H. apply H. reflexivity. Qed.

(** What [search_all] does with the limit: it splits it by floor division
    over the one, two or three active sources and calls every adapter with
    that share. For a non-negative limit the European list has at most that
    share of records; the Colombian list has at most that share when the
    share is positive; the French list is the answer of the remote API,
    record for record, or at most three sample records when the API is
    unauthorized or unreachable, or empty. With both flags off the European
    and the Colombian lists are empty, and for a limit of 10 the French list
    has at most 10 records when the API answers with at most 10. *)
Theorem search_all_shares (now : Z) (strptime : string -> string -> option Z)
    (aides_territoires : string -> string -> Z -> Searcher.french_reply)
    (search_dynamic_european_data : string -> Z -> list Searcher.opportunity)
    (keywords region european_region colombian_region : string)
    (include_european include_colombian : bool) (limit : Z) :
  let share := limit / (1 + active include_european + active include_colombian) in
  let res := Searcher.search_all now strptime aides_territoires
               search_dynamic_european_data keywords region european_region
               colombian_region include_european include_colombian limit in
  Searcher.french res =
    Searcher._sort_by_deadline
      (Searcher.search_subventions now strptime aides_territoires keywords region share) /\
  Searcher.european res =
    Searcher._sort_by_deadline
      (if include_european
       then Searcher.search_european_subventions search_dynamic_european_data
              keywords european_region share
       else []) /\
  Searcher.colombian res =
    Searcher._sort_by_deadline
      (if include_colombian
       then Searcher.search_colombian_funding now strptime keywords colombian_region share
       else []) /\
  (0 <= limit -> Z.of_nat (length (Searcher.european res)) <= share) /\
  (0 < share -> Z.of_nat (length (Searcher.colombian res)) <= share) /\
  match aides_territoires keywords region share with
  | Searcher.Aids processed_results =>
      length (Searcher.french res) = length processed_results
  | Searcher.Unauthorized | Searcher.RequestFailure =>
      (length (Searcher.french res) <= 3)%nat
  | Searcher.RateLimited | Searcher.OtherFailure => Searcher.french res = []
  end /\
  (include_european = false -> include_colombian = false ->
   Searcher.european res = [] /\
   Searcher.colombian res = [] /\
   (limit = 10 ->
    (forall processed_results,
        aides_territoires keywords region 10 = Searcher.Aids processed_results ->
        (length processed_results <= 10)%nat) ->
    (length (Searcher.french res) <= 10)%nat)).
Proof.
  intros share res.
  assert (Hshare : share =
            limit / (if include_colombian
                     then (if include_european then 1 + 1 else 1) + 1
                     else (if include_european then 1 + 1 else 1))).
  { subst share. destruct include_european, include_colombian; reflexivity. }
  assert (Hf : Searcher.french res =
    Searcher._sort_by_deadline
      (Searcher.search_subventions now strptime aides_territoires keywords region share)).
  { rewrite Hshare. reflexivity. }
  assert (He : Searcher.european res =
    Searcher._sort_by_deadline
      (if include_european
       then Searcher.search_european_subventions search_dynamic_european_data
              keywords european_region share
       else [])).
  { rewrite Hshare. reflexivity. }
  assert (Hc : Searcher.colombian res =
    Searcher._sort_by_deadline
      (if include_colombian
       then Searcher.search_colombian_funding now strptime keywords colombian_region share
       else [])).
  { rewrite Hshare. reflexivity. }
  assert (Hfl : match aides_territoires keywords region share with
                | Searcher.Aids processed_results =>
                    length (Searcher.french res) = length processed_results
                | Searcher.Unauthorized | Searcher.RequestFailure =>
                    (length (Searcher.french res) <= 3)%nat
                | Searcher.RateLimited | Searcher.OtherFailure => Searcher.french res = []
                end).
  { rewrite Hf. unfold Searcher.search_subventions.
    destruct (aides_territoires keywords region share).
    - apply sort_by_deadline_length.
    - rewrite sort_by_deadline_length. apply sample_french_data_length.
    - reflexivity.
    - rewrite sort_by_deadline_length. apply sample_french_data_length.
    - reflexivity. }
  split; [exact Hf|]. split; [exact He|]. split; [exact Hc|].
  split; [|split; [|split; [exact Hfl|]]].
  - intros Hlimit. rewrite He, sort_by_deadline_length.
    assert (0 <= share).
    { subst share. apply Z.div_pos; [exact Hlimit|].
      destruct include_european, include_colombian; reflexivity. }
    destruct include_european; [|simpl; lia].
    unfold Searcher.search_european_subventions. now apply slice_to_length.
  - intros Hpos. rewrite Hc, sort_by_deadline_length.
    destruct include_colombian; [|simpl; lia].
    unfold Searcher.search_colombian_funding.
    destruct (Z.eqb_spec share 0); [lia|].
    apply slice_to_length. lia.
  - intros -> ->. split; [exact He|]. split; [exact Hc|].
    intros Hten Hcap.
    assert (Hs10 : share = 10) by (subst share limit; reflexivity).
    rewrite Hs10 in Hfl.
    destruct (aides_territoires keywords region 10) eqn:Hreply.
    + rewrite Hfl. now apply Hcap.
    + lia.
    + rewrite Hfl. simpl. lia.
    + lia.
    + rewrite Hfl. simpl. lia.
Qed.

Lemma search_all_shares_witness :
  let res := Searcher.search_all 0 strptime_none aides_unreachable no_european_data
               "" "" "" "" false false 10 in
  Searcher.european res = [] /\
  Searcher.colombian res = [] /\
  (length (Searcher.french res) <= 10)%nat.
Proof.
  destruct (search_all_shares 0 strptime_none aides_unreachable no_european_data
              "" "" "" "" false false 10) as (_ & _ & _ & _ & _ & _ & H).
  destruct (H eq_refl eq_refl) as (He & Hc & Hf).
  split; [exact He|]. split; [exact Hc|].
  apply Hf; [reflexivity|].
  intros processed_results Hreply. discriminate Hreply.
Defined.

(* ================================================================= *)
(** ** The model on examples *)

Example sort_by_deadline_example :
  map Searcher.days_until_deadline
    (Searcher._sort_by_deadline
       [record_due_in (Some 120); record_due_in None; record_due_in (Some 10);
        record_due_in (Some 90); record_due_in (Some 45); record_due_in (Some 0)])
  = [Some 0; Some 10; Some 45; Some 90; Some 120; None].
Proof. reflexivity. Qed.

Example netloc_basic_examples :
  Repair.netloc_basic "htpp://exemple.org/page?x=1" = Some "exemple.org" /\
  Repair.netloc_basic "https://www.culture.gouv.fr/old" = Some "www.culture.gouv.fr" /\
  Repair.netloc_basic "example.org/x" = Some "" /\
  Repair.netloc_basic "//host/p" = Some "host" /\
  Repair.netloc_basic "http://[::1/x" = None /\
  Repair.netloc_basic " http://host/p" = Some "host" /\
  Repair.netloc_basic "1http://host/p" = Some "".
Proof. repeat split. Qed.

Example strategies_examples :
  Repair.strategy_1 "example.org" = "https://example.org" /\
  Repair.strategy_2 "htpps://www.www.example.org" = "https://www.example.org" /\
  Repair.strategy_6 "https://example.org/a?b=1" = "https://example.org/a" /\
  Repair.strategy_8 "https://example.org" = "https://www.example.org" /\
  Repair.strategy_9 "https://example.org//" = "https://example.org" /\
  Repair.strategy_10 "https://example.org/a" = "https://example.org/a/".
Proof. repeat split. Qed.

(** The status line of a response that is neither 200, 404, 403 nor 500. *)
Example validate_url_other_status :
  Validator.status
    (fst (Validator.validate_url (fun _ _ _ => Response 503 100 (Raises ""))
            "https://example.org/" 10 empty_world)) = "HTTP 503".
Proof. reflexivity. Qed.

(** The Colombian adapter filters by keyword, by the cities of a region, and
    caps a positive limit. *)
Example search_colombian_funding_example :
  map Searcher.title
    (Searcher.search_colombian_funding 0 strptime_none "becas" "" 1) =
  ["Becas de Creación Artística - Bogotá"] /\
  map Searcher.title
    (Searcher.search_colombian_funding 0 strptime_none "" "CARIBE" 50) =
  ["Fondo de Desarrollo Cinematográfico - PROIMÁGENES";
   "Programa de Emprendimiento Cultural - INNPULSA";
   "Becas de Investigación Cultural - COLCIENCIAS";
   "Fondo de Artes Escénicas - Barranquilla";
   "Convocatoria de Literatura - Cartagena"].
Proof. vm_compute. repeat split. Qed.

(* ================================================================= *)
(** ** The general statements at concrete inputs *)

Lemma sort_by_deadline_order_witness :
  bucket (record_due_in (Some 10)) <= bucket (record_due_in (Some 120)) /\
  (bucket (record_due_in (Some 10)) = bucket (record_due_in (Some 120)) ->
   days_of (record_due_in (Some 10)) <= days_of (record_due_in (Some 120))) /\
  ~ days_of (record_due_in (Some 1200)) <= 90.
Proof.
  destruct (sort_by_deadline_order
              [record_due_in None; record_due_in (Some 120);
               record_due_in (Some 1200); record_due_in (Some 10)])
    as (_ & Hadjacent & _ & Hlast).
  split; [|split].
  - exact (proj1 (Hadjacent [] (record_due_in (Some 10)) (record_due_in (Some 120))
                    [record_due_in None; record_due_in (Some 1200)] eq_refl)).
  - exact (proj2 (Hadjacent [] (record_due_in (Some 10)) (record_due_in (Some 120))
                    [record_due_in None; record_due_in (Some 1200)] eq_refl)).
  - apply (Hlast [record_due_in (Some 10); record_due_in (Some 120)]
             (record_due_in None) [record_due_in (Some 1200)]
             (record_due_in (Some 1200)) eq_refl eq_refl).
    left. reflexivity.
Defined.

Lemma attempt_url_fix_working_url_witness :
  let r := fst (Repair.attempt_url_fix (network_serving ["http://exemple.org/page?x=1"])
                  Repair.netloc_basic "htpp://exemple.org/page?x=1" "Bourse" "Sample"
                  empty_world) in
  exists name fixed_url,
    Repair.fix_strategy r = Some name /\
    Repair.working_url r = Some fixed_url /\
    names_strategy_for
      (Repair.domain_fixes Repair.netloc_basic "htpp://exemple.org/page?x=1")
      "htpp://exemple.org/page?x=1" name fixed_url /\
    exists pre a,
      Repair.fix_attempts r = pre ++ [a] /\
      Repair.strategy a = name /\ Repair.url a = fixed_url /\
      Repair.working a = true.
Proof.
  destruct (attempt_url_fix_working_url (network_serving ["http://exemple.org/page?x=1"])
              Repair.netloc_basic "htpp://exemple.org/page?x=1" "Bourse" "Sample"
              empty_world) as (_ & H).
  apply H. reflexivity.
Defined.

(* ================================================================= *)
(** ** More on [validate_url] *)

Lemma validate_url_run (net : network) (url : string) (timeout : Z) (w : world) :
  Validator.validate_url net url timeout w =
  if Repair.has_scheme url then
    let r := Validator.classify timeout (net (requests w) url timeout)
               {| Validator.url := url; Validator.status := "Unknown";
                  Validator.status_code := None; Validator.response_time := None;
                  Validator.error_message := None; Validator.is_working := false;
                  Validator.contains_funding_keywords := false;
                  Validator.page_title := None |} in
    (r, {| requests := requests w ++ [(url, timeout)];
           validations := validations w ++ [(url, Validator.is_working r)] |})
  else
    ({| Validator.url := url; Validator.status := "Invalid URL";
        Validator.status_code := None; Validator.response_time := None;
        Validator.error_message := Some "URL is empty or does not start with http/https";
        Validator.is_working := false;
        Validator.contains_funding_keywords := false;
        Validator.page_title := None |},
     {| requests := requests w; validations := validations w ++ [(url, false)] |}).
Proof.
  unfold Validator.validate_url, Validator.validate_url_body, bind, Repair.has_scheme.
  pose proof (valid_url_guard url) as G.
  destruct (startswith url "http://" || startswith url "https://").
  - rewrite (G eq_refl). reflexivity.
  - rewrite orb_true_r. reflexivity.
Qed.

Lemma parse_content_working (body : step soup) (r : Validator.validation_result) :
  Validator.is_working (Validator.parse_content body r) = Validator.is_working r /\
  Validator.status (Validator.parse_content body r) = Validator.status r /\
  Validator.status_code (Validator.parse_content body r) = Validator.status_code r.
Proof.
  unfold Validator.parse_content.
  destruct body as [soup|msg]; [|repeat split].
  destruct (title_text soup) as [[text|]|msg]; [| |repeat split];
    destruct (page_text soup); repeat split.
Qed.

(** [validate_url] reports a URL as working exactly when the URL carries one
    of the two schemes and the GET request was answered with HTTP 200. *)
Theorem validate_url_working_iff (net : network) (url : string) (timeout : Z) (w : world) :
  Validator.is_working (fst (Validator.validate_url net url timeout w)) = true <->
  Repair.has_scheme url = true /\
  exists elapsed body, net (requests w) url timeout = Response 200 elapsed body.
Proof.
  rewrite validate_url_run.
  destruct (Repair.has_scheme url); cbn [fst].
  - unfold Validator.classify.
    destruct (net (requests w) url timeout) as [code elapsed body| | | |].
    + destruct (Z.eqb_spec code 200) as [-> | Hne].
      * destruct (parse_content_working body
                    (Validator.set_is_working true
                       (Validator.set_status "Working"
                          (Validator.set_status_code 200
                             (Validator.set_response_time elapsed
                                {| Validator.url := url; Validator.status := "Unknown";
                                   Validator.status_code := None;
                                   Validator.response_time := None;
                                   Validator.error_message := None;
                                   Validator.is_working := false;
                                   Validator.contains_funding_keywords := false;
                                   Validator.page_title := None |})))))
          as (-> & _).
        cbn. split; [intros _; split; [reflexivity | now exists elapsed, body] | reflexivity].
      * assert (Hf : forall r, r = false -> (r = true <-> true = true /\
                   exists elapsed0 body0,
                     Response code elapsed body = Response 200 elapsed0 body0)).
        { intros r ->. split; [discriminate|].
          intros (_ & e & b & [= H _ _]). contradiction. }
        apply Hf.
        destruct (code =? 404); [reflexivity|].
        destruct (code =? 403); [reflexivity|].
        destruct (code =? 500); reflexivity.
    + cbn. split; [discriminate | intros (_ & e & b & H); discriminate H].
    + cbn. split; [discriminate | intros (_ & e & b & H); discriminate H].
    + cbn. split; [discriminate | intros (_ & e & b & H); discriminate H].
    + cbn. split; [discriminate | intros (_ & e & b & H); discriminate H].
  - split; [discriminate | intros [H _]; discriminate H].
Qed.

Lemma validate_url_sends (net : network) (url : string) (timeout : Z) (w : world) :
  requests (snd (Validator.validate_url net url timeout w)) =
  requests w ++ (if Repair.has_scheme url then [(url, timeout)] else []).
Proof.
  rewrite validate_url_run.
  destruct (Repair.has_scheme url); cbn [snd requests]; [reflexivity|].
  now rewrite app_nil_r.
Qed.

(** A call of [validate_url] sends exactly one GET request, for the URL and
    with the timeout it was given, when the URL carries a scheme, and none
    otherwise; requests sent before are left as they are, and the answer
    that is classified is the network's answer to that very request. *)
Theorem validate_url_requests (net : network) (url : string) (timeout : Z) (w : world) :
  requests (snd (Validator.validate_url net url timeout w)) =
    requests w ++ (if Repair.has_scheme url then [(url, timeout)] else []) /\
  (forall code elapsed body,
      Repair.has_scheme url = true ->
      net (requests w) url timeout = Response code elapsed body ->
      Validator.status_code (fst (Validator.validate_url net url timeout w)) = Some code /\
      Validator.response_time (fst (Validator.validate_url net url timeout w))
        = Some elapsed).
Proof.
  split; [apply validate_url_sends|].
  intros code elapsed body Hs Hnet. revert Hnet.
  rewrite validate_url_run, Hs. cbn [fst]. intros ->.
  unfold Validator.classify, Validator.parse_content.
  destruct (code =? 200).
  - destruct body as [soup|?]; [|split; reflexivity].
    destruct (title_text soup) as [[?|]|?]; [| |split; reflexivity];
      destruct (page_text soup); split; reflexivity.
  - destruct (code =? 404); [split; reflexivity|].
    destruct (code =? 403); [split; reflexivity|].
    destruct (code =? 500); split; reflexivity.
Qed.

Lemma validate_url_requests_witness :
  Validator.status_code
    (fst (Validator.validate_url (network_serving []) "https://example.org/" 10
            empty_world)) = Some 404 /\
  Validator.response_time
    (fst (Validator.validate_url (network_serving []) "https://example.org/" 10
            empty_world)) = Some 900.
Proof.
  exact (proj2 (validate_url_requests (network_serving []) "https://example.org/" 10
                  empty_world) 404 900 (Raises "") eq_refl eq_refl).
Defined.

Ltac classify_cases :=
  rewrite validate_url_run;
  match goal with
  | |- context [Repair.has_scheme ?u] => destruct (Repair.has_scheme u)
  end;
  cbn [fst snd];
  [ unfold Validator.classify, Validator.parse_content;
    match goal with
    | |- context [match ?o with Response _ _ _ => _ | _ => _ end] =>
        destruct o as [? ? [?|?] | | | ? | ?]
    end;
    repeat match goal with
           | |- context [if ?c =? ?k then _ else _] => destruct (Z.eqb_spec c k)
           end;
    repeat match goal with
           | |- context [title_text ?s] => destruct (title_text s) as [[?|]|?]
           | |- context [page_text ?s] => destruct (page_text s) as [?|?]
           end
  | ].

(** Every result of [validate_url] is classified: its status is never left
    at the initial "Unknown", it is about the URL that was asked, and a
    result that is not working always carries an error message. *)
Theorem validate_url_classified (net : network) (url : string) (timeout : Z) (w : world) :
  Validator.url (fst (Validator.validate_url net url timeout w)) = url /\
  Validator.status (fst (Validator.validate_url net url timeout w)) <> "Unknown" /\
  (Validator.is_working (fst (Validator.validate_url net url timeout w)) = true \/
   Validator.error_message (fst (Validator.validate_url net url timeout w)) <> None).
Proof.
  classify_cases; cbn; (split; [reflexivity|]); (split; [discriminate|]);
    solve [left; reflexivity | right; discriminate].
Qed.

(** Only a working URL is enriched: when [validate_url] reports a URL as not
    working, the result has no page title, no funding keywords, and either
    no status code or one that is not 200. *)
Theorem validate_url_not_working_bare (net : network) (url : string) (timeout : Z)
    (w : world) :
  Validator.is_working (fst (Validator.validate_url net url timeout w)) = false ->
  Validator.page_title (fst (Validator.validate_url net url timeout w)) = None /\
  Validator.contains_funding_keywords (fst (Validator.validate_url net url timeout w))
    = false /\
  Validator.status_code (fst (Validator.validate_url net url timeout w)) <> Some 200.
Proof.
  classify_cases; cbn; intros Hw; try discriminate Hw;
    (split; [reflexivity|]); (split; [reflexivity|]); try discriminate;
    intros [= ->]; contradiction.
Qed.

Lemma validate_url_not_working_bare_witness :
  Validator.page_title
    (fst (Validator.validate_url (network_serving []) "https://example.org/" 10
            empty_world)) = None /\
  Validator.contains_funding_keywords
    (fst (Validator.validate_url (network_serving []) "https://example.org/" 10
            empty_world)) = false /\
  Validator.status_code
    (fst (Validator.validate_url (network_serving []) "https://example.org/" 10
            empty_world)) <> Some 200.
Proof.
  exact (validate_url_not_working_bare (network_serving []) "https://example.org/" 10
           empty_world eq_refl).
Defined.

(* ================================================================= *)
(** ** More on [attempt_url_fix] *)

Lemma extends_history_nil (r : Repair.fix_result) : extends_history r r [].
Proof. unfold extends_history. rewrite app_nil_r. auto. Qed.

Lemma requests_for_cons (a : Repair.fix_attempt) (l : list Repair.fix_attempt) :
  requests_for (a :: l) =
  (if Repair.has_scheme (Repair.url a) then [(Repair.url a, 5)] else []) ++ requests_for l.
Proof.
  unfold requests_for. cbn [filter].
  destruct (Repair.has_scheme (Repair.url a)); reflexivity.
Qed.

Lemma requests_for_app (l1 l2 : list Repair.fix_attempt) :
  requests_for (l1 ++ l2) = requests_for l1 ++ requests_for l2.
Proof. unfold requests_for. now rewrite filter_app, map_app. Qed.

(** One validated candidate, as seen by the history and by the network. *)
Lemma record_attempt_extends (net : network) (name fixed_url : string)
    (r : Repair.fix_result) (w : world) :
  let v := fst (Validator.validate_url net fixed_url 5 w) in
  let w' := snd (Validator.validate_url net fixed_url 5 w) in
  let a := Repair.attempt_of name fixed_url v in
  extends_history r (Repair.append_attempt a r) [a] /\
  extends_history r (Repair.mark_fixed fixed_url name (Repair.append_attempt a r)) [a] /\
  requests w' = requests w ++ requests_for [a].
Proof.
  intros v w' a. repeat split.
  subst w' a. rewrite validate_url_sends, requests_for_cons.
  cbn [Repair.attempt_of Repair.url requests_for map filter]. now rewrite app_nil_r.
Qed.

Lemma extends_history_step (r r1 r2 : Repair.fix_result) (a : Repair.fix_attempt)
    (added : list Repair.fix_attempt) :
  extends_history r r1 [a] -> extends_history r1 r2 added ->
  extends_history r r2 (a :: added).
Proof.
  intros (A1 & A2 & A3) (B1 & B2 & B3). unfold extends_history.
  rewrite B1, A1, <- app_assoc. repeat split; congruence.
Qed.

Lemma try_strategies_extends (net : network) (original_url : string)
    (strategies : list ((string -> string) * string)) :
  forall (r : Repair.fix_result) (w : world),
  exists added,
    extends_history r (fst (Repair.try_strategies net original_url strategies r w)) added /\
    (length added <= length strategies)%nat /\
    requests (snd (Repair.try_strategies net original_url strategies r w)) =
    requests w ++ requests_for added.
Proof.
  induction strategies as [|[strategy_func strategy_name] rest IH]; intros r w.
  - exists []. cbn. rewrite app_nil_r. split; [apply extends_history_nil | auto].
  - cbn [Repair.try_strategies].
    assert (Hskip : exists added,
      extends_history r (fst (Repair.try_strategies net original_url rest r w)) added /\
      (length added <= length ((strategy_func, strategy_name) :: rest))%nat /\
      requests (snd (Repair.try_strategies net original_url rest r w)) =
      requests w ++ requests_for added).
    { destruct (IH r w) as (added & H1 & H2 & H3). exists added.
      cbn [length]. repeat split; [apply H1 .. | lia | exact H3]. }
    destruct (String.eqb (strategy_func original_url) original_url); [exact Hskip|].
    destruct (Repair.already_tested (strategy_func original_url) r); [exact Hskip|].
    destruct (record_attempt_extends net strategy_name (strategy_func original_url) r w)
      as (Hkeep & Hfixed & Hreq).
    unfold bind.
    destruct (Validator.validate_url net (strategy_func original_url) 5 w) as [v w'].
    cbn [fst snd] in Hkeep, Hfixed, Hreq.
    destruct (Validator.is_working v).
    + exists [Repair.attempt_of strategy_name (strategy_func original_url) v].
      cbn [fst snd ret length]. split; [exact Hfixed|]. split; [lia | exact Hreq].
    + destruct (IH (Repair.append_attempt
                      (Repair.attempt_of strategy_name (strategy_func original_url) v) r)
                  w') as (added & H1 & H2 & H3).
      exists (Repair.attempt_of strategy_name (strategy_func original_url) v :: added).
      split; [eapply extends_history_step; eassumption|].
      split; [cbn [length]; lia|].
      rewrite H3, Hreq, <- app_assoc. f_equal.
      symmetry. apply (requests_for_app [_] added).
Qed.

Lemma try_domain_fixes_extends (net : network) (candidates : list string) :
  forall (r : Repair.fix_result) (w : world),
  exists added,
    extends_history r (fst (Repair.try_domain_fixes net candidates r w)) added /\
    (length added <= length candidates)%nat /\
    requests (snd (Repair.try_domain_fixes net candidates r w)) =
    requests w ++ requests_for added.
Proof.
  induction candidates as [|fixed_url rest IH]; intros r w.
  - exists []. cbn. rewrite app_nil_r. split; [apply extends_history_nil | auto].
  - cbn [Repair.try_domain_fixes].
    destruct (Repair.already_tested fixed_url r); cbn [negb].
    { destruct (IH r w) as (added & H1 & H2 & H3). exists added.
      cbn [length]. repeat split; [apply H1 .. | lia | exact H3]. }
    destruct (record_attempt_extends net "Domain-specific fix" fixed_url r w)
      as (Hkeep & Hfixed & Hreq).
    unfold bind.
    destruct (Validator.validate_url net fixed_url 5 w) as [v w'].
    cbn [fst snd] in Hkeep, Hfixed, Hreq.
    destruct (Validator.is_working v).
    + exists [Repair.attempt_of "Domain-specific fix" fixed_url v].
      cbn [fst snd ret length]. split; [exact Hfixed|]. split; [lia | exact Hreq].
    + destruct (IH (Repair.append_attempt
                      (Repair.attempt_of "Domain-specific fix" fixed_url v) r) w')
        as (added & H1 & H2 & H3).
      exists (Repair.attempt_of "Domain-specific fix" fixed_url v :: added).
      split; [eapply extends_history_step; eassumption|].
      split; [cbn [length]; lia|].
      rewrite H3, Hreq, <- app_assoc. f_equal.
      symmetry. apply (requests_for_app [_] added).
Qed.

Lemma domain_fixes_length (urlparse_netloc : string -> option string)
    (original_url : string) :
  (length (Repair.domain_fixes urlparse_netloc original_url) <= 2)%nat.
Proof.
  unfold Repair.domain_fixes, Repair.domain_fixes_for.
  destruct (urlparse_netloc original_url) as [netloc|]; [|cbn; lia].
  cbv zeta.
  repeat match goal with
         | |- context [if ?c then _ else _] => destruct c
         end; cbn; lia.
Qed.

(** The whole run on a non-empty URL: the history starts with the original
    URL, at most twelve candidates follow, the requests sent are those of
    the history, and issues are listed only for a result that is not fixed. *)
Lemma attempt_url_fix_trace (net : network) (urlparse_netloc : string -> option string)
    (original_url title source : string) (w : world) :
  original_url <> "" ->
  let run := Repair.attempt_url_fix net urlparse_netloc original_url title source w in
  exists first added,
    Repair.fix_attempts (fst run) = first :: added /\
    Repair.url first = original_url /\
    Repair.strategy first = "Original URL" /\
    Repair.working first =
      Validator.is_working (fst (Validator.validate_url net original_url 5 w)) /\
    (length added <= 12)%nat /\
    requests (snd run) = requests w ++ requests_for (first :: added) /\
    (Repair.final_status (fst run) = "Not Fixed" \/ Repair.issues_found (fst run) = []).
Proof.
  intros Hne run. subst run.
  rewrite (attempt_url_fix_steps net urlparse_netloc original_url title source w Hne).
  pose proof (validate_url_sends net original_url 5 w) as Hreq.
  destruct (Validator.validate_url net original_url 5 w) as [v w1].
  cbn [fst snd] in Hreq |- *. cbv zeta.
  assert (Hreq0 : forall b,
            requests w1 = requests w ++
              requests_for [{| Repair.strategy := "Original URL";
                               Repair.url := original_url;
                               Repair.status := Validator.status v;
                               Repair.working := b;
                               Repair.response_time := None;
                               Repair.page_title := None |}]).
  { intros b. rewrite Hreq, requests_for_cons. cbn [Repair.url requests_for filter map].
    now rewrite app_nil_r. }
  unfold after_original.
  destruct (Validator.is_working v) eqn:Hv.
  - eexists. exists []. cbn [fst snd Repair.mark_already_working Repair.fix_attempts
                              Repair.final_status Repair.issues_found].
    split; [reflexivity|]. split; [reflexivity|]. split; [reflexivity|].
    split; [reflexivity|]. split; [cbn; lia|]. split; [apply Hreq0 | now right].
  - set (first := {| Repair.strategy := "Original URL"; Repair.url := original_url;
                     Repair.status := Validator.status v;
                     Repair.working := false;
                     Repair.response_time := None; Repair.page_title := None |}).
    set (r0 := {| Repair.original_url := original_url; Repair.title := title;
                  Repair.source := source; Repair.fix_attempts := [first];
                  Repair.final_status := "Not Fixed"; Repair.working_url := None;
                  Repair.fix_strategy := None; Repair.issues_found := [] |}).
    specialize (Hreq0 false). fold first in Hreq0.
    exists first.
    destruct (try_strategies_extends net original_url
                (combine Repair.fix_strategies Repair.strategy_names) r0 w1)
      as (added1 & (A1 & A2 & A3) & L1 & Q1).
    destruct (Repair.try_strategies net original_url
                (combine Repair.fix_strategies Repair.strategy_names) r0 w1) as [r1 w2].
    cbn [fst snd] in A1, A2, A3, L1, Q1.
    change (length (combine Repair.fix_strategies Repair.strategy_names)) with 10%nat in L1.
    assert (Hstep2 : exists added2,
      extends_history r1
        (fst (if String.eqb (Repair.final_status r1) "Not Fixed"
              then Repair.try_domain_fixes net
                     (Repair.domain_fixes urlparse_netloc original_url) r1 w2
              else (r1, w2))) added2 /\
      (length added2 <= 2)%nat /\
      requests
        (snd (if String.eqb (Repair.final_status r1) "Not Fixed"
              then Repair.try_domain_fixes net
                     (Repair.domain_fixes urlparse_netloc original_url) r1 w2
              else (r1, w2))) = requests w2 ++ requests_for added2).
    { destruct (String.eqb (Repair.final_status r1) "Not Fixed").
      - destruct (try_domain_fixes_extends net
                    (Repair.domain_fixes urlparse_netloc original_url) r1 w2)
          as (added2 & B & L2 & Q2).
        exists added2. split; [exact B|]. split; [|exact Q2].
        pose proof (domain_fixes_length urlparse_netloc original_url). lia.
      - exists []. cbn [fst snd length]. rewrite app_nil_r.
        split; [apply extends_history_nil|]. split; [lia | reflexivity]. }
    destruct Hstep2 as (added2 & (B1 & B2 & B3) & L2 & Q2).
    destruct (if String.eqb (Repair.final_status r1) "Not Fixed"
              then Repair.try_domain_fixes net
                     (Repair.domain_fixes urlparse_netloc original_url) r1 w2
              else (r1, w2)) as [r2 w3].
    cbn [fst snd] in B1, B2, B3, Q2 |- *.
    exists (added1 ++ added2).
    assert (Hatt2 : Repair.fix_attempts r2 = first :: added1 ++ added2).
    { rewrite B1, A1. reflexivity. }
    assert (Hiss2 : Repair.issues_found r2 = []).
    { rewrite B3, A3. reflexivity. }
    assert (Hreq2 : requests w3 = requests w ++ requests_for (first :: added1 ++ added2)).
    { rewrite Q2, Q1, Hreq0, <- !app_assoc. f_equal.
      rewrite <- !requests_for_app. reflexivity. }
    assert (Hlen : (length (added1 ++ added2) <= 12)%nat).
    { rewrite length_app. lia. }
    destruct (String.eqb (Repair.final_status r2) "Not Fixed") eqn:E2.
    + destruct (analyze_issues_outcome r2) as (C1 & C2 & _).
      rewrite C1, C2. apply String.eqb_eq in E2.
      split; [exact Hatt2|]. split; [reflexivity|]. split; [reflexivity|].
      split; [reflexivity|]. split; [exact Hlen|]. split; [exact Hreq2 | now left].
    + split; [exact Hatt2|]. split; [reflexivity|]. split; [reflexivity|].
      split; [reflexivity|]. split; [exact Hlen|]. split; [exact Hreq2 | now right].
Qed.

(** A repair validates at most thirteen URLs: the original one, at most ten
    rewrites and at most two domain-specific candidates. *)
Theorem attempt_url_fix_attempts_bound (net : network)
    (urlparse_netloc : string -> option string)
    (original_url title source : string) (w : world) :
  (length (Repair.fix_attempts
             (fst (Repair.attempt_url_fix net urlparse_netloc original_url title source w)))
   <= 13)%nat.
Proof.
  destruct (String.eqb_spec original_url "") as [-> | Hne].
  - rewrite attempt_url_fix_empty_run. cbn. lia.
  - destruct (attempt_url_fix_trace net urlparse_netloc original_url title source w Hne)
      as (first & added & Hatt & _ & _ & _ & Hlen & _).
    rewrite Hatt. cbn [length]. lia.
Qed.

(** The GET requests a repair sends are exactly the URLs of its attempt
    history that carry a scheme, in the order of the history, one request
    each, all with a timeout of 5 seconds. *)
Theorem attempt_url_fix_requests (net : network)
    (urlparse_netloc : string -> option string)
    (original_url title source : string) (w : world) :
  let run := Repair.attempt_url_fix net urlparse_netloc original_url title source w in
  requests (snd run) = requests w ++ requests_for (Repair.fix_attempts (fst run)).
Proof.
  intros run. subst run.
  destruct (String.eqb_spec original_url "") as [-> | Hne].
  - rewrite attempt_url_fix_empty_run. cbn. now rewrite app_nil_r.
  - destruct (attempt_url_fix_trace net urlparse_netloc original_url title source w Hne)
      as (first & added & Hatt & _ & _ & _ & _ & Hreq & _).
    rewrite Hatt. exact Hreq.
Qed.

(** Issues are diagnosed only for a URL that could not be repaired: a result
    that is "Fixed" or "Already Working" has an empty list of issues. *)
Theorem attempt_url_fix_issues_only_when_not_fixed (net : network)
    (urlparse_netloc : string -> option string)
    (original_url title source : string) (w : world) :
  let r := fst (Repair.attempt_url_fix net urlparse_netloc original_url title source w) in
  Repair.final_status r = "Not Fixed" \/ Repair.issues_found r = [].
Proof.
  intros r. subst r.
  destruct (String.eqb_spec original_url "") as [-> | Hne].
  - rewrite attempt_url_fix_empty_run. now left.
  - destruct (attempt_url_fix_trace net urlparse_netloc original_url title source w Hne)
      as (first & added & _ & _ & _ & _ & _ & _ & H).
    exact H.
Qed.

(** The three statuses are the only ones. *)
Lemma attempt_url_fix_status (net : network) (urlparse_netloc : string -> option string)
    (original_url title source : string) (w : world) :
  let r := fst (Repair.attempt_url_fix net urlparse_netloc original_url title source w) in
  Repair.final_status r = "Fixed" \/
  Repair.final_status r = "Already Working" \/
  Repair.final_status r = "Not Fixed".
Proof.
  intros r. subst r.
  destruct (String.eqb_spec original_url "") as [-> | Hne].
  { rewrite attempt_url_fix_empty_run. auto. }
  destruct (Validator.is_working (fst (Validator.validate_url net original_url 5 w)))
    eqn:Hv.
  - rewrite (attempt_url_fix_working_run net urlparse_netloc original_url
               title source w Hv). auto.
  - destruct (attempt_url_fix_invariant net urlparse_netloc original_url title source w
                Hne Hv) as [_ _ [(H & _) | (H & _)]]; auto.
Qed.

(** The original URL is returned as [working_url] only with the status
    "Already Working": a URL reported as "Fixed" always differs from the
    original one. *)
Theorem attempt_url_fix_fix_differs (net : network)
    (urlparse_netloc : string -> option string)
    (original_url title source : string) (w : world) :
  let r := fst (Repair.attempt_url_fix net urlparse_netloc original_url title source w) in
  Repair.working_url r = Some original_url ->
  Repair.final_status r = "Already Working".
Proof.
  intros r. subst r.
  destruct (String.eqb_spec original_url "") as [-> | Hne].
  { rewrite attempt_url_fix_empty_run. discriminate. }
  destruct (Validator.is_working (fst (Validator.validate_url net original_url 5 w)))
    eqn:Hv.
  { rewrite (attempt_url_fix_working_run net urlparse_netloc original_url
               title source w Hv). reflexivity. }
  destruct (attempt_url_fix_trace net urlparse_netloc original_url title source w Hne)
    as (first & added & Hatt & Hurl & _ & Hwork & _).
  destruct (attempt_url_fix_invariant net urlparse_netloc original_url title source w
              Hne Hv) as [_ Hnd Hst].
  cbv zeta in Hnd, Hst. rewrite Hatt in Hnd, Hst.
  destruct Hst as [(_ & Hwu & _) | (_ & pre & a & Hsplit & _ & Ha & Hwu & _)];
    rewrite Hwu; [discriminate|].
  intros [= Heq]. exfalso.
  cbn [map] in Hnd. apply NoDup_cons_iff in Hnd. destruct Hnd as [Hnotin _].
  apply Hnotin. rewrite Hurl, <- Heq.
  destruct pre as [|p pre].
  - injection Hsplit as Hfirst _. subst a. rewrite Hwork, Hv in Ha. discriminate Ha.
  - injection Hsplit as _ Hadded. rewrite Hadded, map_app.
    apply in_or_app. right. now left.
Qed.

Lemma attempt_url_fix_fix_differs_witness :
  Repair.final_status
    (fst (Repair.attempt_url_fix (network_serving ["https://example.org/"])
            Repair.netloc_basic "https://example.org/" "Grant" "Sample" empty_world))
  = "Already Working".
Proof.
  exact (attempt_url_fix_fix_differs (network_serving ["https://example.org/"])
           Repair.netloc_basic "https://example.org/" "Grant" "Sample" empty_world
           eq_refl).
Defined.

(* ================================================================= *)
(** ** The rewrite strategies *)

Lemma startswith_char (c : ascii) (s : string) (d : ascii) :
  startswith (String c s) (String d "") = Ascii.eqb d c.
Proof. cbn. destruct (Ascii.eqb d c); [destruct s|]; reflexivity. Qed.

Lemma contains_cons_char (c : ascii) (s : string) (d : ascii) :
  contains (String c s) (String d "") = Ascii.eqb d c || contains s (String d "").
Proof.
  cbn [contains]. rewrite startswith_char. destruct (Ascii.eqb d c); reflexivity.
Qed.

Lemma split_head_no_sep (s : string) (sep : ascii) :
  contains (split_head s sep) (String sep "") = false.
Proof.
  induction s as [|c s IH]; [reflexivity|].
  cbn [split_head]. destruct (Ascii.eqb c sep) eqn:E; [reflexivity|].
  rewrite contains_cons_char, IH, Ascii.eqb_sym, E. reflexivity.
Qed.

Lemma endswith_cons (c : ascii) (s p : string) :
  endswith (String c s) p = String.eqb (String c s) p || endswith s p.
Proof. cbn [endswith]. destruct (String.eqb (String c s) p); reflexivity. Qed.

Lemma rstrip_by_no_tail (s : string) (ch : ascii) :
  endswith (rstrip_by (Ascii.eqb ch) s) (String ch "") = false.
Proof.
  induction s as [|c s IH]; [reflexivity|].
  cbn [rstrip_by]. destruct (rstrip_by (Ascii.eqb ch) s) as [|a t] eqn:E.
  - destruct (Ascii.eqb ch c) eqn:Ec; [reflexivity|].
    rewrite endswith_cons. cbn. rewrite Ascii.eqb_sym, Ec. reflexivity.
  - rewrite endswith_cons, IH. cbn. destruct (Ascii.eqb c ch); reflexivity.
Qed.

Lemma rstrip_by_snoc (p : ascii -> bool) (s : string) (c : ascii) :
  rstrip_by p (s ++ String c "") =
  if p c then rstrip_by p s else (s ++ String c "")%string.
Proof.
  induction s as [|a s IH]; cbn [append rstrip_by].
  - destruct (p c); reflexivity.
  - rewrite IH. destruct (p c); [reflexivity|].
    destruct s; reflexivity.
Qed.

Lemma rstrip_by_keeps (s : string) (ch : ascii) :
  endswith s (String ch "") = false -> rstrip_by (Ascii.eqb ch) s = s.
Proof.
  induction s as [|c s IH]; [reflexivity|].
  rewrite endswith_cons. intros H. apply orb_false_iff in H. destruct H as [Hc Hs].
  cbn [rstrip_by]. rewrite (IH Hs). destruct s as [|a t]; [|reflexivity].
  cbn in Hc. rewrite Ascii.eqb_sym. destruct (Ascii.eqb c ch); [discriminate Hc | reflexivity].
Qed.

Lemma endswith_snoc (s : string) (c : ascii) :
  endswith (s ++ String c "") (String c "") = true.
Proof.
  induction s as [|a s IH]; cbn [append].
  - cbn. rewrite Ascii.eqb_refl. reflexivity.
  - rewrite endswith_cons, IH. apply orb_true_r.
Qed.

(** The candidate of strategy 1 always carries a scheme, so validating it
    always sends a request: it is never turned down as an invalid URL. *)
Theorem strategy_1_has_scheme (net : network) (url : string) (timeout : Z) (w : world) :
  Repair.has_scheme (Repair.strategy_1 url) = true /\
  requests (snd (Validator.validate_url net (Repair.strategy_1 url) timeout w)) =
    requests w ++ [(Repair.strategy_1 url, timeout)].
Proof.
  assert (H : Repair.has_scheme (Repair.strategy_1 url) = true).
  { unfold Repair.strategy_1. destruct (Repair.has_scheme url) eqn:E; [exact E|].
    cbn [negb]. unfold Repair.has_scheme. cbn. destruct url; reflexivity. }
  split; [exact H|]. now rewrite validate_url_sends, H.
Qed.

(** The candidate of strategy 6 has no query string left, and the candidate
    of strategy 9 never ends with a slash. *)
Theorem strategy_6_9_postconditions (url : string) :
  contains (Repair.strategy_6 url) "?" = false /\
  endswith (Repair.strategy_9 url) "/" = false.
Proof.
  split.
  - unfold Repair.strategy_6. destruct (contains url "?") eqn:E; [|exact E].
    apply split_head_no_sep.
  - unfold Repair.strategy_9, rstrip_char. destruct (endswith url "/") eqn:E; [|exact E].
    apply rstrip_by_no_tail.
Qed.

(** Strategy 9 undoes strategy 10: on a URL without trailing slash, query
    or fragment, removing the trailing slash that strategy 10 adds gives the
    URL back. *)
Theorem strategy_9_undoes_10 (url : string) :
  endswith url "/" = false ->
  contains url "?" = false ->
  contains url "#" = false ->
  Repair.strategy_10 url = (url ++ "/")%string /\
  Repair.strategy_9 (Repair.strategy_10 url) = url.
Proof.
  intros H1 H2 H3.
  assert (E : Repair.strategy_10 url = (url ++ "/")%string).
  { unfold Repair.strategy_10. now rewrite H1, H2, H3. }
  split; [exact E|]. rewrite E.
  unfold Repair.strategy_9, rstrip_char.
  rewrite (endswith_snoc url "/"), rstrip_by_snoc, Ascii.eqb_refl.
  now apply rstrip_by_keeps.
Qed.

Lemma strategy_9_undoes_10_witness :
  Repair.strategy_10 "https://example.org/grants" = "https://example.org/grants/" /\
  Repair.strategy_9 (Repair.strategy_10 "https://example.org/grants")
    = "https://example.org/grants".
Proof.
  exact (strategy_9_undoes_10 "https://example.org/grants" eq_refl eq_refl eq_refl).
Defined.

(* ================================================================= *)
(** ** More on the searcher *)

Lemma strongly_sorted_impl (A : Type) (R S : A -> A -> Prop) (l : list A) :
  (forall a b, R a b -> S a b) -> StronglySorted R l -> StronglySorted S l.
Proof.
  intros HRS Hs. induction Hs as [|a l Hs IH Ha]; constructor; [exact IH|].
  eapply Forall_impl; [|exact Ha]. intros b. apply HRS.
Qed.

Lemma days_key_eqb (r : Searcher.opportunity) (d : Z) :
  tuple_eqb (Searcher.get_deadline_priority r)
    (Searcher.get_deadline_priority (record_due_in (Some d)))
  = (days_of r =? d).
Proof.
  rewrite !get_deadline_priority_key. unfold tuple_eqb. cbn [fst snd].
  change (days_of (record_due_in (Some d))) with d.
  destruct (Z.eqb_spec (days_of r) d) as [E | E]; [|apply andb_false_r].
  rewrite andb_true_r. apply Z.eqb_eq.
  unfold bucket. change (days_of (record_due_in (Some d))) with d. now rewrite E.
Qed.

(** The urgency sort is a plain ascending sort on the days left, the sentinel
    999 standing for a missing count, and it is stable: records with the same
    number of days keep the order in which the adapter returned them. *)
Theorem sort_by_deadline_ascending_stable (results : list Searcher.opportunity) :
  StronglySorted (fun a b => days_of a <= days_of b) (Searcher._sort_by_deadline results) /\
  (forall d,
      filter (fun r => days_of r =? d) (Searcher._sort_by_deadline results) =
      filter (fun r => days_of r =? d) results).
Proof.
  split.
  - apply strongly_sorted_impl with
      (R := fun x y => tuple_le (Searcher.get_deadline_priority x)
                         (Searcher.get_deadline_priority y)).
    + intros a b H. rewrite !get_deadline_priority_key in H.
      apply tuple_le_iff in H. cbn [fst snd] in H.
      pose proof (bucket_range a). pose proof (bucket_range b). lia.
    + apply (sorted_sorted Searcher.get_deadline_priority results).
  - intros d.
    pose proof (sorted_stable Searcher.get_deadline_priority
                  (Searcher.get_deadline_priority (record_due_in (Some d))) results) as H.
    fold (Searcher._sort_by_deadline results) in H.
    rewrite (filter_ext _ _ (fun r => days_key_eqb r d)) in H.
    rewrite (filter_ext _ _ (fun r => days_key_eqb r d)) in H.
    exact H.
Qed.

Lemma existsb_eqb_false (t : string) (seen : list string) :
  existsb (String.eqb t) seen = false -> ~ In t seen.
Proof.
  intros H Hin.
  assert (existsb (String.eqb t) seen = true) as Ht.
  { apply existsb_exists. exists t. split; [exact Hin | apply String.eqb_refl]. }
  congruence.
Qed.

Lemma unique_by_title_spec (all_results : list Searcher.opportunity) :
  forall seen_titles,
    NoDup (map title_key (Searcher.unique_by_title seen_titles all_results)) /\
    (forall r, In r (Searcher.unique_by_title seen_titles all_results) ->
               In r all_results /\ ~ In (title_key r) seen_titles).
Proof.
  induction all_results as [|result rest IH]; intros seen; cbn [Searcher.unique_by_title].
  - split; [constructor | intros r []].
  - cbv zeta. fold (title_key result).
    destruct (existsb (String.eqb (title_key result)) seen) eqn:E.
    + destruct (IH seen) as [Hnd Hin]. split; [exact Hnd|].
      intros r Hr. destruct (Hin r Hr). split; [now right | assumption].
    + apply existsb_eqb_false in E.
      destruct (IH (title_key result :: seen)) as [Hnd Hin].
      split.
      * cbn [map]. constructor; [|exact Hnd].
        intros Hdup. apply in_map_iff in Hdup. destruct Hdup as (r & Hk & Hr).
        destruct (Hin r Hr) as [_ Hnot]. apply Hnot. left. now symmetry.
      * intros r [<- | Hr]; [split; [now left | exact E]|].
        destruct (Hin r Hr) as [H1 H2]. split; [now right|].
        intros H. apply H2. now right.
Qed.

Lemma nodup_firstn (A : Type) (n : nat) (l : list A) : NoDup l -> NoDup (firstn n l).
Proof.
  intros H. rewrite <- (firstn_skipn n l) in H. now apply NoDup_app_remove_r in H.
Qed.

Lemma slice_to_firstn (A : Type) (l : list A) (n : Z) :
  exists k, Searcher.slice_to l n = firstn k l.
Proof.
  unfold Searcher.slice_to. destruct (0 <=? n); eexists; reflexivity.
Qed.

Lemma slice_to_incl (A : Type) (l : list A) (n : Z) (x : A) :
  In x (Searcher.slice_to l n) -> In x l.
Proof.
  destruct (slice_to_firstn A l n) as [k ->]. intros H.
  rewrite <- (firstn_skipn k l). apply in_or_app. now left.
Qed.

(** The European adapter never returns two records whose titles are equal
    up to case: of the records that share a title only one is kept, and every
    record it returns comes from the dynamic search (tagged with the region
    when one is asked for). *)
Theorem search_european_unique_titles
    (search_dynamic_european_data : string -> Z -> list Searcher.opportunity)
    (keywords region : string) (limit : Z) :
  NoDup (map title_key
           (Searcher.search_european_subventions search_dynamic_european_data
              keywords region limit)) /\
  (forall r,
      In r (Searcher.search_european_subventions search_dynamic_european_data
              keywords region limit) ->
      exists r0,
        In r0 (search_dynamic_european_data keywords limit) /\
        Searcher.title r = Searcher.title r0).
Proof.
  unfold Searcher.search_european_subventions. cbv zeta.
  set (all_results := if negb (falsy region)
                      then Searcher._filter_by_region
                             (search_dynamic_european_data keywords limit) region
                      else search_dynamic_european_data keywords limit).
  destruct (unique_by_title_spec all_results []) as [Hnd Hin].
  split.
  - destruct (slice_to_firstn _ (Searcher.unique_by_title [] all_results) limit)
      as [k ->].
    rewrite <- firstn_map. now apply nodup_firstn.
  - intros r Hr. apply slice_to_incl in Hr. destruct (Hin r Hr) as [Hall _].
    subst all_results. destruct (negb (falsy region)); [|now exists r].
    unfold Searcher._filter_by_region in Hall.
    destruct (falsy region || match search_dynamic_european_data keywords limit with
                              | [] => true
                              | _ :: _ => false
                              end); [now exists r|].
    apply in_map_iff in Hall. destruct Hall as (r0 & <- & Hr0).
    apply filter_In in Hr0. destruct Hr0 as [Hr0 _]. now exists r0.
Qed.

(** Scenario D of the specification: of two records with the same title up
    to case the second is dropped. *)
Example search_european_duplicate_title :
  map Searcher.title
    (Searcher.search_european_subventions
       (fun _ _ => [record_titled "Creative Europe"; record_titled "Horizon";
                    record_titled "CREATIVE EUROPE"]) "" "" 50)
  = ["Creative Europe"; "Horizon"].
Proof. reflexivity. Qed.

(** Titles are compared as [str.lower] makes them, in every script. *)
Example search_european_duplicate_title_unicode :
  map Searcher.title
    (Searcher.search_european_subventions
       (fun _ _ => [record_titled "Fundusz ŁÓDŹ"; record_titled "fundusz łódź";
                    record_titled "ΟΔΟΣ"; record_titled "οδος"; record_titled "οδοσ"])
       "" "" 50)
  = ["Fundusz ŁÓDŹ"; "ΟΔΟΣ"; "οδοσ"].
Proof. vm_compute. reflexivity. Qed.

Lemma days_from_now_nonneg (now deadline_date : Z) :
  0 <= Searcher.days_from_now now deadline_date.
Proof. unfold Searcher.days_from_now. apply Z.le_max_l. Qed.

Lemma calculate_days_until_deadline_nonneg (now : Z)
    (strptime : string -> string -> option Z) (deadline_str : string) :
  0 <= Searcher._calculate_days_until_deadline now strptime deadline_str.
Proof.
  unfold Searcher._calculate_days_until_deadline.
  destruct (falsy deadline_str); [lia|].
  destruct (strptime deadline_str "%d/%m/%Y"); [apply days_from_now_nonneg | lia].
Qed.

Lemma calculate_days_until_nonneg (now : Z)
    (strptime : string -> string -> option Z) (deadline_str : string) :
  0 <= Searcher._calculate_days_until now strptime deadline_str.
Proof.
  unfold Searcher._calculate_days_until.
  destruct (strptime deadline_str "%Y-%m-%d"); [apply days_from_now_nonneg | lia].
Qed.

(** Whatever the clock and the keywords, every record of the Colombian
    adapter and of the French sample fallback carries a
    [days_until_deadline], and it is never negative: a deadline that has
    passed counts for 0 days, a date that does not parse for 999. *)
Theorem static_records_days_nonnegative (now : Z)
    (strptime : string -> string -> option Z) (keywords region : string) (limit : Z) :
  Forall has_days (Searcher.search_colombian_funding now strptime keywords region limit) /\
  Forall has_days (Searcher._get_sample_french_data now strptime keywords region) /\
  (forall deadline_str t,
      strptime deadline_str "%Y-%m-%d" = Some t -> t <= now ->
      Searcher._calculate_days_until now strptime deadline_str = 0) /\
  (forall deadline_str,
      strptime deadline_str "%Y-%m-%d" = None ->
      Searcher._calculate_days_until now strptime deadline_str = 999).
Proof.
  assert (Hc : Forall has_days (Searcher.culture_opportunities now strptime)).
  { unfold Searcher.culture_opportunities.
    repeat (apply Forall_cons;
            [eexists; split; [reflexivity | apply calculate_days_until_nonneg]|]).
    apply Forall_nil. }
  assert (Hs : Forall has_days (Searcher.sample_data now strptime)).
  { unfold Searcher.sample_data.
    repeat (apply Forall_cons;
            [eexists; split; [reflexivity | apply calculate_days_until_deadline_nonneg]|]).
    apply Forall_nil. }
  rewrite Forall_forall in Hc, Hs.
  split; [|split; [|split]].
  - apply Forall_forall. intros r Hr. apply Hc.
    unfold Searcher.search_colombian_funding in Hr. cbv zeta in Hr.
    destruct (limit =? 0); [|apply slice_to_incl in Hr];
      apply filter_In in Hr; apply Hr.
  - apply Forall_forall. intros r Hr. apply Hs.
    unfold Searcher._get_sample_french_data in Hr.
    destruct (negb (falsy keywords)); [|exact Hr].
    apply filter_In in Hr. apply Hr.
  - intros deadline_str t Ht Hpast. unfold Searcher._calculate_days_until.
    rewrite Ht. unfold Searcher.days_from_now.
    assert ((t - now) / 86400000000 <= 0).
    { apply Z.div_le_upper_bound; lia. }
    lia.
  - intros deadline_str Hnone. unfold Searcher._calculate_days_until.
    now rewrite Hnone.
Qed.

Lemma static_records_days_nonnegative_witness :
  Searcher._calculate_days_until 1000 (fun s _ => if String.eqb s "1970-01-01" then Some 0 else None)
    "1970-01-01" = 0 /\
  Searcher._calculate_days_until 1000 (fun s _ => if String.eqb s "1970-01-01" then Some 0 else None)
    "soon" = 999.
Proof.
  destruct (static_records_days_nonnegative 1000
              (fun s _ => if String.eqb s "1970-01-01" then Some 0 else None) "" "" 0)
    as (_ & _ & Hpast & Hbad).
  split.
  - apply (Hpast "1970-01-01" 0 eq_refl). lia.
  - apply (Hbad "soon" eq_refl).
Defined.

Lemma contains_empty (s : string) : contains s "" = true.
Proof. destruct s; reflexivity. Qed.

Lemma filter_all (A : Type) (f : A -> bool) (l : list A) :
  (forall x, In x l -> f x = true) -> filter f l = l.
Proof.
  induction l as [|a l IH]; intros H; [reflexivity|].
  cbn [filter]. rewrite (H a (or_introl eq_refl)), IH; [reflexivity|].
  intros x Hx. apply H. now right.
Qed.

(** An empty piece in the comma-separated keywords of the French sample
    fallback (a trailing comma, two commas in a row) matches every record:
    the filter is then void and all three sample records are returned. *)
Theorem sample_french_data_empty_keyword (now : Z)
    (strptime : string -> string -> option Z) (keywords region : string) :
  In "" (map (fun k => lower (strip k)) (split_on keywords ",")) ->
  Searcher._get_sample_french_data now strptime keywords region =
  Searcher.sample_data now strptime.
Proof.
  intros Hin. unfold Searcher._get_sample_french_data.
  destruct (negb (falsy keywords)); [|reflexivity].
  apply filter_all. intros item _. cbv zeta.
  apply existsb_exists. exists "". split; [exact Hin | apply contains_empty].
Qed.

Lemma sample_french_data_empty_keyword_witness :
  Searcher._get_sample_french_data 0 strptime_none "blockchain, " "" =
  Searcher.sample_data 0 strptime_none.
Proof.
  apply (sample_french_data_empty_keyword 0 strptime_none "blockchain, " "").
  right. left. reflexivity.
Defined.

(** The region filter of the European adapter never adds a record: it
    returns the list as it is for an empty region, and otherwise a selection
    of the records, each tagged with the name of the region. *)
Theorem filter_by_region_selects (results : list Searcher.opportunity) (region : string) :
  Searcher._filter_by_region results "" = results /\
  (length (Searcher._filter_by_region results region) <= length results)%nat /\
  (region <> "" ->
   forall r, In r (Searcher._filter_by_region results region) ->
     exists r0 region_name,
       In r0 results /\
       r = Searcher.set_filtered_region region_name r0 /\
       Searcher.filtered_region r = Some region_name /\
       Searcher.title r = Searcher.title r0).
Proof.
  split; [destruct results; reflexivity|].
  unfold Searcher._filter_by_region.
  destruct region as [|c region]; [split; [cbn; lia | congruence]|].
  cbn [falsy orb].
  destruct results as [|first results]; [split; [cbn; lia | intros _ r []]|].
  cbv zeta. split.
  - rewrite length_map. apply filter_length_le.
  - intros _ r Hr. apply in_map_iff in Hr. destruct Hr as (r0 & <- & Hr0).
    apply filter_In in Hr0. destruct Hr0 as [Hr0 _].
    eexists r0, _. split; [exact Hr0|]. repeat split.
Qed.

Lemma filter_by_region_selects_witness :
  exists r0 region_name,
    In r0 [record_titled "Grants for Germany"; record_titled "Grants for Spain"] /\
    Searcher.set_filtered_region "Germany" (record_titled "Grants for Germany")
      = Searcher.set_filtered_region region_name r0 /\
    Searcher.filtered_region
      (Searcher.set_filtered_region "Germany" (record_titled "Grants for Germany"))
      = Some region_name /\
    Searcher.title
      (Searcher.set_filtered_region "Germany" (record_titled "Grants for Germany"))
      = Searcher.title r0.
Proof.
  apply (proj2 (proj2 (filter_by_region_selects
           [record_titled "Grants for Germany"; record_titled "Grants for Spain"] "DE"))).
  - discriminate.
  - left. reflexivity.
Defined.

Example filter_by_region_example :
  map (fun r => (Searcher.title r, Searcher.filtered_region r))
    (Searcher._filter_by_region
       [record_titled "Grants for Germany"; record_titled "Grants for Spain"] "de")
  = [("Grants for Germany", Some "Germany")].
Proof. reflexivity. Qed.

(* ================================================================= *)
(** ** Counting by key *)

Lemma bump_lookup (key k : string) (counts : list (string * Z)) :
  Searcher.lookup k (Counting.bump key counts) =
  if String.eqb key k then Some (Counting.get key counts + 1)
  else Searcher.lookup k counts.
Proof.
  unfold Counting.get.
  induction counts as [|[k0 n0] rest IH]; cbn [Counting.bump Searcher.lookup].
  - destruct (String.eqb key k); reflexivity.
  - destruct (String.eqb_spec k0 key) as [-> | Hne]; cbn [Searcher.lookup].
    + destruct (String.eqb key k); reflexivity.
    + rewrite IH. destruct (String.eqb_spec k0 k) as [-> | Hne'].
      * destruct (String.eqb_spec key k) as [E | _]; [congruence | reflexivity].
      * reflexivity.
Qed.

Lemma bump_get (key k : string) (counts : list (string * Z)) :
  Counting.get k (Counting.bump key counts) =
  if String.eqb key k then Counting.get key counts + 1 else Counting.get k counts.
Proof.
  unfold Counting.get at 1. rewrite bump_lookup.
  destruct (String.eqb key k); reflexivity.
Qed.

Lemma bump_keys (key : string) (counts : list (string * Z)) :
  map fst (Counting.bump key counts) =
  if existsb (String.eqb key) (map fst counts) then map fst counts
  else map fst counts ++ [key].
Proof.
  induction counts as [|[k0 n0] rest IH]; [reflexivity|].
  cbn [Counting.bump map fst existsb].
  rewrite (String.eqb_sym key k0).
  destruct (String.eqb k0 key); cbn [map fst orb]; [reflexivity|].
  rewrite IH. destruct (existsb (String.eqb key) (map fst rest)); reflexivity.
Qed.

Lemma bump_nodup (key : string) (counts : list (string * Z)) :
  NoDup (map fst counts) -> NoDup (map fst (Counting.bump key counts)).
Proof.
  intros H. rewrite bump_keys.
  destruct (existsb (String.eqb key) (map fst counts)) eqn:E; [exact H|].
  apply nodup_snoc; [exact H | now apply existsb_eqb_false].
Qed.

Lemma bump_positive (key : string) (counts : list (string * Z)) :
  Forall (fun item => 1 <= snd item) counts ->
  Forall (fun item => 1 <= snd item) (Counting.bump key counts).
Proof.
  induction counts as [|[k0 n0] rest IH]; intros H; cbn [Counting.bump].
  - constructor; [cbn; lia | constructor].
  - apply Forall_cons_iff in H. destruct H as [H0 Hrest]. cbn [snd] in H0.
    destruct (String.eqb k0 key); constructor; cbn [snd]; try lia; auto.
Qed.

Lemma bump_total (key : string) (counts : list (string * Z)) :
  total_count (Counting.bump key counts) = total_count counts + 1.
Proof.
  induction counts as [|[k0 n0] rest IH]; cbn [Counting.bump total_count fold_right snd].
  - lia.
  - destruct (String.eqb k0 key); cbn [total_count fold_right snd];
      [|fold (total_count (Counting.bump key rest)); rewrite IH];
      fold (total_count rest); lia.
Qed.

Lemma bump_in_key (key k : string) (counts : list (string * Z)) :
  In k (map fst (Counting.bump key counts)) <-> In k (map fst counts) \/ k = key.
Proof.
  rewrite bump_keys.
  destruct (existsb (String.eqb key) (map fst counts)) eqn:E.
  - split; [auto|]. intros [H | ->]; [exact H|].
    apply existsb_exists in E. destruct E as (x & Hx & Hk).
    apply String.eqb_eq in Hk. now subst x.
  - rewrite in_app_iff. cbn. intuition.
Qed.

Lemma count_keys_from (keys : list string) :
  forall init,
    NoDup (map fst init) ->
    Forall (fun item => 1 <= snd item) init ->
    let counts := fold_left (fun counts key => Counting.bump key counts) keys init in
    NoDup (map fst counts) /\
    Forall (fun item => 1 <= snd item) counts /\
    (forall k, Counting.get k counts = Counting.get k init + occurrences k keys) /\
    (forall k, In k (map fst counts) <-> In k (map fst init) \/ In k keys) /\
    total_count counts = total_count init + Z.of_nat (length keys).
Proof.
  induction keys as [|key keys IH]; intros init Hnd Hpos; cbn [fold_left].
  - unfold occurrences. cbn [count_occ length].
    split; [exact Hnd|]. split; [exact Hpos|]. split; [intros k; lia|].
    split; [intros k; cbn [In]; intuition | lia].
  - destruct (IH (Counting.bump key init) (bump_nodup key init Hnd)
                (bump_positive key init Hpos)) as (A & B & C & D & E).
    split; [exact A|]. split; [exact B|]. split; [|split].
    + intros k. rewrite C, bump_get. unfold occurrences. cbn [count_occ].
      destruct (string_dec key k) as [-> | Hne].
      * rewrite String.eqb_refl. lia.
      * destruct (String.eqb_spec key k); [contradiction | lia].
    + intros k. rewrite D, bump_in_key. cbn [In]. intuition.
    + rewrite E, bump_total. cbn [length]. lia.
Qed.

Lemma lookup_in_nodup (k : string) (n : Z) (counts : list (string * Z)) :
  NoDup (map fst counts) -> In (k, n) counts -> Searcher.lookup k counts = Some n.
Proof.
  induction counts as [|[k0 n0] rest IH]; intros Hnd Hin; [destruct Hin|].
  cbn [map fst] in Hnd. apply NoDup_cons_iff in Hnd. destruct Hnd as [Hnot Hnd].
  cbn [Searcher.lookup]. destruct Hin as [[= -> ->] | Hin].
  - now rewrite String.eqb_refl.
  - destruct (String.eqb_spec k0 k) as [-> | _]; [|now apply IH].
    exfalso. apply Hnot. apply in_map_iff. now exists (k, n).
Qed.

(** Counting by key: the keys of the result are those that occur, each once;
    the count of a key is the number of its occurrences; the counts sum to
    the number of keys counted. *)
Lemma count_keys_spec (keys : list string) :
  NoDup (map fst (Counting.count_keys keys)) /\
  (forall k n, In (k, n) (Counting.count_keys keys) ->
               n = occurrences k keys /\ 1 <= n /\ In k keys) /\
  (forall k, In k keys -> In (k, occurrences k keys) (Counting.count_keys keys)) /\
  (forall k, Counting.get k (Counting.count_keys keys) = occurrences k keys) /\
  total_count (Counting.count_keys keys) = Z.of_nat (length keys).
Proof.
  destruct (count_keys_from keys [] (NoDup_nil _) (Forall_nil _))
    as (A & B & C & D & E).
  fold (Counting.count_keys keys) in A, B, C, D, E.
  assert (Hget : forall k, Counting.get k (Counting.count_keys keys) = occurrences k keys).
  { intros k. rewrite C. unfold Counting.get. cbn. lia. }
  split; [exact A|]. split; [|split; [|split; [exact Hget | exact E]]].
  - intros k n Hin. pose proof (lookup_in_nodup k n _ A Hin) as Hl.
    rewrite Forall_forall in B. specialize (B (k, n) Hin). cbn [snd] in B.
    split; [|split; [exact B|]].
    + rewrite <- Hget. unfold Counting.get. now rewrite Hl.
    + assert (In k (map fst (Counting.count_keys keys))) as Hk
        by (apply in_map_iff; now exists (k, n)).
      apply D in Hk. destruct Hk as [[] | Hk]. exact Hk.
  - intros k Hk.
    assert (In k (map fst (Counting.count_keys keys))) as Hin by (apply D; now right).
    apply in_map_iff in Hin. destruct Hin as ([k' n] & Hfst & Hin). cbn in Hfst. subst k'.
    pose proof (lookup_in_nodup k n _ A Hin) as Hl.
    specialize (Hget k). unfold Counting.get in Hget. rewrite Hl in Hget.
    now rewrite <- Hget.
Qed.

(* ================================================================= *)
(** ** Statistics of [create_analysis_log] *)

Lemma occurrences_map (A : Type) (f : A -> string) (k : string) (l : list A) :
  occurrences k (map f l) =
  Z.of_nat (length (filter (fun x => String.eqb (f x) k) l)).
Proof.
  unfold occurrences. f_equal.
  induction l as [|a l IH]; [reflexivity|].
  cbn [map count_occ filter].
  destruct (string_dec (f a) k) as [E | E].
  - rewrite E, String.eqb_refl. cbn [length]. now rewrite IH.
  - destruct (String.eqb_spec (f a) k); [contradiction | exact IH].
Qed.

(** The geographic and the source distributions count every result once:
    the count of a region (of a source) is the number of results with that
    [perimeter] (that [source]), a result without the key counting under
    "Unknown"; no region is listed twice or with a count of 0; and the
    counts sum to the number of results. *)
Theorem distribution_counts (all_results : list Report.result) :
  (NoDup (map fst (Report.countries all_results)) /\
   (forall region n,
       In (region, n) (Report.countries all_results) ->
       1 <= n /\
       n = Z.of_nat (length (filter
             (fun r => String.eqb (FixLog.text_or "Unknown" (Report.perimeter r)) region)
             all_results))) /\
   total_count (Report.countries all_results) = Z.of_nat (length all_results)) /\
  (NoDup (map fst (Report.sources all_results)) /\
   (forall source n,
       In (source, n) (Report.sources all_results) ->
       1 <= n /\
       n = Z.of_nat (length (filter
             (fun r => String.eqb (FixLog.text_or "Unknown" (Report.source r)) source)
             all_results))) /\
   total_count (Report.sources all_results) = Z.of_nat (length all_results)).
Proof.
  unfold Report.countries, Report.sources. split.
  - destruct (count_keys_spec
                (map (fun result => FixLog.text_or "Unknown" (Report.perimeter result))
                   all_results)) as (A & B & _ & _ & E).
    split; [exact A|]. split; [|now rewrite E, length_map].
    intros region n Hin. destruct (B region n Hin) as (Hn & Hpos & _).
    split; [exact Hpos|]. now rewrite Hn, occurrences_map.
  - destruct (count_keys_spec
                (map (fun result => FixLog.text_or "Unknown" (Report.source result))
                   all_results)) as (A & B & _ & _ & E).
    split; [exact A|]. split; [|now rewrite E, length_map].
    intros source n Hin. destruct (B source n Hin) as (Hn & Hpos & _).
    split; [exact Hpos|]. now rewrite Hn, occurrences_map.
Qed.

Lemma filter_filter (A : Type) (f g : A -> bool) (l : list A) :
  filter f (filter g l) = filter (fun x => f x && g x) l.
Proof.
  induction l as [|a l IH]; [reflexivity|].
  cbn [filter]. destruct (g a); cbn [filter]; rewrite IH.
  - rewrite andb_true_r. reflexivity.
  - rewrite andb_false_r. reflexivity.
Qed.

(** The urgency bands of the report: every result is in exactly one of
    "within 30 days", "31 to 90 days" and "beyond 90 days", a result without
    [days_until_deadline] being beyond; the band "within 7 days" is a part of
    the band "within 30 days", so that the four counts the report prints add
    up to the number of results plus the number of results within 7 days. *)
Theorem urgency_bands (all_results : list Report.result) :
  (length (Report.urgent_30 all_results) + length (Report.medium_90 all_results)
   + length (Report.distant all_results) = length all_results)%nat /\
  Report.urgent_7 all_results = Report.urgent_7 (Report.urgent_30 all_results) /\
  (length (Report.urgent_7 all_results) + length (Report.urgent_30 all_results)
   + length (Report.medium_90 all_results) + length (Report.distant all_results)
   = length all_results + length (Report.urgent_7 all_results))%nat /\
  (forall r, In r all_results -> Report.days_until_deadline r = None ->
             In r (Report.distant all_results)).
Proof.
  assert (H3 : (length (Report.urgent_30 all_results)
                + length (Report.medium_90 all_results)
                + length (Report.distant all_results) = length all_results)%nat).
  { unfold Report.urgent_30, Report.medium_90, Report.distant.
    induction all_results as [|r l IH]; [reflexivity|].
    cbn [filter length].
    destruct (Z.leb_spec (Report.days r) 30); destruct (Z.ltb_spec 30 (Report.days r));
      destruct (Z.leb_spec (Report.days r) 90); destruct (Z.ltb_spec 90 (Report.days r));
      cbn [andb length]; lia. }
  split; [exact H3|]. split; [|split; [lia|]].
  - unfold Report.urgent_7, Report.urgent_30. rewrite filter_filter.
    apply filter_ext. intros r.
    destruct (Z.leb_spec (Report.days r) 7); destruct (Z.leb_spec (Report.days r) 30);
      cbn; try reflexivity; lia.
  - intros r Hin Hnone. unfold Report.distant. apply filter_In. split; [exact Hin|].
    unfold Report.days. rewrite Hnone. reflexivity.
Qed.

(* ================================================================= *)
(** ** The URL pass of [create_analysis_log] *)

Lemma collect_urls_spec (all_results : list Report.result) :
  forall acc,
    NoDup (map Report.Info.url acc) ->
    Forall (fun info => Report.Info.url info <> "") acc ->
    NoDup (map Report.Info.url (Report.collect_urls all_results acc)) /\
    Forall (fun info => Report.Info.url info <> "") (Report.collect_urls all_results acc) /\
    (forall info, In info (Report.collect_urls all_results acc) ->
                  In info acc \/
                  (~ In (Report.Info.url info) (map Report.Info.url acc) /\
                   first_occurrence all_results info)) /\
    (forall r u, In r all_results -> Report.url r = Some u -> u <> "" ->
                 In u (map Report.Info.url (Report.collect_urls all_results acc))) /\
    (forall info, In info acc -> In info (Report.collect_urls all_results acc)).
Proof.
  induction all_results as [|result rest IH]; intros acc Hnd Hne;
    cbn [Report.collect_urls].
  - repeat split; auto. intros r u [].
  - cbv zeta.
    destruct (negb (falsy (FixLog.text_or "" (Report.url result)))
              && negb (existsb (String.eqb (FixLog.text_or "" (Report.url result)))
                         (map Report.Info.url acc))) eqn:E.
    + apply andb_true_iff in E. destruct E as [E1 E2].
      apply negb_true_iff in E1, E2. apply existsb_eqb_false in E2.
      assert (Hurl : exists u, Report.url result = Some u /\ u <> "" /\
                               FixLog.text_or "" (Report.url result) = u).
      { destruct (Report.url result) as [u|]; [|discriminate E1].
        exists u. repeat split. intros ->. discriminate E1. }
      destruct Hurl as (u & Hu & Hune & Htext). rewrite Htext in *.
      set (info0 := {| Report.Info.url := u;
                       Report.Info.title := FixLog.text_or "Unknown" (Report.title result);
                       Report.Info.source := FixLog.text_or "Unknown" (Report.source result);
                       Report.Info.country :=
                         FixLog.text_or "Unknown" (Report.perimeter result) |}).
      assert (Hnd' : NoDup (map Report.Info.url (acc ++ [info0]))).
      { rewrite map_app. now apply nodup_snoc. }
      assert (Hne' : Forall (fun info => Report.Info.url info <> "") (acc ++ [info0])).
      { apply Forall_app. split; [exact Hne|]. constructor; [exact Hune | constructor]. }
      destruct (IH (acc ++ [info0]) Hnd' Hne') as (A & B & C & D & F).
      split; [exact A|]. split; [exact B|]. split; [|split].
      * intros info Hin. destruct (C info Hin) as [Hacc | (Hnot & before & r & after & H)].
        -- apply in_app_iff in Hacc. destruct Hacc as [Hacc | [<- | []]]; [now left|].
           right. split; [exact E2|].
           exists [], result, rest. repeat split; try reflexivity; [exact Hu|].
           intros r [].
        -- right. rewrite map_app, in_app_iff in Hnot.
           split; [intros H'; apply Hnot; now left|].
           destruct H as (Hsplit & H1 & H2 & H3 & H4 & H5).
           exists (result :: before), r, after.
           split; [cbn; now rewrite Hsplit|]. repeat split; try assumption.
           intros r' [<- | Hr']; [|now apply H5].
           rewrite Hu. intros [= Heq]. apply Hnot. right. left. exact Heq.
      * intros r u' [<- | Hr] Hu' Hne''.
        -- rewrite Hu in Hu'. injection Hu' as <-.
           apply in_map_iff. exists info0. split; [reflexivity|].
           apply F. apply in_or_app. right. now left.
        -- now apply (D r u').
      * intros info Hin. apply F. apply in_or_app. now left.
    + destruct (IH acc Hnd Hne) as (A & B & C & D & F).
      split; [exact A|]. split; [exact B|]. split; [|split; [|exact F]].
      * intros info Hin. destruct (C info Hin) as [Hacc | (Hnot & before & r & after & H)];
          [now left|].
        right. split; [exact Hnot|].
        destruct H as (Hsplit & H1 & H2 & H3 & H4 & H5).
        exists (result :: before), r, after.
        split; [cbn; now rewrite Hsplit|]. repeat split; try assumption.
        intros r' [<- | Hr']; [|now apply H5].
        intros Hu. rewrite Hu in E. cbn [FixLog.text_or] in E.
        apply andb_false_iff in E. destruct E as [E | E].
        -- apply negb_false_iff in E. destruct (Report.Info.url info) eqn:Ei; [|discriminate E].
           rewrite Forall_forall in B. now apply (B info Hin).
        -- apply negb_false_iff in E. apply existsb_exists in E.
           destruct E as (x & Hx & Hk). apply String.eqb_eq in Hk. subst x.
           contradiction.
      * intros r u [<- | Hr] Hu Hne''; [|now apply (D r u)].
        rewrite Hu in E. cbn [FixLog.text_or] in E.
        apply andb_false_iff in E. destruct E as [E | E].
        -- apply negb_false_iff in E. destruct u; [congruence | discriminate E].
        -- apply negb_false_iff in E. apply existsb_exists in E.
           destruct E as (x & Hx & Hk). apply String.eqb_eq in Hk. subst x.
           apply in_map_iff in Hx. destruct Hx as (info & Hi & Hin).
           rewrite <- Hi. apply in_map. now apply F.
Qed.


(** The URLs that [create_analysis_log] validates are the non-empty URLs of
    the results, each listed once however many results share it, and each
    listed with the title, source and country of the first result that has
    it. *)
Theorem urls_to_validate_distinct (all_results : list Report.result) :
  NoDup (map Report.Info.url (Report.urls_to_validate all_results)) /\
  (forall u,
      In u (map Report.Info.url (Report.urls_to_validate all_results)) <->
      u <> "" /\ exists r, In r all_results /\ Report.url r = Some u) /\
  (forall info, In info (Report.urls_to_validate all_results) ->
                first_occurrence all_results info).
Proof.
  destruct (collect_urls_spec all_results [] (NoDup_nil _) (Forall_nil _))
    as (A & B & C & D & _).
  fold (Report.urls_to_validate all_results) in A, B, C, D.
  split; [exact A|]. split.
  - intros u. split.
    + intros Hin. apply in_map_iff in Hin. destruct Hin as (info & <- & Hin).
      rewrite Forall_forall in B. split; [now apply B|].
      destruct (C info Hin) as [[] | (_ & before & r & after & Hsplit & Hu & _)].
      exists r. split; [|exact Hu]. rewrite Hsplit. apply in_or_app. right. now left.
    + intros (Hne & r & Hr & Hu). now apply (D r u).
  - intros info Hin. destruct (C info Hin) as [[] | (_ & H)]. exact H.
Qed.

Example urls_to_validate_example :
  Report.urls_to_validate
    [result_at "https://a.example/" "First"; result_without_url;
     result_at "" "Empty"; result_at "https://a.example/" "Second";
     result_at "https://b.example/" "Third"] =
  [{| Report.Info.url := "https://a.example/"; Report.Info.title := "First";
      Report.Info.source := "Unknown"; Report.Info.country := "Unknown" |};
   {| Report.Info.url := "https://b.example/"; Report.Info.title := "Third";
      Report.Info.source := "Unknown"; Report.Info.country := "Unknown" |}].
Proof. reflexivity. Qed.

Lemma validate_all_spec (net : network) (infos : list Report.Info.url_info) :
  forall (v : Report.url_validation) (w : world),
  exists new,
    Report.url_validation_results (fst (Report.validate_all net infos v w)) =
      Report.url_validation_results v ++ new /\
    map snd new = infos /\
    Forall (validated_by net) new /\
    Report.working_urls (fst (Report.validate_all net infos v w)) =
      Report.working_urls v ++ filter (fun p => Validator.is_working (fst p)) new /\
    Report.broken_urls (fst (Report.validate_all net infos v w)) =
      Report.broken_urls v ++ filter (fun p => negb (Validator.is_working (fst p))) new /\
    validations (snd (Report.validate_all net infos v w)) =
      validations w ++ map verdict_of new /\
    requests (snd (Report.validate_all net infos v w)) =
      requests w ++
      map (fun u => (u, 10)) (filter Repair.has_scheme (map Report.Info.url infos)).
Proof.
  induction infos as [|url_info rest IH]; intros v w.
  - exists []. cbn. rewrite !app_nil_r. repeat split. constructor.
  - cbn [Report.validate_all]. unfold bind.
    pose proof (validate_url_validations net (Report.Info.url url_info) 10 w) as Hlog.
    pose proof (validate_url_sends net (Report.Info.url url_info) 10 w) as Hreq.
    assert (Hby : validated_by net
                    (fst (Validator.validate_url net (Report.Info.url url_info) 10 w),
                     url_info)).
    { exists w. reflexivity. }
    destruct (Validator.validate_url net (Report.Info.url url_info) 10 w)
      as [validation w1].
    cbn [fst snd] in Hlog, Hreq, Hby.
    match goal with
    | |- context [Report.validate_all net rest ?v1 w1] =>
        destruct (IH v1 w1) as (new & A & B & C & D & E & F & G)
    end.
    exists ((validation, url_info) :: new).
    cbn [Report.url_validation_results Report.working_urls Report.broken_urls] in A, D, E.
    split; [rewrite A, <- app_assoc; reflexivity|].
    split; [cbn; now rewrite B|].
    split; [constructor; assumption|].
    split; [|split; [|split]].
    + rewrite D. cbn [filter fst].
      destruct (Validator.is_working validation); [now rewrite <- app_assoc | reflexivity].
    + rewrite E. cbn [filter fst].
      destruct (Validator.is_working validation); cbn [negb];
        [reflexivity | now rewrite <- app_assoc].
    + rewrite F, Hlog, <- app_assoc. reflexivity.
    + rewrite G, Hreq, <- app_assoc. f_equal. cbn [map filter].
      destruct (Repair.has_scheme (Report.Info.url url_info)); reflexivity.
Qed.

(** The URL pass validates each distinct URL once, in the order of the
    list, with the default timeout of 10 seconds; the working and the broken
    URLs are the validations that report working and those that do not, in
    that order, so that their numbers add up to the number of URLs tested. *)
Theorem validate_results_partition (net : network) (all_results : list Report.result)
    (w : world) :
  let run := Report.validate_results net all_results w in
  let tested := Report.url_validation_results (fst run) in
  map snd tested = Report.urls_to_validate all_results /\
  Report.working_urls (fst run) = filter (fun p => Validator.is_working (fst p)) tested /\
  Report.broken_urls (fst run) =
    filter (fun p => negb (Validator.is_working (fst p))) tested /\
  (length (Report.working_urls (fst run)) + length (Report.broken_urls (fst run))
   = length tested)%nat /\
  validations (snd run) = validations w ++ map verdict_of tested /\
  requests (snd run) =
    requests w ++
    map (fun u => (u, 10))
      (filter Repair.has_scheme
         (map Report.Info.url (Report.urls_to_validate all_results))).
Proof.
  intros run tested. subst run tested. unfold Report.validate_results.
  destruct (validate_all_spec net (Report.urls_to_validate all_results)
              {| Report.url_validation_results := []; Report.working_urls := [];
                 Report.broken_urls := [] |} w)
    as (new & A & B & C & D & E & F & G).
  cbn [Report.url_validation_results Report.working_urls Report.broken_urls app]
    in A, D, E.
  rewrite A, D, E. repeat split; try assumption.
  apply filter_length.
Qed.

Lemma not_working_status (net : network) (url : string) (timeout : Z) (w : world) :
  Validator.is_working (fst (Validator.validate_url net url timeout w)) = false ->
  Validator.status (fst (Validator.validate_url net url timeout w)) <> "Working".
Proof.
  classify_cases; cbn; intros Hw; try discriminate Hw; discriminate.
Qed.

(** The error breakdown counts every broken URL once, under the status of
    its validation: the status "Working" is never a key of it, the count of
    a status is the number of broken URLs with that status, and the counts
    sum to the number of broken URLs. *)
Theorem error_breakdown_counts (net : network) (all_results : list Report.result)
    (w : world) :
  let v := fst (Report.validate_results net all_results w) in
  NoDup (map fst (Report.error_breakdown v)) /\
  (forall status n,
      In (status, n) (Report.error_breakdown v) ->
      status <> "Working" /\
      1 <= n /\
      n = Z.of_nat (length (filter
            (fun broken_url => String.eqb (Validator.status (fst broken_url)) status)
            (Report.broken_urls v)))) /\
  total_count (Report.error_breakdown v) = Z.of_nat (length (Report.broken_urls v)).
Proof.
  intros v. subst v. unfold Report.validate_results, Report.error_breakdown.
  destruct (validate_all_spec net (Report.urls_to_validate all_results)
              {| Report.url_validation_results := []; Report.working_urls := [];
                 Report.broken_urls := [] |} w)
    as (new & _ & _ & C & _ & E & _ & _).
  cbn [Report.broken_urls app] in E. rewrite E.
  set (broken := filter (fun p => negb (Validator.is_working (fst p))) new).
  destruct (count_keys_spec
              (map (fun broken_url : Report.validated_url =>
                      Validator.status (fst broken_url)) broken))
    as (A & B & _ & _ & T).
  rewrite length_map in T.
  split; [exact A|]. split; [|exact T].
  intros status n Hin. destruct (B status n Hin) as (Hn & Hpos & Hkey).
  rewrite occurrences_map in Hn.
  split; [|split; [exact Hpos | exact Hn]].
  apply in_map_iff in Hkey. destruct Hkey as (p & <- & Hp).
  subst broken. apply filter_In in Hp. destruct Hp as [Hp Hw].
  apply negb_true_iff in Hw.
  rewrite Forall_forall in C. destruct (C p Hp) as [w0 Hby].
  rewrite Hby in Hw |- *. now apply not_working_status.
Qed.

(* ================================================================= *)
(** ** [create_url_fix_log] *)

Lemma insert_desc_perm (x : string * Z) (l : list (string * Z)) :
  Permutation (x :: l) (Counting.insert_desc x l).
Proof.
  induction l as [|y rest IH]; cbn [Counting.insert_desc]; [reflexivity|].
  destruct (snd x <? snd y); [|reflexivity].
  rewrite perm_swap. now apply perm_skip.
Qed.

Lemma sorted_desc_perm (l : list (string * Z)) : Permutation l (Counting.sorted_desc l).
Proof.
  induction l as [|x l IH]; cbn; [constructor|].
  rewrite <- insert_desc_perm. now apply perm_skip.
Qed.

Lemma insert_desc_descending (x : string * Z) (l : list (string * Z)) :
  descending l -> descending (Counting.insert_desc x l).
Proof.
  unfold descending. induction l as [|y rest IH]; intros Hs; cbn [Counting.insert_desc].
  - constructor; constructor.
  - apply StronglySorted_inv in Hs. destruct Hs as [Hrest Hy].
    destruct (Z.ltb_spec (snd x) (snd y)).
    + constructor; [now apply IH|].
      apply Forall_forall. intros z Hz.
      apply (Permutation_in _ (Permutation_sym (insert_desc_perm x rest))) in Hz.
      destruct Hz as [<- | Hz]; [lia|].
      rewrite Forall_forall in Hy. now apply Hy.
    + constructor; [constructor; assumption|].
      constructor; [lia|].
      apply Forall_forall. intros z Hz. rewrite Forall_forall in Hy.
      specialize (Hy z Hz). lia.
Qed.

Lemma sorted_desc_descending (l : list (string * Z)) : descending (Counting.sorted_desc l).
Proof.
  induction l as [|x l IH]; cbn; [constructor|]. now apply insert_desc_descending.
Qed.

Lemma insert_desc_stable (n : Z) (x : string * Z) (l : list (string * Z)) :
  filter (fun item => snd item =? n) (Counting.insert_desc x l) =
  filter (fun item => snd item =? n) (x :: l).
Proof.
  induction l as [|y rest IH]; [reflexivity|].
  cbn [Counting.insert_desc].
  destruct (Z.ltb_spec (snd x) (snd y)); [|reflexivity].
  cbn [filter] in IH |- *. rewrite IH.
  destruct (Z.eqb_spec (snd x) n); [|reflexivity].
  destruct (Z.eqb_spec (snd y) n); [lia | reflexivity].
Qed.

Lemma sorted_desc_stable (n : Z) (l : list (string * Z)) :
  filter (fun item => snd item =? n) (Counting.sorted_desc l) =
  filter (fun item => snd item =? n) l.
Proof.
  induction l as [|x l IH]; [reflexivity|].
  cbn [Counting.sorted_desc fold_right]. fold (Counting.sorted_desc l).
  rewrite insert_desc_stable. cbn [filter]. now rewrite IH.
Qed.

Lemma strongly_sorted_app (A : Type) (R : A -> A -> Prop) (l1 l2 : list A) :
  StronglySorted R (l1 ++ l2) ->
  StronglySorted R l1 /\ forall a b, In a l1 -> In b l2 -> R a b.
Proof.
  induction l1 as [|x l1 IH]; cbn [app]; intros Hs.
  - split; [constructor | intros a b []].
  - apply StronglySorted_inv in Hs. destruct Hs as [Hs Hx].
    destruct (IH Hs) as [Hs1 Hcross]. rewrite Forall_forall in Hx. split.
    + constructor; [exact Hs1|]. apply Forall_forall. intros z Hz.
      apply Hx. apply in_or_app. now left.
    + intros a b [<- | Ha] Hb; [|now apply Hcross].
      apply Hx. apply in_or_app. now right.
Qed.

(** The common issues of the fix log are at most five, each listed once,
    from the most frequent to the least; the count of an issue is the number
    of repairs that report it; and no issue that is left out is more
    frequent than one that is listed. *)
Theorem fix_log_common_issues (broken_urls : list FixLog.broken_url)
    (fix_results : list Repair.fix_result) (fixed_count : Z) :
  let all_issues := flat_map Repair.issues_found fix_results in
  let common := FixLog.common_issues (FixLog.fix_log broken_urls fix_results fixed_count) in
  (length common <= 5)%nat /\
  NoDup (map fst common) /\
  descending common /\
  (forall issue n, In (issue, n) common ->
                   n = occurrences issue all_issues /\ 1 <= n) /\
  (forall issue n other,
      In (issue, n) common -> In other all_issues -> ~ In other (map fst common) ->
      occurrences other all_issues <= n).
Proof.
  intros all_issues common. subst common.
  cbn [FixLog.fix_log FixLog.common_issues]. fold all_issues.
  set (counts := Counting.count_keys all_issues).
  set (ranked := Counting.sorted_desc counts).
  destruct (count_keys_spec all_issues) as (A & B & C & _ & _). fold counts in A, B, C.
  pose proof (sorted_desc_perm counts) as Hperm. fold ranked in Hperm.
  pose proof (sorted_desc_descending counts) as Hdesc. fold ranked in Hdesc.
  assert (Hnd : NoDup (map fst ranked)).
  { eapply Permutation_NoDup; [apply Permutation_map; exact Hperm | exact A]. }
  rewrite <- (firstn_skipn 5 ranked) in Hdesc, Hnd.
  unfold descending in Hdesc. apply strongly_sorted_app in Hdesc.
  destruct Hdesc as [Hfirst Hcross].
  rewrite map_app in Hnd.
  split; [apply firstn_le_length|].
  split; [now apply NoDup_app_remove_r in Hnd|].
  split; [exact Hfirst|].
  assert (Hin5 : forall item, In item (firstn 5 ranked) -> In item counts).
  { intros item Hi. apply (Permutation_in _ (Permutation_sym Hperm)).
    rewrite <- (firstn_skipn 5 ranked). apply in_or_app. now left. }
  split.
  - intros issue n Hin. destruct (B issue n (Hin5 _ Hin)) as (Hn & Hpos & _). auto.
  - intros issue n other Hin Hother Hnot.
    pose proof (C other Hother) as Hc.
    apply (Permutation_in _ Hperm) in Hc.
    rewrite <- (firstn_skipn 5 ranked) in Hc. apply in_app_iff in Hc.
    destruct Hc as [Hc | Hc].
    + exfalso. apply Hnot. apply in_map_iff. now exists (other, occurrences other all_issues).
    + apply (Hcross _ _ Hin Hc).
Qed.

Lemma note_issue_if_original (condition : bool) (issue : string) (r : Repair.fix_result) :
  Repair.original_url (Repair.note_issue_if condition issue r) = Repair.original_url r.
Proof. destruct condition; reflexivity. Qed.

Lemma analyze_issues_original (r : Repair.fix_result) :
  Repair.original_url (Repair.analyze_issues r) = Repair.original_url r.
Proof.
  unfold Repair.analyze_issues. cbv zeta. now rewrite !note_issue_if_original.
Qed.

(** The result of a repair is about the URL that was given. *)
Lemma attempt_url_fix_original (net : network) (urlparse_netloc : string -> option string)
    (original_url title source : string) (w : world) :
  Repair.original_url
    (fst (Repair.attempt_url_fix net urlparse_netloc original_url title source w))
  = original_url.
Proof.
  destruct (String.eqb_spec original_url "") as [-> | Hne].
  { now rewrite attempt_url_fix_empty_run. }
  rewrite (attempt_url_fix_steps net urlparse_netloc original_url title source w Hne).
  destruct (Validator.validate_url net original_url 5 w) as [v w1]. cbv zeta.
  destruct (Validator.is_working v); [reflexivity|].
  destruct (try_strategies_extends net original_url
              (combine Repair.fix_strategies Repair.strategy_names)
              (after_original original_url title source v) w1)
    as (added1 & (_ & A2 & _) & _ & _).
  destruct (Repair.try_strategies net original_url
              (combine Repair.fix_strategies Repair.strategy_names)
              (after_original original_url title source v) w1) as [r1 w2].
  cbn [fst] in A2.
  assert (H2 : Repair.original_url
                 (fst (if String.eqb (Repair.final_status r1) "Not Fixed"
                       then Repair.try_domain_fixes net
                              (Repair.domain_fixes urlparse_netloc original_url) r1 w2
                       else (r1, w2))) = original_url).
  { destruct (String.eqb (Repair.final_status r1) "Not Fixed"); [|exact A2].
    destruct (try_domain_fixes_extends net
                (Repair.domain_fixes urlparse_netloc original_url) r1 w2)
      as (added2 & (_ & B2 & _) & _ & _).
    now rewrite B2. }
  destruct (if String.eqb (Repair.final_status r1) "Not Fixed"
            then Repair.try_domain_fixes net
                   (Repair.domain_fixes urlparse_netloc original_url) r1 w2
            else (r1, w2)) as [r2 w3].
  cbn [fst] in H2 |- *.
  destruct (String.eqb (Repair.final_status r2) "Not Fixed"); [|exact H2].
  now rewrite analyze_issues_original.
Qed.

Lemma fix_loop_spec (net : network) (urlparse_netloc : string -> option string)
    (broken_urls : list FixLog.broken_url) :
  forall (fix_results : list Repair.fix_result) (fixed_count : Z) (w : world),
  exists new,
    fst (fst (FixLog.fix_loop net urlparse_netloc broken_urls fix_results fixed_count w))
      = fix_results ++ new /\
    Forall2 (repaired_by net urlparse_netloc) broken_urls new /\
    snd (fst (FixLog.fix_loop net urlparse_netloc broken_urls fix_results fixed_count w))
      = fixed_count + FixLog.count_status "Fixed" new.
Proof.
  induction broken_urls as [|broken_url rest IH]; intros fix_results fixed_count w.
  - exists []. cbn. rewrite app_nil_r. repeat split; [constructor | lia].
  - cbn [FixLog.fix_loop]. unfold bind.
    assert (Hby : repaired_by net urlparse_netloc broken_url
              (fst (Repair.attempt_url_fix net urlparse_netloc (FixLog.url broken_url)
                      (FixLog.text_or "" (FixLog.title broken_url))
                      (FixLog.text_or "" (FixLog.source broken_url)) w))).
    { exists w. reflexivity. }
    destruct (Repair.attempt_url_fix net urlparse_netloc (FixLog.url broken_url)
                (FixLog.text_or "" (FixLog.title broken_url))
                (FixLog.text_or "" (FixLog.source broken_url)) w) as [fix_result w1].
    cbn [fst] in Hby. cbv zeta.
    match goal with
    | |- context [FixLog.fix_loop net urlparse_netloc rest ?acc ?c w1] =>
        destruct (IH acc c w1) as (new & A & B & C)
    end.
    exists (fix_result :: new).
    split; [rewrite A, <- app_assoc; reflexivity|].
    split; [constructor; assumption|].
    rewrite C. unfold FixLog.count_status. cbn [filter].
    destruct (String.eqb (Repair.final_status fix_result) "Fixed"); cbn [length]; lia.
Qed.

Lemma repaired_by_facts (net : network) (urlparse_netloc : string -> option string)
    (broken_urls : list FixLog.broken_url) (results : list Repair.fix_result) :
  Forall2 (repaired_by net urlparse_netloc) broken_urls results ->
  map Repair.original_url results = map FixLog.url broken_urls /\
  FixLog.count_status "Fixed" results + FixLog.count_status "Already Working" results
  + FixLog.count_status "Not Fixed" results = Z.of_nat (length broken_urls) /\
  Forall (fun r => (length (Repair.fix_attempts r) <= 13)%nat) results.
Proof.
  unfold FixLog.count_status.
  induction 1 as [|b r bs rs [w Hr] Hrest IH]; [repeat split; constructor|].
  destruct IH as (IH1 & IH2 & IH3).
  pose proof (attempt_url_fix_original net urlparse_netloc (FixLog.url b)
                (FixLog.text_or "" (FixLog.title b))
                (FixLog.text_or "" (FixLog.source b)) w) as Ho.
  pose proof (attempt_url_fix_status net urlparse_netloc (FixLog.url b)
                (FixLog.text_or "" (FixLog.title b))
                (FixLog.text_or "" (FixLog.source b)) w) as Hs.
  pose proof (attempt_url_fix_trace net urlparse_netloc (FixLog.url b)
                (FixLog.text_or "" (FixLog.title b))
                (FixLog.text_or "" (FixLog.source b)) w) as Ht.
  cbv zeta in Hs, Ht. rewrite <- Hr in Ho, Hs, Ht.
  split; [cbn [map]; now rewrite Ho, IH1|]. split.
  - cbn [filter length].
    destruct Hs as [-> | [-> | ->]]; cbn [String.eqb Ascii.eqb Bool.eqb length]; lia.
  - constructor; [|exact IH3].
    destruct (String.eqb_spec (FixLog.url b) "") as [E | E].
    + rewrite Hr, E, attempt_url_fix_empty_run. cbn. lia.
    + destruct (Ht E) as (first & added & -> & _ & _ & _ & Hlen & _). cbn [length]. lia.
Qed.

(** The fix log accounts for every broken URL.  [create_url_fix_log] gives
    no log when the directory cannot be made, the list is empty or the files
    cannot be written; otherwise the log holds one repair per broken URL, in
    the order of the list and about that URL, each repair with at most
    thirteen attempts, and the numbers of fixed, already working and not
    fixed URLs add up to the number of broken URLs. *)
Theorem create_url_fix_log_summary (net : network)
    (urlparse_netloc : string -> option string)
    (directory_made files_written : bool) (broken_urls : list FixLog.broken_url)
    (w : world) :
  match fst (FixLog.create_url_fix_log net urlparse_netloc directory_made files_written
               broken_urls w) with
  | None => directory_made = false \/ broken_urls = [] \/ files_written = false
  | Some log =>
      directory_made = true /\ files_written = true /\ broken_urls <> [] /\
      FixLog.total_broken_urls log = Z.of_nat (length broken_urls) /\
      map Repair.original_url (FixLog.fix_results log) = map FixLog.url broken_urls /\
      FixLog.successfully_fixed log = FixLog.count_status "Fixed" (FixLog.fix_results log) /\
      FixLog.fixed_urls log + FixLog.already_working log + FixLog.not_fixed log
        = FixLog.total_broken_urls log /\
      Forall (fun r => (length (Repair.fix_attempts r) <= 13)%nat) (FixLog.fix_results log)
  end.
Proof.
  unfold FixLog.create_url_fix_log.
  destruct directory_made; cbn [negb]; [|now left].
  destruct broken_urls as [|b rest] eqn:Eb; [right; now left|]. rewrite <- Eb.
  unfold bind.
  destruct (fix_loop_spec net urlparse_netloc broken_urls [] 0 w) as (new & A & B & C).
  destruct (FixLog.fix_loop net urlparse_netloc broken_urls [] 0 w) as [[results count] w1].
  cbn [fst snd app] in A, C |- *. subst results.
  destruct (repaired_by_facts net urlparse_netloc broken_urls new B) as (F1 & F2 & F3).
  destruct files_written; cbn [fst ret]; [|right; now right].
  cbn [FixLog.fix_log FixLog.total_broken_urls FixLog.fix_results
       FixLog.successfully_fixed FixLog.fixed_urls FixLog.already_working
       FixLog.not_fixed].
  repeat split; try assumption; try lia.
  rewrite Eb. discriminate.
Qed.

(* ================================================================= *)
(** ** Validation followed by repair *)






(* ================================================================= *)
(** ** Floats *)

Lemma at_most_finite (x y : Z) :
  at_most (PyFloat.Finite x) (PyFloat.Finite y) <-> x <= y.
Proof.
  unfold at_most, PyFloat.leb, PyFloat.ltb. rewrite negb_true_iff, Z.ltb_ge. reflexivity.
Qed.

Lemma at_most_inf (a : PyFloat.float) : at_most a PyFloat.Inf.
Proof. destruct a; reflexivity. Qed.

Lemma at_most_refl (a : PyFloat.float) : at_most a a.
Proof. destruct a; [apply at_most_finite; lia | reflexivity]. Qed.

Lemma at_most_trans (a b c : PyFloat.float) : at_most a b -> at_most b c -> at_most a c.
Proof.
  destruct a as [x|], b as [y|], c as [z|]; rewrite ?at_most_finite;
    try (intros; apply at_most_inf); try discriminate; try lia.
Qed.

Lemma at_most_total (a b : PyFloat.float) : at_most a b \/ at_most b a.
Proof.
  destruct a as [x|], b as [y|]; rewrite ?at_most_finite;
    try (left; apply at_most_inf); try (right; apply at_most_inf). lia.
Qed.

(** The exponent of a number of more than 53 bits. *)
Lemma large_bits (n : Z) :
  2 ^ 53 <= n ->
  let e := Z.log2 n + 1 - 53 in
  1 <= e /\ (Z.log2 n + 1 <=? 53) = false /\
  2 ^ 52 * 2 ^ e <= n < 2 ^ 53 * 2 ^ e /\ 0 < 2 ^ e /\
  2 ^ 52 <= n / 2 ^ e < 2 ^ 53.
Proof.
  intros Hn e.
  assert (Hpos : 0 < n) by (assert (0 < 2 ^ 53) by (apply Z.pow_pos_nonneg; lia); lia).
  assert (Hlog : 53 <= Z.log2 n) by (apply Z.log2_le_pow2; [exact Hpos | exact Hn]).
  pose proof (Z.log2_spec n Hpos) as [Hlo Hhi].
  assert (He : 1 <= e) by (subst e; lia).
  assert (Hu : 0 < 2 ^ e) by (apply Z.pow_pos_nonneg; lia).
  assert (E1 : 2 ^ 52 * 2 ^ e = 2 ^ Z.log2 n).
  { rewrite <- Z.pow_add_r by lia. f_equal. subst e. lia. }
  assert (E2 : 2 ^ 53 * 2 ^ e = 2 ^ Z.succ (Z.log2 n)).
  { rewrite <- Z.pow_add_r by lia. f_equal. subst e. lia. }
  split; [exact He|]. split; [apply Z.leb_gt; lia|].
  split; [rewrite E1, E2; lia|]. split; [exact Hu|].
  split.
  - apply Z.div_le_lower_bound; [exact Hu|]. rewrite Z.mul_comm, E1. exact Hlo.
  - apply Z.div_lt_upper_bound; [exact Hu|]. rewrite Z.mul_comm, E2. exact Hhi.
Qed.

Lemma small_bits (n : Z) : n < 2 ^ 53 -> (Z.log2 n + 1 <=? 53) = true.
Proof.
  intros Hn. apply Z.leb_le.
  destruct (Z.le_gt_cases n 0) as [Hle | Hpos].
  - rewrite (Z.log2_nonpos n Hle). lia.
  - assert (Z.log2 n < 53) by (apply Z.log2_lt_pow2; [exact Hpos | exact Hn]). lia.
Qed.

Lemma log2_of_product (q e : Z) :
  0 <= e -> 2 ^ 52 <= q < 2 ^ 53 -> Z.log2 (q * 2 ^ e) = 52 + e.
Proof.
  intros He Hq.
  assert (Hu : 0 < 2 ^ e) by (apply Z.pow_pos_nonneg; lia).
  apply Z.log2_unique; [lia|].
  replace (Z.succ (52 + e)) with (53 + e) by lia.
  rewrite !Z.pow_add_r by lia. nia.
Qed.

Lemma cut53_small (n : Z) : n < 2 ^ 53 -> cut53 n = n.
Proof. intros Hn. unfold cut53. cbv zeta. now rewrite (small_bits n Hn). Qed.

Lemma cut53_product (q e : Z) :
  0 <= e -> 2 ^ 52 <= q <= 2 ^ 53 -> cut53 (q * 2 ^ e) = q * 2 ^ e.
Proof.
  intros He Hq.
  assert (Hu : 0 < 2 ^ e) by (apply Z.pow_pos_nonneg; lia).
  assert (Hcase : q < 2 ^ 53 \/ q = 2 ^ 53) by lia.
  unfold cut53. cbv zeta.
  destruct (Z.leb_spec (Z.log2 (q * 2 ^ e) + 1) 53) as [_ | Hbig]; [reflexivity|].
  destruct Hcase as [Hlt | ->].
  - rewrite (log2_of_product q e He (conj (proj1 Hq) Hlt)).
    replace (52 + e + 1 - 53) with e by lia.
    rewrite Z.div_mul by lia. reflexivity.
  - assert (El : Z.log2 (2 ^ 53 * 2 ^ e) = 53 + e).
    { rewrite <- Z.pow_add_r by lia. apply Z.log2_pow2. lia. }
    rewrite El. replace (53 + e + 1 - 53) with (e + 1) by lia.
    rewrite (Z.pow_add_r 2 e 1) by lia.
    replace (2 ^ 53 * 2 ^ e) with (2 ^ 52 * (2 ^ e * 2 ^ 1)) by (change (2 ^ 53) with (2 ^ 52 * 2); change (2 ^ 1) with 2; ring).
    rewrite Z.div_mul; [reflexivity|].
    change (2 ^ 1) with 2. lia.
Qed.

Lemma cut53_le (n : Z) : 0 <= n -> 0 <= cut53 n <= n.
Proof.
  intros Hn. destruct (Z.lt_ge_cases n (2 ^ 53)) as [Hs | Hl].
  - rewrite cut53_small by exact Hs. lia.
  - destruct (large_bits n Hl) as (He & Hb & Hr & Hu & Hq).
    unfold cut53. cbv zeta. rewrite Hb.
    pose proof (Z.mul_div_le n (2 ^ (Z.log2 n + 1 - 53)) Hu). nia.
Qed.

(** A number of 53 bits that is at most [m] is at most [m] cut to 53 bits. *)
Lemma cut53_above (x m : Z) : 0 <= x -> cut53 x = x -> x <= m -> x <= cut53 m.
Proof.
  intros Hx Hcut Hle. destruct (Z.lt_ge_cases m (2 ^ 53)) as [Hs | Hl].
  - now rewrite cut53_small.
  - destruct (large_bits m Hl) as (He & Hb & Hr & Hu & Hq).
    unfold cut53 at 1. cbv zeta. rewrite Hb.
    set (e := Z.log2 m + 1 - 53) in *.
    destruct (Z.lt_ge_cases x (2 ^ 52 * 2 ^ e)) as [Hlow | Hhigh]; [nia|].
    assert (Hx53 : 2 ^ 53 <= x).
    { assert (2 ^ 53 <= 2 ^ 52 * 2 ^ e); [|lia].
      change (2 ^ 53) with (2 ^ 52 * 2 ^ 1). apply Z.mul_le_mono_nonneg_l; [lia|].
      apply Z.pow_le_mono_r; lia. }
    assert (Hlog : Z.log2 x = Z.log2 m).
    { assert (0 < x) by lia. assert (0 < m) by lia.
      apply Z.le_antisymm; [now apply Z.log2_le_mono|].
      apply Z.log2_le_pow2; [lia|].
      replace (Z.log2 m) with (52 + e) by (subst e; lia).
      rewrite Z.pow_add_r by lia. exact Hhigh. }
    destruct (large_bits x Hx53) as (_ & Hbx & _ & _ & _).
    unfold cut53 in Hcut. cbv zeta in Hcut. rewrite Hbx, Hlog in Hcut. fold e in Hcut.
    rewrite <- Hcut.
    apply Z.mul_le_mono_nonneg_r; [lia|]. apply Z.div_le_mono; [exact Hu | exact Hle].
Qed.

(** What [round] returns: a float of 53 bits between the number cut to 53
    bits and the next one. *)
Lemma round_spec (n : Z) :
  0 <= n -> binary64 (PyFloat.round n) /\ at_most (PyFloat.Finite (cut53 n)) (PyFloat.round n).
Proof.
  intros Hn. destruct (Z.lt_ge_cases n (2 ^ 53)) as [Hs | Hl].
  - unfold PyFloat.round. cbv zeta. rewrite (small_bits n Hs), (cut53_small n Hs).
    split; [|apply at_most_refl].
    split; [|now apply cut53_small].
    assert (2 ^ 53 < 2 ^ 1024) by (apply Z.pow_lt_mono_r; lia). lia.
  - destruct (large_bits n Hl) as (He & Hb & Hr & Hu & Hq).
    unfold PyFloat.round, cut53. cbv zeta. rewrite Hb.
    set (e := Z.log2 n + 1 - 53) in *.
    set (q := n / 2 ^ e) in *.
    set (q' := if (2 ^ e <? 2 * (n mod 2 ^ e)) || ((2 * (n mod 2 ^ e) =? 2 ^ e) && Z.odd q)
               then q + 1 else q).
    assert (Hq' : q <= q' <= q + 1) by (subst q'; destruct (_ || _); lia).
    destruct (Z.leb_spec (2 ^ 1024) (q' * 2 ^ e)) as [Hinf | Hfin].
    + split; [exact I | apply at_most_inf].
    + split.
      * split; [nia|]. apply cut53_product; lia.
      * apply at_most_finite. nia.
Qed.

Lemma binary64_nonneg (a : PyFloat.float) : binary64 a -> at_most (PyFloat.Finite 0) a.
Proof.
  destruct a as [x|]; [|intros _; reflexivity].
  intros [Hx _]. apply at_most_finite. lia.
Qed.

(** A sum is a float again, and not below its terms. *)
Lemma add_spec (a b : PyFloat.float) :
  binary64 a -> binary64 b ->
  binary64 (PyFloat.add a b) /\ at_most a (PyFloat.add a b) /\ at_most b (PyFloat.add a b).
Proof.
  destruct a as [x|], b as [y|]; cbn [PyFloat.add binary64];
    try (intros _ _; repeat split; apply at_most_inf).
  intros [Hx Hcx] [Hy Hcy].
  destruct (round_spec (x + y)) as [Hb Hle]; [lia|].
  split; [exact Hb|]. split.
  - apply at_most_trans with (PyFloat.Finite (cut53 (x + y))); [|exact Hle].
    apply at_most_finite. apply cut53_above; [lia | exact Hcx | lia].
  - apply at_most_trans with (PyFloat.Finite (cut53 (x + y))); [|exact Hle].
    apply at_most_finite. apply cut53_above; [lia | exact Hcy | lia].
Qed.

Lemma max_spec (a b : PyFloat.float) :
  at_most a (PyFloat.max a b) /\ at_most b (PyFloat.max a b) /\
  (PyFloat.max a b = a \/ PyFloat.max a b = b).
Proof.
  unfold PyFloat.max. destruct (PyFloat.ltb a b) eqn:E.
  - split; [|split; [apply at_most_refl | now right]].
    destruct (at_most_total a b) as [H | H]; [exact H|].
    unfold at_most, PyFloat.leb in H. rewrite E in H. discriminate H.
  - split; [apply at_most_refl|]. split; [|now left].
    unfold at_most, PyFloat.leb. now rewrite E.
Qed.

Lemma min_spec (a b : PyFloat.float) :
  at_most (PyFloat.min a b) a /\ at_most (PyFloat.min a b) b /\
  (PyFloat.min a b = a \/ PyFloat.min a b = b).
Proof.
  unfold PyFloat.min. destruct (PyFloat.ltb b a) eqn:E.
  - split; [|split; [apply at_most_refl | now right]].
    destruct (at_most_total b a) as [H | H]; [exact H|].
    unfold at_most, PyFloat.leb in H. rewrite E in H. discriminate H.
  - split; [apply at_most_refl|]. split; [|now left].
    unfold at_most, PyFloat.leb. now rewrite E.
Qed.

Lemma fold_max_bounds (l : list PyFloat.float) :
  forall a,
    at_most a (fold_left PyFloat.max l a) /\
    (forall x, In x l -> at_most x (fold_left PyFloat.max l a)) /\
    In (fold_left PyFloat.max l a) (a :: l).
Proof.
  induction l as [|y l IH]; intros a; cbn [fold_left].
  - split; [apply at_most_refl|]. split; [intros x []|now left].
  - destruct (IH (PyFloat.max a y)) as (H1 & H2 & H3).
    destruct (max_spec a y) as (M1 & M2 & M3).
    split; [now apply at_most_trans with (PyFloat.max a y)|]. split.
    + intros x [<- | Hx]; [now apply at_most_trans with (PyFloat.max a y) | now apply H2].
    + destruct H3 as [H3 | H3]; [|right; now right].
      rewrite <- H3. destruct M3 as [-> | ->]; [now left | right; now left].
Qed.

Lemma fold_min_bounds (l : list PyFloat.float) :
  forall a,
    at_most (fold_left PyFloat.min l a) a /\
    (forall x, In x l -> at_most (fold_left PyFloat.min l a) x) /\
    In (fold_left PyFloat.min l a) (a :: l).
Proof.
  induction l as [|y l IH]; intros a; cbn [fold_left].
  - split; [apply at_most_refl|]. split; [intros x []|now left].
  - destruct (IH (PyFloat.min a y)) as (H1 & H2 & H3).
    destruct (min_spec a y) as (M1 & M2 & M3).
    split; [now apply at_most_trans with (PyFloat.min a y)|]. split.
    + intros x [<- | Hx]; [now apply at_most_trans with (PyFloat.min a y) | now apply H2].
    + destruct H3 as [H3 | H3]; [|right; now right].
      rewrite <- H3. destruct M3 as [-> | ->]; [now left | right; now left].
Qed.

Lemma fold_add_bounds (l : list PyFloat.float) :
  Forall binary64 l ->
  forall total m, binary64 total -> at_most m total ->
    at_most (fold_left PyFloat.max l m) (fold_left PyFloat.add l total).
Proof.
  induction 1 as [|y l Hy Hl IH]; intros total m Ht Hm; cbn [fold_left]; [exact Hm|].
  destruct (add_spec total y Ht Hy) as (A1 & A2 & A3).
  apply IH; [exact A1|].
  destruct (max_spec m y) as (_ & _ & [-> | ->]);
    [now apply at_most_trans with total | exact A3].
Qed.

(** [float(s)] and [+] round to 53 bits, ties to the even significand, and
    overflow to [inf]. *)
Example round_examples :
  PyFloat.round 9007199254740993 = PyFloat.Finite 9007199254740992 /\
  PyFloat.round 9007199254740995 = PyFloat.Finite 9007199254740996 /\
  PyFloat.add (PyFloat.add (PyFloat.Finite 9007199254740992) (PyFloat.Finite 1))
    (PyFloat.Finite 1) = PyFloat.Finite 9007199254740992 /\
  PyFloat.round (10 ^ 23) = PyFloat.Finite 99999999999999991611392 /\
  PyFloat.round (10 ^ 309) = PyFloat.Inf.
Proof. vm_compute. repeat split. Qed.

(* ================================================================= *)
(** ** Amounts *)

Lemma decode_nil (s : string) : decode s = [] <-> s = "".
Proof.
  split; [|intros ->; reflexivity].
  destruct s as [|c s]; [reflexivity|].
  unfold decode. cbn [decode_from].
  destruct (decode_head _ _ _ _). discriminate.
Qed.

Lemma decimal_runs :
  forallb (fun zero =>
             forallb (fun k => Unicode.is_digit (zero + k))
               [0; 1; 2; 3; 4; 5; 6; 7; 8; 9]%N)
    Unicode.decimal_zero = true.
Proof. vm_compute. reflexivity. Qed.

(** The decimal digits are digits for [str.isdigit]. *)
Lemma decimal_is_digit (n : N) :
  Unicode.decimal_value n <> None -> Unicode.is_digit n = true.
Proof.
  unfold Unicode.decimal_value.
  destruct (filter _ Unicode.decimal_zero) as [|zero rest] eqn:E; [congruence|].
  intros _.
  assert (Hin : In zero (filter (fun zero => ((zero <=? n) && (n <=? zero + 9))%N)
                           Unicode.decimal_zero)) by (rewrite E; now left).
  apply filter_In in Hin. destruct Hin as [Hin Hb].
  apply andb_true_iff in Hb. destruct Hb as [Hlo Hhi].
  apply N.leb_le in Hlo, Hhi.
  pose proof decimal_runs as Hruns. rewrite forallb_forall in Hruns.
  specialize (Hruns zero Hin). rewrite forallb_forall in Hruns.
  replace n with (zero + (n - zero))%N by lia.
  apply Hruns.
  assert (Hk : (n - zero <= 9)%N) by lia.
  revert Hk. generalize (n - zero)%N. intros k Hk.
  assert (Hcases : (k = 0 \/ k = 1 \/ k = 2 \/ k = 3 \/ k = 4 \/ k = 5 \/ k = 6 \/
                    k = 7 \/ k = 8 \/ k = 9)%N) by lia.
  cbn [In]. intuition auto.
Qed.

Lemma digits_value_decimal (l : list N) :
  forall acc, 0 <= acc ->
    (Forall (fun n => Unicode.decimal_value n <> None) l ->
     exists v, Analysis.digits_value acc l = Some v /\ 0 <= v) /\
    (~ Forall (fun n => Unicode.decimal_value n <> None) l ->
     Analysis.digits_value acc l = None).
Proof.
  induction l as [|n l IH]; intros acc Hacc; cbn [Analysis.digits_value].
  - split; [intros _; now exists acc | intros H; exfalso; apply H; constructor].
  - destruct (Unicode.decimal_value n) as [d|] eqn:Ed.
    + destruct (IH (10 * acc + Z.of_N d)) as [Hyes Hno]; [lia|]. split.
      * intros H. apply Forall_cons_iff in H. now apply Hyes.
      * intros H. apply Hno. intros Hl. apply H. constructor; [congruence | exact Hl].
    + split; [|reflexivity].
      intros H. apply Forall_cons_iff in H. destruct H as [H _]. congruence.
Qed.

Lemma decimal_digits_check (l : list N) :
  decimal_digits l <->
  negb (Nat.eqb (length l) 0)
  && forallb (fun n => match Unicode.decimal_value n with Some _ => true | None => false end) l
  = true.
Proof.
  unfold decimal_digits. rewrite andb_true_iff, forallb_forall, Forall_forall. split.
  - intros [Hne Hd]. split.
    + destruct l; [congruence | reflexivity].
    + intros n Hn. specialize (Hd n Hn). destruct (Unicode.decimal_value n); congruence.
  - intros [Hne Hd]. split.
    + destruct l; [discriminate Hne | discriminate].
    + intros n Hn. specialize (Hd n Hn). destruct (Unicode.decimal_value n); congruence.
Qed.

(** What a string contributes to [amounts] once it is cleaned. *)
Lemma amount_of_string (r : Searcher.opportunity) (s : string) :
  Searcher.amount_max r = Some (Searcher.PyStr s) ->
  (decimal_digits (decode (Analysis.clean_amount s)) ->
   exists v,
     Analysis.digits_value 0 (decode (Analysis.clean_amount s)) = Some v /\ 0 <= v /\
     Analysis.amount_of r = [PyFloat.round v]) /\
  (~ decimal_digits (decode (Analysis.clean_amount s)) -> Analysis.amount_of r = []).
Proof.
  intros Hs. unfold Analysis.amount_of. rewrite Hs. cbv zeta.
  set (t := Analysis.clean_amount s).
  destruct (digits_value_decimal (decode t) 0) as [Hyes Hno]; [lia|].
  split.
  - intros [Hne Hd]. destruct (Hyes Hd) as (v & Hv & Hpos).
    exists v. split; [exact Hv|]. split; [exact Hpos|].
    assert (Hfalsy : falsy t = false).
    { destruct t; [exfalso; apply Hne; reflexivity | reflexivity]. }
    assert (Hdig : isdigit t = true).
    { unfold isdigit. destruct (decode t) as [|n l] eqn:El; [congruence|].
      apply forallb_forall. intros x Hx. apply decimal_is_digit.
      rewrite Forall_forall in Hd. now apply Hd. }
    rewrite Hfalsy, Hdig. cbn [negb andb].
    unfold Analysis.float_of_digits.
    destruct (decode t) as [|n l] eqn:El; [congruence|].
    rewrite Hv. reflexivity.
  - intros Hnot.
    destruct (negb (falsy t) && isdigit t) eqn:E; [|reflexivity].
    unfold Analysis.float_of_digits.
    destruct (decode t) as [|n l] eqn:El; [reflexivity|].
    rewrite Hno; [reflexivity|].
    intros Hd. apply Hnot. split; [discriminate | exact Hd].
Qed.

Lemma amount_of_binary64 (r : Searcher.opportunity) :
  Forall binary64 (Analysis.amount_of r).
Proof.
  destruct (Searcher.amount_max r) as [[s|n|]|] eqn:E.
  - destruct (amount_of_string r s E) as [Hyes Hno].
    assert (Hdec : decimal_digits (decode (Analysis.clean_amount s)) \/
                   ~ decimal_digits (decode (Analysis.clean_amount s))).
    { unfold decimal_digits.
      destruct (decode (Analysis.clean_amount s)) as [|n l]; [right; intros [H _]; congruence|].
      destruct (Forall_dec (fun n => Unicode.decimal_value n <> None)) with (l := n :: l)
        as [H | H].
      - intros x. destruct (Unicode.decimal_value x); [left; discriminate | right; congruence].
      - left. split; [discriminate | exact H].
      - right. intros [_ H']. contradiction. }
    destruct Hdec as [H | H].
    + destruct (Hyes H) as (v & _ & Hpos & ->). constructor; [|constructor].
      apply round_spec. exact Hpos.
    + rewrite (Hno H). constructor.
  - unfold Analysis.amount_of. rewrite E. constructor.
  - unfold Analysis.amount_of. rewrite E. constructor.
  - unfold Analysis.amount_of. rewrite E.
    change (Forall binary64 [PyFloat.Finite 0]).
    constructor; [|constructor]. split; [lia | reflexivity].
Qed.

(** The amounts of the values that are present: a record whose [amount_max]
    is a string contributes exactly when the string, after removing commas,
    "€" and "EUR" and stripping white space, is a non-empty run of decimal
    digits, of whatever script, and then it contributes the float nearest to
    the number written; any other string and any value that is not a string
    contribute nothing.  So "N/A" and a superscript two are left out,
    "50,000" counts for 50000, the Arabic-Indic "٣٠٠٠" for 3000, and
    9007199254740993, which no float holds, for 9007199254740992. *)
Theorem amounts_decimal_strings (all_results : list Searcher.opportunity) :
  Analysis.amounts all_results = flat_map Analysis.amount_of all_results /\
  (forall r s,
      Searcher.amount_max r = Some (Searcher.PyStr s) ->
      (decimal_digits (decode (Analysis.clean_amount s)) ->
       exists v,
         Analysis.digits_value 0 (decode (Analysis.clean_amount s)) = Some v /\
         0 <= v /\
         Analysis.amount_of r = [PyFloat.round v]) /\
      (~ decimal_digits (decode (Analysis.clean_amount s)) ->
       Analysis.amount_of r = [])) /\
  (forall r n, Searcher.amount_max r = Some (Searcher.PyInt n) ->
               Analysis.amount_of r = []) /\
  (forall r, Searcher.amount_max r = Some Searcher.PyNone -> Analysis.amount_of r = []) /\
  Analysis.amounts
    [record_with_amount (Some (Searcher.PyStr "N/A"));
     record_with_amount (Some (Searcher.PyStr "50,000"));
     record_with_amount (Some (Searcher.PyStr "²"));
     record_with_amount (Some (Searcher.PyStr "٣٠٠٠"));
     record_with_amount (Some (Searcher.PyStr "9007199254740993"));
     record_with_amount (Some (Searcher.PyInt 50000))]
  = [PyFloat.Finite 50000; PyFloat.Finite 3000; PyFloat.Finite 9007199254740992].
Proof.
  split; [apply amounts_flat_map|].
  split; [intros r s; apply amount_of_string|].
  split; [|split].
  - intros r n E. unfold Analysis.amount_of. now rewrite E.
  - intros r E. unfold Analysis.amount_of. now rewrite E.
  - vm_compute. reflexivity.
Qed.

Lemma amounts_decimal_strings_witness :
  Analysis.amount_of (record_with_amount (Some (Searcher.PyStr "€ 50,000")))
  = [PyFloat.Finite 50000] /\
  Analysis.amount_of (record_with_amount (Some (Searcher.PyStr "12.5"))) = [].
Proof.
  destruct (amounts_decimal_strings []) as (_ & H & _).
  split.
  - destruct (H (record_with_amount (Some (Searcher.PyStr "€ 50,000"))) "€ 50,000"
                eq_refl) as (Hyes & _).
    destruct Hyes as (v & Hv & _ & ->).
    + apply decimal_digits_check. vm_compute. reflexivity.
    + vm_compute in Hv. injection Hv as <-. reflexivity.
  - destruct (H (record_with_amount (Some (Searcher.PyStr "12.5"))) "12.5" eq_refl)
      as (_ & Hno).
    apply Hno. intros Hd. apply decimal_digits_check in Hd.
    vm_compute in Hd. discriminate Hd.
Defined.

(* ================================================================= *)
(** ** Funding statistics *)

Lemma amounts_binary64 (all_results : list Searcher.opportunity) :
  Forall binary64 (Analysis.amounts all_results).
Proof.
  rewrite amounts_flat_map. apply Forall_forall. intros a Ha.
  apply in_flat_map in Ha. destruct Ha as (r & _ & Ha).
  pose proof (amount_of_binary64 r) as Hr. rewrite Forall_forall in Hr. now apply Hr.
Qed.

Lemma funding_range (a : PyFloat.float) :
  ((if PyFloat.ltb a (PyFloat.Finite 10000) then 1 else 0)
   + (if PyFloat.leb (PyFloat.Finite 10000) a && PyFloat.ltb a (PyFloat.Finite 50000)
      then 1 else 0)
   + (if PyFloat.leb (PyFloat.Finite 50000) a && PyFloat.ltb a (PyFloat.Finite 100000)
      then 1 else 0)
   + (if PyFloat.leb (PyFloat.Finite 100000) a then 1 else 0) = 1)%nat.
Proof.
  destruct a as [x|]; [|reflexivity].
  unfold PyFloat.leb, PyFloat.ltb.
  destruct (Z.ltb_spec x 10000); destruct (Z.ltb_spec x 50000);
    destruct (Z.ltb_spec x 100000); cbn [negb andb]; lia.
Qed.

(** The funding statistics are consistent.  Every amount taken into account
    is a float that is not negative; the lowest and the highest funding are
    amounts of the list and bound every amount; the total, though each of
    its sums is rounded, is at least the highest; all three are 0 when no
    amount was found; and the four funding ranges of the report hold each
    amount exactly once. *)
Theorem funding_statistics_bounds (all_results : list Searcher.opportunity) :
  Forall (fun a => binary64 a /\ at_most (PyFloat.Finite 0) a)
    (Analysis.amounts all_results) /\
  (forall a, In a (Analysis.amounts all_results) ->
             at_most (Analysis.min_funding all_results) a /\
             at_most a (Analysis.max_funding all_results)) /\
  (Analysis.amounts all_results <> [] ->
   In (Analysis.min_funding all_results) (Analysis.amounts all_results) /\
   In (Analysis.max_funding all_results) (Analysis.amounts all_results)) /\
  at_most (PyFloat.Finite 0) (Analysis.min_funding all_results) /\
  at_most (Analysis.min_funding all_results) (Analysis.max_funding all_results) /\
  at_most (Analysis.max_funding all_results) (Analysis.total_funding all_results) /\
  (Analysis.amounts all_results = [] ->
   Analysis.min_funding all_results = PyFloat.Finite 0 /\
   Analysis.max_funding all_results = PyFloat.Finite 0 /\
   Analysis.total_funding all_results = PyFloat.Finite 0) /\
  (Report.under_10k (Analysis.amounts all_results)
   + Report.from_10k_to_50k (Analysis.amounts all_results)
   + Report.from_50k_to_100k (Analysis.amounts all_results)
   + Report.over_100k (Analysis.amounts all_results)
   = length (Analysis.amounts all_results))%nat.
Proof.
  pose proof (amounts_binary64 all_results) as Hb.
  unfold Analysis.min_funding, Analysis.max_funding, Analysis.total_funding.
  split.
  { apply Forall_forall. intros a Ha. rewrite Forall_forall in Hb.
    split; [now apply Hb | apply binary64_nonneg; now apply Hb]. }
  assert (Hranges :
    (Report.under_10k (Analysis.amounts all_results)
     + Report.from_10k_to_50k (Analysis.amounts all_results)
     + Report.from_50k_to_100k (Analysis.amounts all_results)
     + Report.over_100k (Analysis.amounts all_results)
     = length (Analysis.amounts all_results))%nat).
  { unfold Report.under_10k, Report.from_10k_to_50k, Report.from_50k_to_100k,
      Report.over_100k.
    generalize (Analysis.amounts all_results). intros l.
    induction l as [|x l IH]; [reflexivity|].
    cbn [filter]. pose proof (funding_range x) as Hx.
    destruct (PyFloat.ltb x (PyFloat.Finite 10000));
      destruct (PyFloat.leb (PyFloat.Finite 10000) x && PyFloat.ltb x (PyFloat.Finite 50000));
      destruct (PyFloat.leb (PyFloat.Finite 50000) x && PyFloat.ltb x (PyFloat.Finite 100000));
      destruct (PyFloat.leb (PyFloat.Finite 100000) x);
      cbn [length] in *; lia. }
  destruct (Analysis.amounts all_results) as [|a0 rest] eqn:E.
  - split; [intros a []|]. split; [intros H; congruence|].
    split; [reflexivity|]. split; [reflexivity|]. split; [reflexivity|].
    split; [auto | exact Hranges].
  - apply Forall_cons_iff in Hb. destruct Hb as [H0 Hrest].
    destruct (fold_max_bounds rest a0) as (M1 & M2 & M3).
    destruct (fold_min_bounds rest a0) as (N1 & N2 & N3).
    split; [|split; [|split; [|split; [|split; [|split]]]]].
    + intros a [<- | Ha]; [split; assumption | split; [now apply N2 | now apply M2]].
    + intros _. split; assumption.
    + apply binary64_nonneg.
      assert (Hall : Forall binary64 (a0 :: rest)) by (constructor; assumption).
      rewrite Forall_forall in Hall. now apply Hall.
    + now apply at_most_trans with a0.
    + cbn [fold_left].
      destruct (add_spec (PyFloat.Finite 0) a0) as (A1 & _ & A3);
        [split; [split; [lia | reflexivity] | reflexivity] | exact H0 |].
      apply fold_add_bounds; assumption.
    + discriminate.
    + exact Hranges.
Qed.

(* ================================================================= *)
(** ** Repairing a URL that has no scheme *)

Lemma note_issue_if_keeps (condition : bool) (issue i : string) (r : Repair.fix_result) :
  In i (Repair.issues_found r) ->
  In i (Repair.issues_found (Repair.note_issue_if condition issue r)).
Proof.
  destruct condition; cbn; [|auto]. intros H. apply in_or_app. now left.
Qed.

Lemma analyze_issues_missing_protocol (r : Repair.fix_result) :
  Repair.has_scheme (Repair.original_url r) = false ->
  In "Missing protocol" (Repair.issues_found (Repair.analyze_issues r)).
Proof.
  intros H. unfold Repair.analyze_issues. cbv zeta. rewrite H. cbn [negb].
  do 6 apply note_issue_if_keeps.
  cbn [Repair.note_issue_if Repair.append_issue Repair.issues_found].
  apply in_or_app. right. now left.
Qed.

Lemma has_scheme_differs (a b : string) :
  Repair.has_scheme a = true -> Repair.has_scheme b = false -> String.eqb a b = false.
Proof.
  intros Ha Hb. destruct (String.eqb_spec a b) as [-> | _]; [congruence | reflexivity].
Qed.

(** A URL typed without a scheme is turned down without a request, and the
    first candidate tried for it is the URL with "https://" in front, under
    the name "Add missing protocol": if that candidate works the repair ends
    there, and if the repair fails altogether the issues name the missing
    protocol. *)
Theorem attempt_url_fix_without_scheme (net : network)
    (urlparse_netloc : string -> option string)
    (original_url title source : string) (w : world) :
  original_url <> "" ->
  Repair.has_scheme original_url = false ->
  let r := fst (Repair.attempt_url_fix net urlparse_netloc original_url title source w) in
  exists first second rest,
    Repair.fix_attempts r = first :: second :: rest /\
    Repair.url first = original_url /\
    Repair.status first = "Invalid URL" /\
    Repair.url second = ("https://" ++ original_url)%string /\
    Repair.strategy second = "Add missing protocol" /\
    (Repair.working second = true ->
     rest = [] /\ Repair.final_status r = "Fixed" /\
     Repair.working_url r = Some ("https://" ++ original_url)%string /\
     Repair.fix_strategy r = Some "Add missing protocol") /\
    (Repair.final_status r = "Not Fixed" ->
     In "Missing protocol" (Repair.issues_found r)).
Proof.
  intros Hne Hscheme r. subst r.
  rewrite (attempt_url_fix_steps net urlparse_netloc original_url title source w Hne).
  rewrite validate_url_run, Hscheme. cbv zeta. cbn [Validator.is_working].
  unfold after_original. cbn [Validator.status Validator.is_working].
  set (first := {| Repair.strategy := "Original URL"; Repair.url := original_url;
                   Repair.status := "Invalid URL"; Repair.working := false;
                   Repair.response_time := None; Repair.page_title := None |}).
  set (r0 := {| Repair.original_url := original_url; Repair.title := title;
                Repair.source := source; Repair.fix_attempts := [first];
                Repair.final_status := "Not Fixed"; Repair.working_url := None;
                Repair.fix_strategy := None; Repair.issues_found := [] |}).
  set (w1 := {| requests := requests w;
                validations := validations w ++ [(original_url, false)] |}).
  assert (Hcand : Repair.strategy_1 original_url = ("https://" ++ original_url)%string).
  { unfold Repair.strategy_1. now rewrite Hscheme. }
  assert (Hcs : Repair.has_scheme ("https://" ++ original_url)%string = true).
  { unfold Repair.has_scheme. cbn. destruct original_url; reflexivity. }
  pose proof (has_scheme_differs _ _ Hcs Hscheme) as Hdiff.
  change (combine Repair.fix_strategies Repair.strategy_names)
    with ((Repair.strategy_1, "Add missing protocol")
          :: combine (tl Repair.fix_strategies) (tl Repair.strategy_names)).
  set (others := combine (tl Repair.fix_strategies) (tl Repair.strategy_names)).
  cbn [Repair.try_strategies]. rewrite Hcand, Hdiff.
  assert (Htested : Repair.already_tested ("https://" ++ original_url)%string r0 = false).
  { unfold Repair.already_tested. cbn [r0 Repair.fix_attempts existsb first Repair.url].
    rewrite String.eqb_sym, Hdiff. reflexivity. }
  rewrite Htested. unfold bind.
  destruct (Validator.validate_url net ("https://" ++ original_url)%string 5 w1)
    as [v2 w2].
  set (second := Repair.attempt_of "Add missing protocol"
                   ("https://" ++ original_url)%string v2).
  exists first, second.
  destruct (Validator.is_working v2) eqn:Hv2.
  - exists []. cbn [ret fst snd Repair.mark_fixed Repair.final_status String.eqb
                    Ascii.eqb Bool.eqb Repair.fix_attempts Repair.append_attempt r0 app
                    Repair.working_url Repair.fix_strategy].
    do 5 (split; [reflexivity|]). split.
    + intros _. repeat split.
    + discriminate.
  - destruct (try_strategies_extends net original_url others
                (Repair.append_attempt second r0) w2) as (added1 & (A1 & A2 & A3) & _ & _).
    destruct (Repair.try_strategies net original_url others
                (Repair.append_attempt second r0) w2) as [r1 w3].
    cbn [fst] in A1, A2, A3.
    assert (Hstep2 : exists added2,
      extends_history r1
        (fst (if String.eqb (Repair.final_status r1) "Not Fixed"
              then Repair.try_domain_fixes net
                     (Repair.domain_fixes urlparse_netloc original_url) r1 w3
              else (r1, w3))) added2).
    { destruct (String.eqb (Repair.final_status r1) "Not Fixed").
      - destruct (try_domain_fixes_extends net
                    (Repair.domain_fixes urlparse_netloc original_url) r1 w3)
          as (added2 & B & _). now exists added2.
      - exists []. apply extends_history_nil. }
    destruct Hstep2 as (added2 & B1 & B2 & B3).
    destruct (if String.eqb (Repair.final_status r1) "Not Fixed"
              then Repair.try_domain_fixes net
                     (Repair.domain_fixes urlparse_netloc original_url) r1 w3
              else (r1, w3)) as [r2 w4].
    cbn [fst] in B1, B2, B3 |- *.
    exists (added1 ++ added2).
    assert (Hatt : Repair.fix_attempts r2 = first :: second :: added1 ++ added2).
    { rewrite B1, A1. cbn [Repair.append_attempt Repair.fix_attempts r0 app].
      reflexivity. }
    assert (Horig : Repair.original_url r2 = original_url).
    { rewrite B2, A2. reflexivity. }
    assert (Hsecond : Repair.working second = false) by exact Hv2.
    destruct (String.eqb (Repair.final_status r2) "Not Fixed") eqn:E2.
    + destruct (analyze_issues_outcome r2) as (C1 & _).
      rewrite C1. split; [exact Hatt|].
      do 4 (split; [reflexivity|]). split.
      * intros H. rewrite Hsecond in H. discriminate H.
      * intros _. apply analyze_issues_missing_protocol. now rewrite Horig.
    + split; [exact Hatt|].
      do 4 (split; [reflexivity|]). split.
      * intros H. rewrite Hsecond in H. discriminate H.
      * intros H. apply String.eqb_neq in E2. contradiction.
Qed.

Lemma attempt_url_fix_without_scheme_witness :
  exists first second rest,
    Repair.fix_attempts
      (fst (Repair.attempt_url_fix (network_serving ["https://example.org/grants"])
              Repair.netloc_basic "example.org/grants" "Grant" "Sample" empty_world))
    = first :: second :: rest /\
    Repair.url first = "example.org/grants" /\
    Repair.status first = "Invalid URL" /\
    Repair.url second = "https://example.org/grants" /\
    Repair.strategy second = "Add missing protocol" /\
    (Repair.working second = true ->
     rest = [] /\
     Repair.final_status
       (fst (Repair.attempt_url_fix (network_serving ["https://example.org/grants"])
               Repair.netloc_basic "example.org/grants" "Grant" "Sample" empty_world))
     = "Fixed" /\
     Repair.working_url
       (fst (Repair.attempt_url_fix (network_serving ["https://example.org/grants"])
               Repair.netloc_basic "example.org/grants" "Grant" "Sample" empty_world))
     = Some "https://example.org/grants" /\
     Repair.fix_strategy
       (fst (Repair.attempt_url_fix (network_serving ["https://example.org/grants"])
               Repair.netloc_basic "example.org/grants" "Grant" "Sample" empty_world))
     = Some "Add missing protocol") /\
    (Repair.final_status
       (fst (Repair.attempt_url_fix (network_serving ["https://example.org/grants"])
               Repair.netloc_basic "example.org/grants" "Grant" "Sample" empty_world))
     = "Not Fixed" ->
     In "Missing protocol"
       (Repair.issues_found
          (fst (Repair.attempt_url_fix (network_serving ["https://example.org/grants"])
                  Repair.netloc_basic "example.org/grants" "Grant" "Sample"
                  empty_world)))).
Proof.
  apply (attempt_url_fix_without_scheme (network_serving ["https://example.org/grants"])
           Repair.netloc_basic "example.org/grants" "Grant" "Sample" empty_world).
  - discriminate.
  - reflexivity.
Defined.
